(** * The MoodGenesis front end ([static/script.js]): session state,
    handlers and their properties.

    The script is a set of event handlers over a handful of script
    variables and page elements.  Three of the handlers are [async]: they
    send a request, suspend, and resume when the reply arrives, other
    handlers being free to run meanwhile.  The embedding keeps that shape:
    a handler maps the state to a new state and a [task], which is either
    finished or waits for a reply with a continuation. *)

From Stdlib Require Import List ZArith NArith QArith Qround Qabs String Ascii Bool
  Permutation Lia SpecFloat.
Import ListNotations.
Close Scope Q_scope.
Open Scope string_scope.
Open Scope list_scope.

(** ** JavaScript strings

    A JavaScript string is a sequence of UTF-16 code units; [length]
    counts code units. *)

Module JsString.

Definition code_unit := N.
Definition t := list code_unit.

(** An ASCII literal of the source. *)
Definition lit (s : string) : t := map N_of_ascii (list_ascii_of_string s).

(** WhiteSpace and LineTerminator code units, the ones [trim] strips. *)
Definition isWhiteSpace (c : code_unit) : bool :=
  ((9 <=? c) && (c <=? 13) || (c =? 32) || (c =? 160) || (c =? 5760)
   || (8192 <=? c) && (c <=? 8202) || (c =? 8232) || (c =? 8233)
   || (c =? 8239) || (c =? 8287) || (c =? 12288) || (c =? 65279))%N.

Fixpoint trimStart (s : t) : t :=
  match s with
  | c :: s' => if isWhiteSpace c then trimStart s' else s
  | [] => []
  end.

Definition trimEnd (s : t) : t := rev (trimStart (rev s)).

Definition trim (s : t) : t := trimEnd (trimStart s).

Fixpoint startsWith (s p : t) : bool :=
  match p, s with
  | [], _ => true
  | _ :: _, [] => false
  | c :: p', d :: s' => (c =? d)%N && startsWith s' p'
  end.

Fixpoint includes (s p : t) : bool :=
  startsWith s p ||
  match s with
  | [] => false
  | _ :: s' => includes s' p
  end.

Definition digit (d : N) : code_unit := (48 + d)%N.

Fixpoint of_uint (u : Decimal.uint) : t :=
  match u with
  | Decimal.Nil => []
  | Decimal.D0 u => digit 0 :: of_uint u
  | Decimal.D1 u => digit 1 :: of_uint u
  | Decimal.D2 u => digit 2 :: of_uint u
  | Decimal.D3 u => digit 3 :: of_uint u
  | Decimal.D4 u => digit 4 :: of_uint u
  | Decimal.D5 u => digit 5 :: of_uint u
  | Decimal.D6 u => digit 6 :: of_uint u
  | Decimal.D7 u => digit 7 :: of_uint u
  | Decimal.D8 u => digit 8 :: of_uint u
  | Decimal.D9 u => digit 9 :: of_uint u
  end.

(** A non-negative integer as a template literal renders it. *)
Definition of_N (n : N) : t := of_uint (N.to_uint n).

(** Strict equality of two strings. *)
Fixpoint eqb (a b : t) : bool :=
  match a, b with
  | [], [] => true
  | c :: a', d :: b' => (c =? d)%N && eqb a' b'
  | _, _ => false
  end.

(** Truthiness of a string: the empty string is falsy. *)
Definition truthy (s : t) : bool :=
  match s with [] => false | _ :: _ => true end.

End JsString.

Definition jsstring : Type := JsString.t.
Definition lit : string -> jsstring := JsString.lit.
Arguments lit s : simpl never.

(** ** Numbers

    A number is an IEEE 754 binary64 value; addition and division round
    to the nearest value, ties to even. *)
Definition number : Type := spec_float.

(** The number a JSON integer is parsed to. *)
Definition number_of_Z (z : Z) : number := binary_normalize 53 1024 z 0 false.

Definition number_add : number -> number -> number := SFadd 53 1024.

Definition number_div : number -> number -> number := SFdiv 53 1024.

(** [Math.round]: the integer nearest to the number, the greater one of
    two that are equally near; zero keeps the sign of the number, and
    what is not finite is returned as it is. *)
Definition Math_round (x : number) : number :=
  match x with
  | S754_finite sign m e =>
      if (0 <=? e)%Z then x
      else
        let n := (2 ^ (- e))%Z in
        let z := ((2 * (if sign then Z.neg m else Z.pos m) + n) / (2 * n))%Z in
        if (z =? 0)%Z then S754_zero sign else number_of_Z z
  | _ => x
  end.

(** ** Data model *)

(** One narrative beat of an analysis result.  The scores are JSON
    numbers; the model covers the results whose scores are integers and
    holds each score by its value.  The arithmetic on the scores is that
    of the engine, on any numbers: see [average]. *)
Record AnalysisPoint := {
  keyEvent : jsstring;
  characterFocus : jsstring;
  TensionScore : Z;
  TensionSummary : jsstring;
  PacingScore : Z;
  PacingSummary : jsstring;
  AgencyScore : Z;
  AgencySummary : jsstring;
  ResonanceScore : Z;
  ResonanceSummary : jsstring
}.

Inductive role := user | model.

(** An entry of [chatHistory]: [{ role, parts: [{ text }] }]. *)
Record chat_message := { msg_role : role; msg_text : jsstring }.

(** A value or a thrown error, of which the handlers read [message]. *)
Inductive outcome (A : Type) :=
| Return (a : A)
| Throw (message : jsstring).
Arguments Return {A} & a.
Arguments Throw {A} message.

(** What [JSON.parse(result.analysis)] yields.  Of a value that is neither
    null nor an array the handler reads only [length], inside a template
    literal: such a value is kept as the text that read renders to (the
    code-unit count of a string, [undefined] for a number or a boolean,
    the property's rendering for an object), or the error the rendering
    raises (an object as [length] that has no primitive value). *)
Inductive json_value :=
| JNull
| JArray (items : list AnalysisPoint)
| JOther (length_text : outcome jsstring).

(** The [analysis] field of the reply to [/analyze], as [JSON.parse] sees
    it: a syntax error (also when the field is missing) or a value. *)
Inductive analysis_field :=
| Unparsable (message : jsstring)
| Parsed (v : json_value).

Record source := { uri : jsstring; title : jsstring }.

(** The JSON object a reply carries, with the fields the script reads,
    typed as the interface of the backend has them; a field may be
    missing. *)
Record body := {
  error : option jsstring;
  analysis : analysis_field;
  characters : option (list jsstring);
  excerpt : option jsstring;
  sources : option (list source);
  response : option jsstring
}.

(** What [response.json()] yields: null, on which every property read
    throws, or an object.  A number, a string, a boolean or an array
    reads like an object without any of the fields. *)
Inductive json :=
| JsonNull
| JsonObject (data : body).

Coercion JsonObject : body >-> json.

(** How a [fetch] ends: the request fails, the body is not JSON, or a
    status and a JSON body arrive. *)
Inductive reply :=
| FetchRejected (message : jsstring)
| BodyRejected (message : jsstring)
| Replied (status : N) (data : json).

Inductive payload :=
| TextPayload (text : jsstring)
| QueryPayload (query : jsstring)
| ChatPayload (story : jsstring) (history : list chat_message)
    (activeCharacter : option jsstring).

Record request := { endpoint : jsstring; sent : payload }.

(** Errors the engine raises by itself; their text is the engine's. *)
Inductive fault :=
| ReadOfNull (property : jsstring)
| ReadOfUndefined (property : jsstring)
| ReduceOfEmpty.

(** *** Page elements

    Where the script sets [textContent], a [value], a class or a flag,
    the state holds what it set.  Where it sets [innerHTML], the state
    holds the markup it wrote, by the template and the strings it put
    into the holes of the template, as they are and unescaped: a [Link],
    a [card], a [summary_panel], an [AnalysisError] and a [bubble] are
    such markup.  What the page then shows is what the HTML parser makes
    of the markup; for a string without markup or character references
    that is the string.  The one place where the script reads parsed
    markup back is the text of a selector button: there the state holds
    the text, as the platform gives it ([label_text]). *)

Inductive inline :=
| Txt (text : jsstring)
| Link (href label : jsstring).

(** An element showing a line of text: its content and its class list. *)
Record element := { content : list inline; classList : list string }.

Record metric_row := {
  row_icon : jsstring;
  row_label : jsstring;
  row_score : Z;
  row_color : string;
  row_summary : jsstring
}.

Record card := {
  card_border : string;
  card_number : nat;
  card_label : jsstring;
  card_event : jsstring;
  card_focus : jsstring;
  card_metrics : list metric_row
}.

Inductive analysis_view :=
| AnalysisCards (cards : list card)
| AnalysisError (message : jsstring).

Record summary_panel := {
  summary_conflict : jsstring;
  summary_climax : jsstring;
  summary_avgTension : number;
  summary_mainCharacter : jsstring
}.

Inductive bubble :=
| Notice (text : jsstring)
| Message (who : role) (characterName : jsstring) (text : jsstring).

(** A button of the character selector: the emoji and the name it
    shows, the name its click handler passes to [setActiveCharacter], and
    its classes. *)
Record icon := {
  icon_emoji : jsstring;
  icon_name : jsstring;
  icon_onclick : jsstring;
  icon_classList : list string
}.

(** A downloaded file: the date in its name and the data serialized. *)
Record download := { file_date : jsstring; file_data : list AnalysisPoint }.

(** *** The state

    The script variables, then the page elements by the property the
    script uses of each (the value of an input, the [disabled] flag of a
    button, the class list of [summaryOutput]), then what the browser was
    asked to do: the alerts shown and the files saved.
    [chatInput_focused] records that a call of [chatInput.focus()] gave
    the chat input the focus.  The values of the two text areas are held
    as the script reads them back, that is with their newlines
    normalized; [storyInput] is taken to be a text area like
    [summaryTextarea].  [characterSlots] lists the elements of class
    [character-icon], which are the buttons the script puts into the
    element [characterSlots]; elements of that class that markup inside a
    name may create are not followed.  [characterSlots_found] tells
    whether the page has that element, on which the script guards.  The
    other elements the script takes by their id it uses without a guard:
    the page is taken to have them.  Left out: the Chart.js instance
    apart from its data, scroll positions, the console, the [disabled]
    flag of the download button, and the focus moving when the user
    clicks elsewhere. *)
Record state := mkState {
  isAnalyzing : bool;
  isSearching : bool;
  isChatting : bool;
  chatHistory : list chat_message;
  lastAnalysisData : option (list AnalysisPoint);
  activeCharacter : option jsstring;
  chartData : list Z;
  storyInput : jsstring;
  statusMessage : element;
  analyzeButton_disabled : bool;
  analysisOutput : analysis_view;
  analysisOutputSummary : option summary_panel;
  bookTitleInput : jsstring;
  findSummaryButton_disabled : bool;
  searchStatusMessage : element;
  summaryOutput : list string;
  summaryTextarea : jsstring;
  chatOutput : list bubble;
  chatInput : jsstring;
  chatInput_disabled : bool;
  chatInput_focused : bool;
  sendChatButton_disabled : bool;
  chatStatusMessage : element;
  characterSlots : list icon;
  characterSlots_found : bool;
  alerts : list jsstring;
  downloads : list download
}.

Definition set_isAnalyzing (v : bool) (s : state) : state :=
  mkState v (isSearching s) (isChatting s) (chatHistory s)
   (lastAnalysisData s) (activeCharacter s) (chartData s) (storyInput s)
   (statusMessage s) (analyzeButton_disabled s) (analysisOutput s)
   (analysisOutputSummary s) (bookTitleInput s) (findSummaryButton_disabled s)
   (searchStatusMessage s) (summaryOutput s) (summaryTextarea s)
   (chatOutput s) (chatInput s) (chatInput_disabled s) (chatInput_focused s)
   (sendChatButton_disabled s) (chatStatusMessage s) (characterSlots s)
   (characterSlots_found s) (alerts s) (downloads s).

Definition set_isSearching (v : bool) (s : state) : state :=
  mkState (isAnalyzing s) v (isChatting s) (chatHistory s)
   (lastAnalysisData s) (activeCharacter s) (chartData s) (storyInput s)
   (statusMessage s) (analyzeButton_disabled s) (analysisOutput s)
   (analysisOutputSummary s) (bookTitleInput s) (findSummaryButton_disabled s)
   (searchStatusMessage s) (summaryOutput s) (summaryTextarea s)
   (chatOutput s) (chatInput s) (chatInput_disabled s) (chatInput_focused s)
   (sendChatButton_disabled s) (chatStatusMessage s) (characterSlots s)
   (characterSlots_found s) (alerts s) (downloads s).

Definition set_isChatting (v : bool) (s : state) : state :=
  mkState (isAnalyzing s) (isSearching s) v (chatHistory s)
   (lastAnalysisData s) (activeCharacter s) (chartData s) (storyInput s)
   (statusMessage s) (analyzeButton_disabled s) (analysisOutput s)
   (analysisOutputSummary s) (bookTitleInput s) (findSummaryButton_disabled s)
   (searchStatusMessage s) (summaryOutput s) (summaryTextarea s)
   (chatOutput s) (chatInput s) (chatInput_disabled s) (chatInput_focused s)
   (sendChatButton_disabled s) (chatStatusMessage s) (characterSlots s)
   (characterSlots_found s) (alerts s) (downloads s).

Definition set_chatHistory (v : list chat_message) (s : state) : state :=
  mkState (isAnalyzing s) (isSearching s) (isChatting s) v
   (lastAnalysisData s) (activeCharacter s) (chartData s) (storyInput s)
   (statusMessage s) (analyzeButton_disabled s) (analysisOutput s)
   (analysisOutputSummary s) (bookTitleInput s) (findSummaryButton_disabled s)
   (searchStatusMessage s) (summaryOutput s) (summaryTextarea s)
   (chatOutput s) (chatInput s) (chatInput_disabled s) (chatInput_focused s)
   (sendChatButton_disabled s) (chatStatusMessage s) (characterSlots s)
   (characterSlots_found s) (alerts s) (downloads s).

Definition set_lastAnalysisData (v : option (list AnalysisPoint)) (s : state) : state :=
  mkState (isAnalyzing s) (isSearching s) (isChatting s) (chatHistory s) v
   (activeCharacter s) (chartData s) (storyInput s) (statusMessage s)
   (analyzeButton_disabled s) (analysisOutput s) (analysisOutputSummary s)
   (bookTitleInput s) (findSummaryButton_disabled s) (searchStatusMessage s)
   (summaryOutput s) (summaryTextarea s) (chatOutput s) (chatInput s)
   (chatInput_disabled s) (chatInput_focused s) (sendChatButton_disabled s)
   (chatStatusMessage s) (characterSlots s) (characterSlots_found s)
   (alerts s) (downloads s).

Definition set_activeCharacter (v : option jsstring) (s : state) : state :=
  mkState (isAnalyzing s) (isSearching s) (isChatting s) (chatHistory s)
   (lastAnalysisData s) v (chartData s) (storyInput s) (statusMessage s)
   (analyzeButton_disabled s) (analysisOutput s) (analysisOutputSummary s)
   (bookTitleInput s) (findSummaryButton_disabled s) (searchStatusMessage s)
   (summaryOutput s) (summaryTextarea s) (chatOutput s) (chatInput s)
   (chatInput_disabled s) (chatInput_focused s) (sendChatButton_disabled s)
   (chatStatusMessage s) (characterSlots s) (characterSlots_found s)
   (alerts s) (downloads s).

Definition set_chartData (v : list Z) (s : state) : state :=
  mkState (isAnalyzing s) (isSearching s) (isChatting s) (chatHistory s)
   (lastAnalysisData s) (activeCharacter s) v (storyInput s) (statusMessage s)
   (analyzeButton_disabled s) (analysisOutput s) (analysisOutputSummary s)
   (bookTitleInput s) (findSummaryButton_disabled s) (searchStatusMessage s)
   (summaryOutput s) (summaryTextarea s) (chatOutput s) (chatInput s)
   (chatInput_disabled s) (chatInput_focused s) (sendChatButton_disabled s)
   (chatStatusMessage s) (characterSlots s) (characterSlots_found s)
   (alerts s) (downloads s).

Definition set_storyInput (v : jsstring) (s : state) : state :=
  mkState (isAnalyzing s) (isSearching s) (isChatting s) (chatHistory s)
   (lastAnalysisData s) (activeCharacter s) (chartData s) v (statusMessage s)
   (analyzeButton_disabled s) (analysisOutput s) (analysisOutputSummary s)
   (bookTitleInput s) (findSummaryButton_disabled s) (searchStatusMessage s)
   (summaryOutput s) (summaryTextarea s) (chatOutput s) (chatInput s)
   (chatInput_disabled s) (chatInput_focused s) (sendChatButton_disabled s)
   (chatStatusMessage s) (characterSlots s) (characterSlots_found s)
   (alerts s) (downloads s).

Definition set_statusMessage (v : element) (s : state) : state :=
  mkState (isAnalyzing s) (isSearching s) (isChatting s) (chatHistory s)
   (lastAnalysisData s) (activeCharacter s) (chartData s) (storyInput s) v
   (analyzeButton_disabled s) (analysisOutput s) (analysisOutputSummary s)
   (bookTitleInput s) (findSummaryButton_disabled s) (searchStatusMessage s)
   (summaryOutput s) (summaryTextarea s) (chatOutput s) (chatInput s)
   (chatInput_disabled s) (chatInput_focused s) (sendChatButton_disabled s)
   (chatStatusMessage s) (characterSlots s) (characterSlots_found s)
   (alerts s) (downloads s).

Definition set_analyzeButton_disabled (v : bool) (s : state) : state :=
  mkState (isAnalyzing s) (isSearching s) (isChatting s) (chatHistory s)
   (lastAnalysisData s) (activeCharacter s) (chartData s) (storyInput s)
   (statusMessage s) v (analysisOutput s) (analysisOutputSummary s)
   (bookTitleInput s) (findSummaryButton_disabled s) (searchStatusMessage s)
   (summaryOutput s) (summaryTextarea s) (chatOutput s) (chatInput s)
   (chatInput_disabled s) (chatInput_focused s) (sendChatButton_disabled s)
   (chatStatusMessage s) (characterSlots s) (characterSlots_found s)
   (alerts s) (downloads s).

Definition set_analysisOutput (v : analysis_view) (s : state) : state :=
  mkState (isAnalyzing s) (isSearching s) (isChatting s) (chatHistory s)
   (lastAnalysisData s) (activeCharacter s) (chartData s) (storyInput s)
   (statusMessage s) (analyzeButton_disabled s) v (analysisOutputSummary s)
   (bookTitleInput s) (findSummaryButton_disabled s) (searchStatusMessage s)
   (summaryOutput s) (summaryTextarea s) (chatOutput s) (chatInput s)
   (chatInput_disabled s) (chatInput_focused s) (sendChatButton_disabled s)
   (chatStatusMessage s) (characterSlots s) (characterSlots_found s)
   (alerts s) (downloads s).

Definition set_analysisOutputSummary (v : option summary_panel) (s : state) : state :=
  mkState (isAnalyzing s) (isSearching s) (isChatting s) (chatHistory s)
   (lastAnalysisData s) (activeCharacter s) (chartData s) (storyInput s)
   (statusMessage s) (analyzeButton_disabled s) (analysisOutput s) v
   (bookTitleInput s) (findSummaryButton_disabled s) (searchStatusMessage s)
   (summaryOutput s) (summaryTextarea s) (chatOutput s) (chatInput s)
   (chatInput_disabled s) (chatInput_focused s) (sendChatButton_disabled s)
   (chatStatusMessage s) (characterSlots s) (characterSlots_found s)
   (alerts s) (downloads s).

Definition set_bookTitleInput (v : jsstring) (s : state) : state :=
  mkState (isAnalyzing s) (isSearching s) (isChatting s) (chatHistory s)
   (lastAnalysisData s) (activeCharacter s) (chartData s) (storyInput s)
   (statusMessage s) (analyzeButton_disabled s) (analysisOutput s)
   (analysisOutputSummary s) v (findSummaryButton_disabled s)
   (searchStatusMessage s) (summaryOutput s) (summaryTextarea s)
   (chatOutput s) (chatInput s) (chatInput_disabled s) (chatInput_focused s)
   (sendChatButton_disabled s) (chatStatusMessage s) (characterSlots s)
   (characterSlots_found s) (alerts s) (downloads s).

Definition set_findSummaryButton_disabled (v : bool) (s : state) : state :=
  mkState (isAnalyzing s) (isSearching s) (isChatting s) (chatHistory s)
   (lastAnalysisData s) (activeCharacter s) (chartData s) (storyInput s)
   (statusMessage s) (analyzeButton_disabled s) (analysisOutput s)
   (analysisOutputSummary s) (bookTitleInput s) v (searchStatusMessage s)
   (summaryOutput s) (summaryTextarea s) (chatOutput s) (chatInput s)
   (chatInput_disabled s) (chatInput_focused s) (sendChatButton_disabled s)
   (chatStatusMessage s) (characterSlots s) (characterSlots_found s)
   (alerts s) (downloads s).

Definition set_searchStatusMessage (v : element) (s : state) : state :=
  mkState (isAnalyzing s) (isSearching s) (isChatting s) (chatHistory s)
   (lastAnalysisData s) (activeCharacter s) (chartData s) (storyInput s)
   (statusMessage s) (analyzeButton_disabled s) (analysisOutput s)
   (analysisOutputSummary s) (bookTitleInput s) (findSummaryButton_disabled s)
   v (summaryOutput s) (summaryTextarea s) (chatOutput s) (chatInput s)
   (chatInput_disabled s) (chatInput_focused s) (sendChatButton_disabled s)
   (chatStatusMessage s) (characterSlots s) (characterSlots_found s)
   (alerts s) (downloads s).

Definition set_summaryOutput (v : list string) (s : state) : state :=
  mkState (isAnalyzing s) (isSearching s) (isChatting s) (chatHistory s)
   (lastAnalysisData s) (activeCharacter s) (chartData s) (storyInput s)
   (statusMessage s) (analyzeButton_disabled s) (analysisOutput s)
   (analysisOutputSummary s) (bookTitleInput s) (findSummaryButton_disabled s)
   (searchStatusMessage s) v (summaryTextarea s) (chatOutput s) (chatInput s)
   (chatInput_disabled s) (chatInput_focused s) (sendChatButton_disabled s)
   (chatStatusMessage s) (characterSlots s) (characterSlots_found s)
   (alerts s) (downloads s).

Definition set_summaryTextarea (v : jsstring) (s : state) : state :=
  mkState (isAnalyzing s) (isSearching s) (isChatting s) (chatHistory s)
   (lastAnalysisData s) (activeCharacter s) (chartData s) (storyInput s)
   (statusMessage s) (analyzeButton_disabled s) (analysisOutput s)
   (analysisOutputSummary s) (bookTitleInput s) (findSummaryButton_disabled s)
   (searchStatusMessage s) (summaryOutput s) v (chatOutput s) (chatInput s)
   (chatInput_disabled s) (chatInput_focused s) (sendChatButton_disabled s)
   (chatStatusMessage s) (characterSlots s) (characterSlots_found s)
   (alerts s) (downloads s).

Definition set_chatOutput (v : list bubble) (s : state) : state :=
  mkState (isAnalyzing s) (isSearching s) (isChatting s) (chatHistory s)
   (lastAnalysisData s) (activeCharacter s) (chartData s) (storyInput s)
   (statusMessage s) (analyzeButton_disabled s) (analysisOutput s)
   (analysisOutputSummary s) (bookTitleInput s) (findSummaryButton_disabled s)
   (searchStatusMessage s) (summaryOutput s) (summaryTextarea s) v
   (chatInput s) (chatInput_disabled s) (chatInput_focused s)
   (sendChatButton_disabled s) (chatStatusMessage s) (characterSlots s)
   (characterSlots_found s) (alerts s) (downloads s).

Definition set_chatInput (v : jsstring) (s : state) : state :=
  mkState (isAnalyzing s) (isSearching s) (isChatting s) (chatHistory s)
   (lastAnalysisData s) (activeCharacter s) (chartData s) (storyInput s)
   (statusMessage s) (analyzeButton_disabled s) (analysisOutput s)
   (analysisOutputSummary s) (bookTitleInput s) (findSummaryButton_disabled s)
   (searchStatusMessage s) (summaryOutput s) (summaryTextarea s)
   (chatOutput s) v (chatInput_disabled s) (chatInput_focused s)
   (sendChatButton_disabled s) (chatStatusMessage s) (characterSlots s)
   (characterSlots_found s) (alerts s) (downloads s).

Definition set_chatInput_disabled (v : bool) (s : state) : state :=
  mkState (isAnalyzing s) (isSearching s) (isChatting s) (chatHistory s)
   (lastAnalysisData s) (activeCharacter s) (chartData s) (storyInput s)
   (statusMessage s) (analyzeButton_disabled s) (analysisOutput s)
   (analysisOutputSummary s) (bookTitleInput s) (findSummaryButton_disabled s)
   (searchStatusMessage s) (summaryOutput s) (summaryTextarea s)
   (chatOutput s) (chatInput s) v (chatInput_focused s)
   (sendChatButton_disabled s) (chatStatusMessage s) (characterSlots s)
   (characterSlots_found s) (alerts s) (downloads s).

Definition set_chatInput_focused (v : bool) (s : state) : state :=
  mkState (isAnalyzing s) (isSearching s) (isChatting s) (chatHistory s)
   (lastAnalysisData s) (activeCharacter s) (chartData s) (storyInput s)
   (statusMessage s) (analyzeButton_disabled s) (analysisOutput s)
   (analysisOutputSummary s) (bookTitleInput s) (findSummaryButton_disabled s)
   (searchStatusMessage s) (summaryOutput s) (summaryTextarea s)
   (chatOutput s) (chatInput s) (chatInput_disabled s) v
   (sendChatButton_disabled s) (chatStatusMessage s) (characterSlots s)
   (characterSlots_found s) (alerts s) (downloads s).

Definition set_sendChatButton_disabled (v : bool) (s : state) : state :=
  mkState (isAnalyzing s) (isSearching s) (isChatting s) (chatHistory s)
   (lastAnalysisData s) (activeCharacter s) (chartData s) (storyInput s)
   (statusMessage s) (analyzeButton_disabled s) (analysisOutput s)
   (analysisOutputSummary s) (bookTitleInput s) (findSummaryButton_disabled s)
   (searchStatusMessage s) (summaryOutput s) (summaryTextarea s)
   (chatOutput s) (chatInput s) (chatInput_disabled s) (chatInput_focused s) v
   (chatStatusMessage s) (characterSlots s) (characterSlots_found s)
   (alerts s) (downloads s).

Definition set_chatStatusMessage (v : element) (s : state) : state :=
  mkState (isAnalyzing s) (isSearching s) (isChatting s) (chatHistory s)
   (lastAnalysisData s) (activeCharacter s) (chartData s) (storyInput s)
   (statusMessage s) (analyzeButton_disabled s) (analysisOutput s)
   (analysisOutputSummary s) (bookTitleInput s) (findSummaryButton_disabled s)
   (searchStatusMessage s) (summaryOutput s) (summaryTextarea s)
   (chatOutput s) (chatInput s) (chatInput_disabled s) (chatInput_focused s)
   (sendChatButton_disabled s) v (characterSlots s) (characterSlots_found s)
   (alerts s) (downloads s).

Definition set_characterSlots (v : list icon) (s : state) : state :=
  mkState (isAnalyzing s) (isSearching s) (isChatting s) (chatHistory s)
   (lastAnalysisData s) (activeCharacter s) (chartData s) (storyInput s)
   (statusMessage s) (analyzeButton_disabled s) (analysisOutput s)
   (analysisOutputSummary s) (bookTitleInput s) (findSummaryButton_disabled s)
   (searchStatusMessage s) (summaryOutput s) (summaryTextarea s)
   (chatOutput s) (chatInput s) (chatInput_disabled s) (chatInput_focused s)
   (sendChatButton_disabled s) (chatStatusMessage s) v
   (characterSlots_found s) (alerts s) (downloads s).

Definition set_alerts (v : list jsstring) (s : state) : state :=
  mkState (isAnalyzing s) (isSearching s) (isChatting s) (chatHistory s)
   (lastAnalysisData s) (activeCharacter s) (chartData s) (storyInput s)
   (statusMessage s) (analyzeButton_disabled s) (analysisOutput s)
   (analysisOutputSummary s) (bookTitleInput s) (findSummaryButton_disabled s)
   (searchStatusMessage s) (summaryOutput s) (summaryTextarea s)
   (chatOutput s) (chatInput s) (chatInput_disabled s) (chatInput_focused s)
   (sendChatButton_disabled s) (chatStatusMessage s) (characterSlots s)
   (characterSlots_found s) v (downloads s).

Definition set_downloads (v : list download) (s : state) : state :=
  mkState (isAnalyzing s) (isSearching s) (isChatting s) (chatHistory s)
   (lastAnalysisData s) (activeCharacter s) (chartData s) (storyInput s)
   (statusMessage s) (analyzeButton_disabled s) (analysisOutput s)
   (analysisOutputSummary s) (bookTitleInput s) (findSummaryButton_disabled s)
   (searchStatusMessage s) (summaryOutput s) (summaryTextarea s)
   (chatOutput s) (chatInput s) (chatInput_disabled s) (chatInput_focused s)
   (sendChatButton_disabled s) (chatStatusMessage s) (characterSlots s)
   (characterSlots_found s) (alerts s) v.

(** ** Helpers of the platform *)

(** [classList.add] and [classList.remove] of a DOMTokenList. *)
Definition classList_contains (c : string) (l : list string) : bool :=
  existsb (String.eqb c) l.

Definition classList_add (cs l : list string) : list string :=
  fold_left (fun l c => if classList_contains c l then l else l ++ [c]) cs l.

Definition classList_remove (cs l : list string) : list string :=
  filter (fun c => negb (classList_contains c cs)) l.

(** Assigning [textContent] replaces the content and keeps the classes. *)
Definition with_text (text : jsstring) (e : element) : element :=
  {| content := [Txt text]; classList := classList e |}.

Definition with_content (c : list inline) (e : element) : element :=
  {| content := c; classList := classList e |}.

Definition add_class (c : string) (e : element) : element :=
  {| content := content e; classList := classList_add [c] (classList e) |}.

Definition remove_class (c : string) (e : element) : element :=
  {| content := content e; classList := classList_remove [c] (classList e) |}.

(** [x || d] for a string field that may be missing. *)
Definition or_else (x : option jsstring) (d : jsstring) : jsstring :=
  match x with
  | Some s => if JsString.truthy s then s else d
  | None => d
  end.

Definition truthy_field (x : option jsstring) : bool :=
  match x with
  | Some s => JsString.truthy s
  | None => false
  end.

(** A nullable string inside a template literal or as an argument of
    [includes]. *)
Definition to_text (x : option jsstring) : jsstring :=
  match x with
  | Some s => s
  | None => lit "null"
  end.

(** The value of a text area as the script reads it back: every CR LF
    pair and every other CR has become LF. *)
Fixpoint normalize_newlines (s : jsstring) : jsstring :=
  match s with
  | [] => []
  | c :: s' =>
      if (c =? 13)%N then
        match s' with
        | d :: s'' =>
            if (d =? 10)%N then 10%N :: normalize_newlines s''
            else 10%N :: normalize_newlines s'
        | [] => [10%N]
        end
      else c :: normalize_newlines s'
  end.

Definition response_ok (status : N) : bool :=
  ((200 <=? status) && (status <=? 299))%N.

(** A handler either finishes or suspends on a request; the continuation
    runs on the state as it is when the reply arrives. *)
#[warnings="-register-all"]
Inductive task :=
| Done
| Await (req : request) (resume : reply -> state -> state * task).

(** ** The platform

    What the engine and the browser decide is kept open: how
    [toLowerCase] maps a string, the text of the errors the engine
    raises by itself, and what the HTML parser makes of a name inside
    the markup of a selector button: [label_text name] is the text that
    [<span>name</span>], the end of that markup (line 429), gives the
    button after its emoji; it is [name] when the name holds neither
    markup nor a character reference. *)

Class Engine := {
  toLowerCase : jsstring -> jsstring;
  fault_message : fault -> jsstring;
  label_text : jsstring -> jsstring
}.

Section Analysis.

Context {engine : Engine}.

Implicit Types data : body.

(** [fetchAPI]: the data of a successful reply, or a thrown error.  On a
    failing status the message is read off the data, which throws when
    the data is null. *)
Definition fetchAPI (r : reply) : outcome json :=
  match r with
  | FetchRejected message => Throw message
  | BodyRejected message => Throw message
  | Replied status data =>
      if negb (response_ok status)
      then
        match data with
        | JsonNull => Throw (fault_message (ReadOfNull (lit "error")))
        | JsonObject data =>
            Throw (or_else (error data)
                     (lit "Server error: " ++ JsString.of_N status))
        end
      else Return data
  end.

(** ** The handlers *)

Definition text_red_600 : string := "text-red-600".
Definition text_amber_600 : string := "text-amber-600".
Definition text_green_600 : string := "text-green-600".

(** [downloadAnalysisData]; [today] is the date the clock gives.  The
    [catch] branch, for a browser that refuses to build or save the file,
    is left out. *)
Definition downloadAnalysisData (today : jsstring) (s : state) : state :=
  match lastAnalysisData s with
  | None =>
      set_alerts
        (alerts s ++ [lit "Please run a successful story analysis first."]) s
  | Some data =>
      let s := set_downloads
                 (downloads s ++ [{| file_date := today; file_data := data |}])
                 s in
      set_alerts (alerts s ++ [lit "Analysis data download started!"]) s
  end.

(** [copySummaryToInput]: the value read from the text area is the value
    the state holds. *)
Definition copySummaryToInput (s : state) : state :=
  let s := set_storyInput (summaryTextarea s) s in
  let s := set_summaryOutput (classList_add ["hidden"] (summaryOutput s)) s in
  set_searchStatusMessage
    (with_text (lit "Excerpt copied! Ready for Step 2.")
       (searchStatusMessage s)) s.

(** *** Excerpt search *)

(** The markup of the sources: one link per source, its address and its
    label as the reply has them, with a bar between two links. *)
Fixpoint join_links (l : list source) : list inline :=
  match l with
  | [] => []
  | [a] => [Link (uri a) (title a)]
  | a :: l' => Link (uri a) (title a) :: Txt (lit " | ") :: join_links l'
  end.

Definition search_try (result : body) (s : state) : state :=
  match excerpt result with
  | Some text =>
      if JsString.truthy text then
        let s := set_summaryTextarea
                   (normalize_newlines (JsString.trim text)) s in
        let s := set_summaryOutput
                   (classList_remove ["hidden"] (summaryOutput s)) s in
        let s := set_searchStatusMessage
                   (with_text
                      (lit "Excerpt found! Review the text below and copy it for analysis.")
                      (searchStatusMessage s)) s in
        match sources result with
        | Some (a :: l) =>
            set_searchStatusMessage
              (with_content
                 (Txt (lit "Excerpt found! Sources: ") :: join_links (a :: l))
                 (searchStatusMessage s)) s
        | _ => s
        end
      else
        set_searchStatusMessage
          (with_text
             (lit "Could not find that specific excerpt. Try a different query.")
             (searchStatusMessage s)) s
  | None =>
      set_searchStatusMessage
        (with_text
           (lit "Could not find that specific excerpt. Try a different query.")
           (searchStatusMessage s)) s
  end.

Definition search_catch (message : jsstring) (s : state) : state :=
  let s := set_searchStatusMessage
             (with_text (lit "Search failed: " ++ message)
                (searchStatusMessage s)) s in
  set_searchStatusMessage (add_class text_red_600 (searchStatusMessage s)) s.

Definition search_finally (s : state) : state :=
  let s := set_isSearching false s in
  set_findSummaryButton_disabled false s.

Definition search_resume (r : reply) (s : state) : state * task :=
  (search_finally
     match fetchAPI r with
     | Return (JsonObject result) => search_try result s
     | Return JsonNull =>
         search_catch (fault_message (ReadOfNull (lit "excerpt"))) s
     | Throw message => search_catch message s
     end,
   Done).

Definition findBookSummary (s : state) : state * task :=
  if isSearching s then (s, Done) else
  let query := JsString.trim (bookTitleInput s) in
  if (List.length query <? 5)%nat then
    let s := set_searchStatusMessage
               (with_text
                  (lit "Please enter a title and a specific section (e.g., 'Chapter 5 of Dracula').")
                  (searchStatusMessage s)) s in
    (set_searchStatusMessage (add_class text_red_600 (searchStatusMessage s)) s,
     Done)
  else
  let s := set_searchStatusMessage
             (remove_class text_red_600 (searchStatusMessage s)) s in
  let s := set_isSearching true s in
  let s := set_findSummaryButton_disabled true s in
  let s := set_summaryOutput (classList_add ["hidden"] (summaryOutput s)) s in
  let s := set_searchStatusMessage
             (with_text
                (lit "Searching for " ++ [34%N] ++ query ++ [34%N] ++ lit "...")
                (searchStatusMessage s)) s in
  (s, Await {| endpoint := lit "/search_excerpt"; sent := QueryPayload query |}
        search_resume).

(** *** Character selection and chat *)

Definition highlight_classes : list string :=
  ["bg-blue-600"; "text-white"; "border-blue-600"].

Definition plain_classes : list string :=
  ["bg-white"; "text-slate-800"; "border-slate-300"].

(** The text of a selector button: that of its two spans, one after the
    other. *)
Definition icon_textContent (i : icon) : jsstring :=
  icon_emoji i ++ icon_name i.

Definition with_classes (l : list string) (i : icon) : icon :=
  {| icon_emoji := icon_emoji i; icon_name := icon_name i;
     icon_onclick := icon_onclick i; icon_classList := l |}.

(** The body of the loop of [setActiveCharacter] over the buttons. *)
Definition mark_icon (name : option jsstring) (i : icon) : icon :=
  if JsString.includes (icon_textContent i) (to_text name) then
    with_classes
      (classList_remove plain_classes
         (classList_add highlight_classes (icon_classList i))) i
  else
    with_classes
      (classList_add plain_classes
         (classList_remove highlight_classes (icon_classList i))) i.

(** [chatInput.focus()]: a disabled control does not take the focus. *)
Definition focus_chatInput (s : state) : state :=
  if chatInput_disabled s then s else set_chatInput_focused true s.

Definition setActiveCharacter (name : option jsstring) (s : state) : state :=
  let s := set_activeCharacter name s in
  let s := set_chatHistory [] s in
  let s := set_chatOutput
             [Notice (lit "Now chatting as " ++ to_text name
                      ++ lit ". Ask them about the story context!")] s in
  let s := set_characterSlots (map (mark_icon name) (characterSlots s)) s in
  focus_chatInput s.

(** [renderMessage] builds the fragment of one message, with the name
    and the text in its holes, and appends it: [innerHTML +=] reads the
    markup of the panel as the serializer gives it and writes it back
    with the fragment after it.  [chatOutput] holds the fragments written
    since the content of the panel was last replaced, in order; what the
    panel then holds is what the parser makes of them. *)
Definition renderMessage (who : role) (text : jsstring) (s : state) : state :=
  let characterName :=
    match who with
    | user => lit "You"
    | model => or_else (activeCharacter s) (lit "Character AI")
    end in
  set_chatOutput (chatOutput s ++ [Message who characterName text]) s.

Definition chat_try (r : reply) (s : state) : state * outcome unit :=
  match fetchAPI r with
  | Throw message => (s, Throw message)
  | Return JsonNull => (s, Throw (fault_message (ReadOfNull (lit "response"))))
  | Return (JsonObject result) =>
      match response result with
      | Some text =>
          if JsString.truthy text then
            let s := set_chatHistory
                       (chatHistory s
                        ++ [{| msg_role := model; msg_text := text |}]) s in
            let s := renderMessage model text s in
            (set_chatStatusMessage
               (with_text (lit "Response received.") (chatStatusMessage s)) s,
             Return tt)
          else
            (set_chatStatusMessage
               (with_text (lit "Error: No valid response from the character AI.")
                  (chatStatusMessage s)) s,
             Return tt)
      | None =>
          (set_chatStatusMessage
             (with_text (lit "Error: No valid response from the character AI.")
                (chatStatusMessage s)) s,
           Return tt)
      end
  end.

Definition chat_catch (message : jsstring) (s : state) : state :=
  let s := set_chatStatusMessage
             (with_text (lit "Chat failed: " ++ message)
                (chatStatusMessage s)) s in
  set_chatStatusMessage (add_class text_red_600 (chatStatusMessage s)) s.

Definition chat_finally (s : state) : state :=
  let s := set_isChatting false s in
  let s := set_sendChatButton_disabled false s in
  focus_chatInput s.

Definition chat_resume (r : reply) (s : state) : state * task :=
  (chat_finally
     match chat_try r s with
     | (s, Return _) => s
     | (s, Throw message) => chat_catch message s
     end,
   Done).

Definition handleChat (s : state) : state * task :=
  if isChatting s || chatInput_disabled s then (s, Done) else
  let userText := JsString.trim (chatInput s) in
  let storyContext := JsString.trim (storyInput s) in
  if negb (JsString.truthy userText) then (s, Done) else
  if negb (JsString.truthy storyContext) then
    (set_chatStatusMessage
       (with_text
          (lit "Error: Please run a successful analysis first to provide character context!")
          (chatStatusMessage s)) s,
     Done)
  else
  if negb (truthy_field (activeCharacter s)) then
    (set_chatStatusMessage
       (with_text
          (lit "Error: Please select a character icon to start chatting!")
          (chatStatusMessage s)) s,
     Done)
  else
  let s := set_chatHistory
             (chatHistory s ++ [{| msg_role := user; msg_text := userText |}])
             s in
  let s := renderMessage user userText s in
  let s := set_chatInput [] s in
  let s := set_isChatting true s in
  let s := set_sendChatButton_disabled true s in
  let s := set_chatStatusMessage
             (with_text (to_text (activeCharacter s) ++ lit " is thinking...")
                (chatStatusMessage s)) s in
  (s, Await {| endpoint := lit "/chat";
               sent := ChatPayload storyContext (chatHistory s)
                         (activeCharacter s) |}
        chat_resume).

(** The [keypress] listener of the chat input. *)
Definition chatInput_keypress (key : jsstring) (s : state) : state * task :=
  if JsString.eqb key (lit "Enter") && negb (isChatting s)
  then handleChat s
  else (s, Done).

(** *** Story analysis *)

Definition getCharacterIcon (name : jsstring) : jsstring :=
  let lowerName := toLowerCase name in
  let has w := JsString.includes lowerName (lit w) in
  if has "monster" || has "dracula" || has "hyde" || has "villain"
  then [55358; 56761]%N
  else if has "detective" || has "sherlock"
  then [55357; 56693; 65039]%N
  else if has "narrator" || has "author" || has "writer"
  then [9997; 65039]%N
  else if has "old" || has "elder" || has "grand"
  then [55357; 56436]%N
  else if has "girl" || has "woman" || has "lady" || has "jane" || has "mary"
  then [55357; 56425; 8205; 55358; 56753]%N
  else if has "boy" || has "man" || has "john" || has "mr."
  then [55358; 56788]%N
  else [55358; 56785]%N.

Definition icon_className : list string :=
  ["character-icon"; "px-3"; "py-2"; "mr-2"; "mb-2"; "rounded-full";
   "text-base"; "font-semibold"; "border-2"; "border-slate-300";
   "transition-colors"; "duration-200"; "hover:bg-slate-200"; "flex";
   "items-center"; "space-x-2"].

(** The button made for a name: its markup holds the emoji and the name,
    so it shows the emoji and what the parser makes of the name; its
    click handler has the name itself. *)
Definition new_icon (name : jsstring) : icon :=
  {| icon_emoji := getCharacterIcon name; icon_name := label_text name;
     icon_onclick := name; icon_classList := icon_className |}.

Definition renderCharacterSlots (characters : list jsstring) (s : state)
  : state :=
  if negb (characterSlots_found s) then s else
  let s := set_characterSlots [] s in
  let s := fold_left
             (fun s name =>
                set_characterSlots (characterSlots s ++ [new_icon name]) s)
             characters s in
  match characters with
  | first :: _ => setActiveCharacter (Some first) s
  | [] => s
  end.

Definition getMetricColor (score : Z) : string :=
  if (score >? 80)%Z then text_red_600
  else if (score >? 50)%Z then text_amber_600
  else text_green_600.

Definition cardBorderColor (tension : Z) : string :=
  if (tension >? 70)%Z then "border-red-500"
  else if (tension >? 40)%Z then "border-amber-500"
  else "border-green-500".

(** The labels [initializeChart] gives the chart. *)
Definition chart_labels : list jsstring :=
  map lit ["Start"; "Point 1"; "Point 2"; "Midpoint"; "Point 4"; "Point 5";
           "Climax/End"].

Definition metric (icon label : jsstring) (score : Z) (summary : jsstring)
  : metric_row :=
  {| row_icon := icon; row_label := label; row_score := score;
     row_color := getMetricColor score; row_summary := summary |}.

(** The markup of one card: the strings, numbers and classes in the
    holes of its template. *)
Definition render_card (index : nat) (item : AnalysisPoint) : card :=
  {| card_border := cardBorderColor (TensionScore item);
     card_number := index + 1;
     card_label := nth index chart_labels (lit "undefined");
     card_event := keyEvent item;
     card_focus := characterFocus item;
     card_metrics :=
       [ metric [9889%N] (lit "Tension") (TensionScore item)
           (TensionSummary item);
         metric [9201%N; 65039%N] (lit "Pacing") (PacingScore item)
           (PacingSummary item);
         metric [55357%N; 56481%N] (lit "Agency") (AgencyScore item)
           (AgencySummary item);
         metric [10084%N; 65039%N] (lit "Resonance") (ResonanceScore item)
           (ResonanceSummary item) ] |}.

Fixpoint map_indexed {A B : Type} (f : nat -> A -> B) (index : nat)
  (l : list A) : list B :=
  match l with
  | [] => []
  | a :: l' => f index a :: map_indexed f (S index) l'
  end.

(** [reduce] without an initial value. *)
Definition reduce {A : Type} (f : A -> A -> A) (l : list A) : outcome A :=
  match l with
  | [] => Throw (fault_message ReduceOfEmpty)
  | a :: l' => Return (fold_left f l' a)
  end.

(** The average of line 300: the sum from left to right, divided by the
    count, rounded by [Math.round]; every step is one on binary64. *)
Definition average (scores : list number) : outcome number :=
  match reduce number_add scores with
  | Return total =>
      Return (Math_round
                (number_div total
                   (number_of_Z (Z.of_nat (List.length scores)))))
  | Throw message => Throw message
  end.

(** The markup of the summary panel: the strings and the number in the
    holes of its template. *)
Definition render_summary (analysisData : list AnalysisPoint)
  (scores : list Z) : outcome summary_panel :=
  match nth_error analysisData 0 with
  | None => Throw (fault_message (ReadOfUndefined (lit "keyEvent")))
  | Some first =>
      match nth_error analysisData 6 with
      | None => Throw (fault_message (ReadOfUndefined (lit "keyEvent")))
      | Some last =>
          match average (map number_of_Z scores) with
          | Throw message => Throw message
          | Return avg =>
              Return {| summary_conflict := keyEvent first;
                        summary_climax := keyEvent last;
                        summary_avgTension := avg;
                        summary_mainCharacter := characterFocus first |}
          end
      end
  end.

Definition updateUI (analysisData : list AnalysisPoint)
  (characters : list jsstring) (s : state) : state * outcome unit :=
  let scores := map TensionScore analysisData in
  let s := set_chartData scores s in
  let s := set_analysisOutput
             (AnalysisCards (map_indexed render_card 0 analysisData)) s in
  match render_summary analysisData scores with
  | Throw message => (s, Throw message)
  | Return panel =>
      let s := set_analysisOutputSummary (Some panel) s in
      let s :=
        match characters with
        | _ :: _ =>
            let s := renderCharacterSlots characters s in
            set_chatStatusMessage
              (with_text
                 (lit "Character list loaded. Click an icon to start chatting!")
                 (chatStatusMessage s)) s
        | [] =>
            let s := set_chatStatusMessage
                       (with_text
                          (lit "Ready to chat, but no specific characters were identified in the text.")
                          (chatStatusMessage s)) s in
            setActiveCharacter None s
        end in
      let s := set_statusMessage
                 (with_text
                    (lit "Analysis complete! 4-Dimensional metrics mapped and chat enabled. Switch to the Chat tab to talk to your characters.")
                    (statusMessage s)) s in
      let s := set_chatHistory [] s in
      let s := set_chatInput [] s in
      let s := set_chatInput_disabled false s in
      let s := set_sendChatButton_disabled false s in
      let s := set_chatOutput
                 [Notice (lit "Chat mode is active. Select a character icon to begin!")]
                 s in
      (s, Return tt)
  end.

(** The [catch] block: the box gets the markup of line 372 with the
    message of the error in it. *)
Definition analysis_catch (message : jsstring) (s : state) : state :=
  let s := set_analysisOutput (AnalysisError message) s in
  let s := set_statusMessage
             (with_text (lit "Analysis failed.") (statusMessage s)) s in
  let s := set_statusMessage (add_class text_red_600 (statusMessage s)) s in
  let s := set_chatInput_disabled true s in
  set_sendChatButton_disabled true s.

Definition analysis_finally (s : state) : state :=
  let s := set_isAnalyzing false s in
  set_analyzeButton_disabled false s.

(** Leaving the [try] block by a thrown error: [catch], then [finally]. *)
Definition analysis_fails (message : jsstring) (s : state) : state * task :=
  (analysis_finally (analysis_catch message s), Done).

Definition structure_message (got : jsstring) : jsstring :=
  lit "Analysis structure error: Expected 7 items, got " ++ got ++ lit ".".

(** The [throw] of the structure check: building the message reads
    [analysisData.length], which itself throws on null. *)
Definition structure_error (v : json_value) : outcome (list AnalysisPoint) :=
  match v with
  | JNull => Throw (fault_message (ReadOfNull (lit "length")))
  | JArray items =>
      Throw (structure_message (JsString.of_N (N.of_nat (List.length items))))
  | JOther (Return length_text) => Throw (structure_message length_text)
  | JOther (Throw message) => Throw message
  end.

Definition check_structure (v : json_value) : outcome (list AnalysisPoint) :=
  match v with
  | JArray items =>
      if negb (List.length items =? 7)%nat then structure_error v
      else Return items
  | _ => structure_error v
  end.

Definition characters_resume (analysisData : list AnalysisPoint) (r : reply)
  (s : state) : state * task :=
  match fetchAPI r with
  | Throw message => analysis_fails message s
  | Return JsonNull =>
      analysis_fails (fault_message (ReadOfNull (lit "characters"))) s
  | Return (JsonObject charResult) =>
      let characters :=
        match characters charResult with
        | Some l => l
        | None => []
        end in
      match updateUI analysisData characters s with
      | (s, Return _) => (analysis_finally s, Done)
      | (s, Throw message) => analysis_fails message s
      end
  end.

Definition analyze_resume (storyText : jsstring) (r : reply) (s : state)
  : state * task :=
  match fetchAPI r with
  | Throw message => analysis_fails message s
  | Return JsonNull =>
      analysis_fails (fault_message (ReadOfNull (lit "analysis"))) s
  | Return (JsonObject result) =>
      match analysis result with
      | Unparsable message => analysis_fails message s
      | Parsed v =>
          match check_structure v with
          | Throw message => analysis_fails message s
          | Return analysisData =>
              let s := set_lastAnalysisData (Some analysisData) s in
              (s, Await {| endpoint := lit "/extract_characters";
                           sent := TextPayload storyText |}
                    (characters_resume analysisData))
          end
      end
  end.

Definition handleAnalysis (s : state) : state * task :=
  if isAnalyzing s then (s, Done) else
  let storyText := JsString.trim (storyInput s) in
  if (List.length storyText <? 100)%nat then
    let s := set_statusMessage
               (with_text
                  (lit "Error: Please enter a longer story (at least 100 characters) for a meaningful analysis.")
                  (statusMessage s)) s in
    (set_statusMessage (add_class text_red_600 (statusMessage s)) s, Done)
  else
  let s := set_statusMessage (remove_class text_red_600 (statusMessage s)) s in
  let s := set_isAnalyzing true s in
  let s := set_analyzeButton_disabled true s in
  let s := set_statusMessage
             (with_text
                (lit "Analyzing story across 4 dimensions... Please wait.")
                (statusMessage s)) s in
  let s := set_lastAnalysisData None s in
  let s := set_chatInput_disabled true s in
  let s := set_sendChatButton_disabled true s in
  (s, Await {| endpoint := lit "/analyze"; sent := TextPayload storyText |}
        (analyze_resume storyText)).

(** ** The event loop

    One thread runs the handlers to their next suspension point; replies
    arrive in any order, and the user may act between a request and its
    reply.  The handlers may be invoked at any time: whether a disabled
    button still delivers its click is left open. *)

Inductive action := Analyze | Search | Chat.

Definition action_eqb (a b : action) : bool :=
  match a, b with
  | Analyze, Analyze | Search, Search | Chat, Chat => true
  | _, _ => false
  end.

Definition busy (a : action) (s : state) : bool :=
  match a with
  | Analyze => isAnalyzing s
  | Search => isSearching s
  | Chat => isChatting s
  end.

Record world := { page : state; pending : list (action * task) }.

(** An edit of a text area carries the text the user gives it, which the
    script reads back normalized; an edit of a one-line input carries the
    value the script reads back. *)
Inductive event :=
| Edit_storyInput (text : jsstring)
| Edit_bookTitleInput (text : jsstring)
| Edit_summaryTextarea (text : jsstring)
| Edit_chatInput (text : jsstring)
| Call_handleAnalysis
| Call_findBookSummary
| Call_copySummaryToInput
| Call_handleChat
| Keypress_chatInput (key : jsstring)
| Click_character (index : nat)
| Call_downloadAnalysisData (today : jsstring)
| Reply_arrives (index : nat) (r : reply).

Definition suspended (a : action) (t : task) : list (action * task) :=
  match t with
  | Done => []
  | Await _ _ => [(a, t)]
  end.

Definition sync (f : state -> state) (w : world) : world :=
  {| page := f (page w); pending := pending w |}.

Definition start (a : action) (h : state -> state * task) (w : world)
  : world :=
  let (s, t) := h (page w) in
  {| page := s; pending := pending w ++ suspended a t |}.

Fixpoint remove_nth {A : Type} (n : nat) (l : list A) : list A :=
  match n, l with
  | _, [] => []
  | O, _ :: l' => l'
  | S n', a :: l' => a :: remove_nth n' l'
  end.

Definition fire (e : event) (w : world) : world :=
  match e with
  | Edit_storyInput text =>
      sync (set_storyInput (normalize_newlines text)) w
  | Edit_bookTitleInput text => sync (set_bookTitleInput text) w
  | Edit_summaryTextarea text =>
      sync (set_summaryTextarea (normalize_newlines text)) w
  | Edit_chatInput text => sync (set_chatInput text) w
  | Call_handleAnalysis => start Analyze handleAnalysis w
  | Call_findBookSummary => start Search findBookSummary w
  | Call_copySummaryToInput => sync copySummaryToInput w
  | Call_handleChat => start Chat handleChat w
  | Keypress_chatInput key => start Chat (chatInput_keypress key) w
  | Click_character index =>
      match nth_error (characterSlots (page w)) index with
      | Some i => sync (setActiveCharacter (Some (icon_onclick i))) w
      | None => w
      end
  | Call_downloadAnalysisData today => sync (downloadAnalysisData today) w
  | Reply_arrives index r =>
      match nth_error (pending w) index with
      | Some (a, Await _ resume) =>
          let (s, t) := resume r (page w) in
          {| page := s;
             pending := remove_nth index (pending w) ++ suspended a t |}
      | _ => w
      end
  end.

Definition run (es : list event) (w : world) : world :=
  fold_left (fun w e => fire e w) es w.

(** The script variables as the script initializes them, over a page,
    and the chart as [initializeChart] draws it once the page is loaded. *)
Definition page_load (d : state) : world :=
  let s := set_isAnalyzing false d in
  let s := set_isSearching false s in
  let s := set_isChatting false s in
  let s := set_chatHistory [] s in
  let s := set_lastAnalysisData None s in
  let s := set_activeCharacter None s in
  let s := set_chartData [0; 0; 0; 0; 0; 0; 0]%Z s in
  {| page := s; pending := [] |}.

(** A handler run with nothing else in between: the replies are fed to
    the task in order until it is done or they run out. *)
Fixpoint feed (rs : list reply) (st : state * task) : state * task :=
  match rs, snd st with
  | r :: rs', Await _ resume => feed rs' (resume r (fst st))
  | _, _ => st
  end.

(** ** Vocabulary of the properties *)

(** *** Switching the active character *)

(** A selector button is highlighted when it carries the three highlight
    classes and none of the plain ones. *)
Definition highlighted (i : icon) : Prop :=
  (forall c, In c highlight_classes -> In c (icon_classList i)) /\
  (forall c, In c plain_classes -> ~ In c (icon_classList i)).

(** *** Validation of the story and of a chat message *)

Definition validation_message : jsstring :=
  lit "Error: Please enter a longer story (at least 100 characters) for a meaningful analysis.".

Definition no_story_message : jsstring :=
  lit "Error: Please run a successful analysis first to provide character context!".

Definition no_character_message : jsstring :=
  lit "Error: Please select a character icon to start chatting!".


(** *** The transcript across a chat exchange *)

(** All the preconditions of [handleChat] hold. *)
Definition chat_ready (s : state) : Prop :=
  isChatting s = false /\ chatInput_disabled s = false /\
  JsString.trim (chatInput s) <> [] /\
  JsString.trim (storyInput s) <> [] /\
  truthy_field (activeCharacter s) = true.

Definition user_says (text : jsstring) : chat_message :=
  {| msg_role := user; msg_text := text |}.

Definition model_says (text : jsstring) : chat_message :=
  {| msg_role := model; msg_text := text |}.

(** *** The analysis pipeline *)

(** The preconditions of [handleAnalysis] hold. *)
Definition analysis_ready (s : state) : Prop :=
  isAnalyzing s = false /\
  (100 <= List.length (JsString.trim (storyInput s)))%nat.

(** The reply to [/analyze] is a success carrying an array of 7 items. *)
Definition analyzed (r : reply) : option (list AnalysisPoint) :=
  match fetchAPI r with
  | Return (JsonObject data) =>
      match analysis data with
      | Parsed (JArray items) =>
          if (List.length items =? 7)%nat then Some items else None
      | _ => None
      end
  | _ => None
  end.

(** The reply to [/extract_characters] is a success; a missing list of
    characters counts as empty. *)
Definition extracted (r : reply) : option (list jsstring) :=
  match fetchAPI r with
  | Return (JsonObject data) =>
      Some match characters data with
           | Some l => l
           | None => []
           end
  | _ => None
  end.

Definition total (scores : list Z) : Z := fold_right Z.add 0%Z scores.

(** The nearest integer to an exact rational, halves upwards. *)
Definition round_half_up (x : Q) : Z := Qfloor (x + (1 # 2))%Q.

(** Two numbers are the same value. *)
Definition same_number (x y : number) : bool :=
  match x, y with
  | S754_zero a, S754_zero b => Bool.eqb a b
  | S754_infinity a, S754_infinity b => Bool.eqb a b
  | S754_nan, S754_nan => true
  | S754_finite a m e, S754_finite b n f =>
      Bool.eqb a b && Pos.eqb m n && Z.eqb e f
  | _, _ => false
  end.

(** The band a metric's score is shown in. *)
Definition metric_band (color : string) (score : Z) : Prop :=
  ((80 < score)%Z -> color = text_red_600) /\
  ((50 < score <= 80)%Z -> color = text_amber_600) /\
  ((score <= 50)%Z -> color = text_green_600).

(** The band of the card's top border, from the Tension score. *)
Definition border_band (border : string) (tension : Z) : Prop :=
  ((70 < tension)%Z -> border = "border-red-500") /\
  ((40 < tension <= 70)%Z -> border = "border-amber-500") /\
  ((tension <= 40)%Z -> border = "border-green-500").

(** *** Busy flags across the event loop *)

(** The suspended tasks the handlers create. *)
Inductive known : action * task -> Prop :=
| known_analyze req storyText :
    known (Analyze, Await req (analyze_resume storyText))
| known_characters req analysisData :
    known (Analyze, Await req (characters_resume analysisData))
| known_search req : known (Search, Await req search_resume)
| known_chat req : known (Chat, Await req chat_resume).

(** An action is in flight when a task of it waits for a reply. *)
Definition in_flight (a : action) (w : world) : bool :=
  existsb (fun p => action_eqb a (fst p)) (pending w).

Definition consistent (w : world) : Prop :=
  Forall known (pending w) /\
  NoDup (map fst (pending w)) /\
  forall a, busy a (page w) = true <-> In a (map fst (pending w)).

(** What starting a handler of action [a] does to the flags. *)
Definition starts (a : action) (h : state -> state * task) : Prop :=
  forall s,
    (snd (h s) = Done /\ forall b, busy b (fst (h s)) = busy b s) \/
    (busy a s = false /\ busy a (fst (h s)) = true /\
     (forall b, b <> a -> busy b (fst (h s)) = busy b s) /\
     known (a, snd (h s))).

(** What resuming a task of action [a] does to the flags. *)
Definition resumes (a : action) (k : reply -> state -> state * task) : Prop :=
  forall r s,
    (forall b, b <> a -> busy b (fst (k r s)) = busy b s) /\
    ((snd (k r s) = Done /\ busy a (fst (k r s)) = false) \/
     (known (a, snd (k r s)) /\ busy a (fst (k r s)) = busy a s)).

(** The handler of each guarded action. *)
Definition handler (a : action) : state -> state * task :=
  match a with
  | Analyze => handleAnalysis
  | Search => findBookSummary
  | Chat => handleChat
  end.

(** The event that invokes the handler of an action. *)
Definition invocation (a : action) : event :=
  match a with
  | Analyze => Call_handleAnalysis
  | Search => Call_findBookSummary
  | Chat => Call_handleChat
  end.

(** The preconditions of [findBookSummary] hold. *)
Definition search_ready (s : state) : Prop :=
  isSearching s = false /\
  (5 <= List.length (JsString.trim (bookTitleInput s)))%nat.

(** An invocation of the handler of an action passes its checks. *)
Definition passes_checks (a : action) (s : state) : Prop :=
  match a with
  | Analyze => analysis_ready s
  | Search => search_ready s
  | Chat => chat_ready s
  end.

Definition export_refused : jsstring :=
  lit "Please run a successful story analysis first.".

(** *** A payload that is not an array of 7 items *)

(** A value other than null that is not an array of 7 items, with the
    text its [length] renders to. *)
Inductive malformed : json_value -> jsstring -> Prop :=
| malformed_array items :
    List.length items <> 7%nat ->
    malformed (JArray items) (JsString.of_N (N.of_nat (List.length items)))
| malformed_other length_text : malformed (JOther (Return length_text)) length_text.

(** ** View management

    [switchView] works on the three panels and the nav items only, so
    they are kept apart from the rest of the state.  [viewName] ranges
    over the keys of [views]: that is what the initialization passes, and
    what the [onclick] attribute that [switchView] looks for carries; for
    a key the guard on [views[viewName]] holds.  The delayed scroll of the
    chat panel is left out, like the scroll positions. *)

Inductive view := view_analysis | view_chat | view_about.

Definition view_key (v : view) : jsstring :=
  match v with
  | view_analysis => lit "analysis"
  | view_chat => lit "chat"
  | view_about => lit "about"
  end.

(** An element of class [nav-item]: its [onclick] attribute and its
    class list. *)
Record nav_item := { nav_onclick : jsstring; nav_classList : list string }.

(** The class lists of the three panels, and the nav items of the page
    in document order. *)
Record layout := {
  analysisView : list string;
  chatView : list string;
  aboutView : list string;
  navItems : list nav_item
}.

Definition panel (v : view) (p : layout) : list string :=
  match v with
  | view_analysis => analysisView p
  | view_chat => chatView p
  | view_about => aboutView p
  end.

Definition set_panel (v : view) (l : list string) (p : layout) : layout :=
  match v with
  | view_analysis =>
      {| analysisView := l; chatView := chatView p; aboutView := aboutView p;
         navItems := navItems p |}
  | view_chat =>
      {| analysisView := analysisView p; chatView := l;
         aboutView := aboutView p; navItems := navItems p |}
  | view_about =>
      {| analysisView := analysisView p; chatView := chatView p;
         aboutView := l; navItems := navItems p |}
  end.

Definition set_navItems (l : list nav_item) (p : layout) : layout :=
  {| analysisView := analysisView p; chatView := chatView p;
     aboutView := aboutView p; navItems := l |}.

Definition active_nav_classes : list string :=
  ["active-nav-item"; "bg-slate-700"].

Definition with_nav_classes (l : list string) (i : nav_item) : nav_item :=
  {| nav_onclick := nav_onclick i; nav_classList := l |}.

(** The value of [onclick] that the selector of [switchView] asks for. *)
Definition onclick_of (viewName : jsstring) : jsstring :=
  lit "switchView('" ++ viewName ++ lit "')".

(** [querySelector] over the nav items, and [classList.add] on the
    element found: the first item with that [onclick], if there is one. *)
Fixpoint activate_first (attr : jsstring) (items : list nav_item)
  : list nav_item :=
  match items with
  | [] => []
  | i :: rest =>
      if JsString.eqb (nav_onclick i) attr
      then with_nav_classes
             (classList_add active_nav_classes (nav_classList i)) i :: rest
      else i :: activate_first attr rest
  end.

Definition switchView (viewName : view) (p : layout) : layout :=
  let p := set_panel view_analysis
             (classList_add ["hidden"] (panel view_analysis p)) p in
  let p := set_panel view_chat
             (classList_add ["hidden"] (panel view_chat p)) p in
  let p := set_panel view_about
             (classList_add ["hidden"] (panel view_about p)) p in
  let p := set_panel viewName
             (classList_remove ["hidden"] (panel viewName p)) p in
  let p := set_navItems
             (map (fun item =>
                     with_nav_classes
                       (classList_remove active_nav_classes
                          (nav_classList item)) item)
                (navItems p)) p in
  set_navItems (activate_first (onclick_of (view_key viewName)) (navItems p)) p.

(** *** Vocabulary of the further properties *)

(** The nav item at position [n] is the first whose [onclick] is [attr]. *)
Definition first_match (attr : jsstring) (items : list nav_item) (n : nat)
  : Prop :=
  (exists i, nth_error items n = Some i /\ nav_onclick i = attr) /\
  forall m j, (m < n)%nat -> nth_error items m = Some j ->
              nav_onclick j <> attr.

(** A string of white space only (the empty string included). *)
Definition all_white (s : jsstring) : Prop :=
  forallb JsString.isWhiteSpace s = true.

(** The links in the markup of a status line, each with the address and
    the label that were put into it. *)
Fixpoint links (c : list inline) : list (jsstring * jsstring) :=
  match c with
  | [] => []
  | Txt _ :: c' => links c'
  | Link href label :: c' => (href, label) :: links c'
  end.

Definition query_refused : jsstring :=
  lit "Please enter a title and a specific section (e.g., 'Chapter 5 of Dracula').".


(** A selector button is plain when it carries the three plain classes
    and none of the highlight ones. *)
Definition plain (i : icon) : Prop :=
  (forall c, In c plain_classes -> In c (icon_classList i)) /\
  (forall c, In c highlight_classes -> ~ In c (icon_classList i)).

Definition analysis_failed : jsstring := lit "Analysis failed.".

Definition chat_mode_notice : jsstring :=
  lit "Chat mode is active. Select a character icon to begin!".

Definition analysis_complete : jsstring :=
  lit "Analysis complete! 4-Dimensional metrics mapped and chat enabled. Switch to the Chat tab to talk to your characters.".

Definition characters_loaded : jsstring :=
  lit "Character list loaded. Click an icon to start chatting!".

Definition no_characters : jsstring :=
  lit "Ready to chat, but no specific characters were identified in the text.".

(** A property of the page that every handler, every continuation and
    every edit of the user keeps. *)
Definition kept (P : state -> Prop) : Prop :=
  (forall text s, P s -> P (set_storyInput text s)) /\
  (forall text s, P s -> P (set_bookTitleInput text s)) /\
  (forall text s, P s -> P (set_summaryTextarea text s)) /\
  (forall text s, P s -> P (set_chatInput text s)) /\
  (forall s, P s -> P (fst (handleAnalysis s))) /\
  (forall s, P s -> P (fst (findBookSummary s))) /\
  (forall s, P s -> P (copySummaryToInput s)) /\
  (forall s, P s -> P (fst (handleChat s))) /\
  (forall name s, P s -> P (setActiveCharacter name s)) /\
  (forall today s, P s -> P (downloadAnalysisData today s)) /\
  (forall storyText r s, P s -> P (fst (analyze_resume storyText r s))) /\
  (forall analysisData r s,
     P s -> P (fst (characters_resume analysisData r s))) /\
  (forall r s, P s -> P (fst (search_resume r s))) /\
  (forall r s, P s -> P (fst (chat_resume r s))).

(** The messages of the fragments written into the chat panel, in
    order, each with its role and with its text as it was put into the
    fragment. *)
Fixpoint written_messages (out : list bubble) : list chat_message :=
  match out with
  | [] => []
  | Notice _ :: out' => written_messages out'
  | Message who _ text :: out' =>
      {| msg_role := who; msg_text := text |} :: written_messages out'
  end.

(** Every retained or saved analysis has 7 points, apart from the files
    in [before]. *)
Definition seven_points (before : list download) (s : state) : Prop :=
  (forall analysisData,
     lastAnalysisData s = Some analysisData ->
     List.length analysisData = 7%nat) /\
  (forall f, In f (downloads s) ->
             In f before \/ List.length (file_data f) = 7%nat).

(** While an analysis is in flight the chat input is disabled. *)
Definition chat_closed_while_analyzing (s : state) : Prop :=
  isAnalyzing s = true -> chatInput_disabled s = true.

(** The fragments written into the chat panel carry the transcript. *)
Definition panel_follows_transcript (s : state) : Prop :=
  written_messages (chatOutput s) = chatHistory s.

Definition chat_status_red (s : state) : Prop :=
  In text_red_600 (classList (chatStatusMessage s)).

(** The analyze and search buttons are disabled exactly while their
    flags are set. *)
Definition buttons_follow_flags (s : state) : Prop :=
  analyzeButton_disabled s = isAnalyzing s /\
  findSummaryButton_disabled s = isSearching s.

(** The reply to a chat request brings no answer: the call fails, the
    data is null, or the response is missing or empty. *)
Definition unanswered (r : reply) : Prop :=
  (exists message, fetchAPI r = Throw message) \/
  fetchAPI r = Return JsonNull \/
  (exists data, fetchAPI r = Return data /\
                (response data = None \/ response data = Some [])).

(** The icon of the rule for boy, man, john and mr. *)
Definition man_icon : jsstring := [55358; 56788]%N.

(** The chat is open only over a retained analysis: so it is on the
    page, and so it will be when a pending extraction of the characters
    is answered. *)
Definition chat_needs_analysis (w : world) : Prop :=
  (chatInput_disabled (page w) = false -> lastAnalysisData (page w) <> None) /\
  (forall req analysisData,
     In (Analyze, Await req (characters_resume analysisData)) (pending w) ->
     lastAnalysisData (page w) <> None).

End Analysis.

(** ** Sample data for the examples *)

(** A stand-in for the HTML parser on the names of the examples: it
    resolves the character reference for the ampersand and leaves the
    rest of the name as it is. *)
Fixpoint sample_label_text (name : jsstring) : jsstring :=
  match name with
  | 38%N :: 97%N :: 109%N :: 112%N :: 59%N :: rest =>
      38%N :: sample_label_text rest
  | c :: rest => c :: sample_label_text rest
  | [] => []
  end.

(** An engine for the examples: [toLowerCase] on the Basic Latin letters,
    the error texts of V8, and the stand-in for the parser. *)
Definition v8 : Engine := {|
  toLowerCase :=
    map (fun c => if ((65 <=? c) && (c <=? 90))%N then (c + 32)%N else c);
  fault_message := fun f =>
    match f with
    | ReadOfNull property =>
        lit "Cannot read properties of null (reading '" ++ property ++ lit "')"
    | ReadOfUndefined property =>
        lit "Cannot read properties of undefined (reading '" ++ property
        ++ lit "')"
    | ReduceOfEmpty => lit "Reduce of empty array with no initial value"
    end;
  label_text := sample_label_text
|}.

Definition empty_element : element := {| content := []; classList := [] |}.

(** A page on which nothing has happened yet. *)
Definition fresh_page : state :=
  mkState false false false [] None None [0; 0; 0; 0; 0; 0; 0]%Z []
    empty_element false (AnalysisCards []) None [] false empty_element
    ["hidden"] [] [] [] true false true empty_element [] true [] [].

(** The story of the spec's scenario: 150 times the letter a. *)
Definition story150 : jsstring := repeat 97%N 150.

Definition ready_page : state := set_storyInput story150 fresh_page.

Definition sample_point (tension : Z) : AnalysisPoint :=
  {| keyEvent := lit "The storm breaks";
     characterFocus := lit "Mina";
     TensionScore := tension;
     TensionSummary := lit "rising";
     PacingScore := 75;
     PacingSummary := lit "brisk";
     AgencyScore := 45;
     AgencySummary := lit "constrained";
     ResonanceScore := 90;
     ResonanceSummary := lit "strong" |}.

Definition sample_analysis : list AnalysisPoint :=
  map sample_point [10; 20; 30; 40; 50; 60; 70]%Z.

(** Seven beats whose first Tension score is 2^53. *)
Definition large_analysis : list AnalysisPoint :=
  map sample_point [9007199254740992; 0; 3; 3; 3; 3; 3]%Z.

Definition empty_body : body :=
  {| error := None; analysis := Unparsable (lit "Unexpected token");
     characters := None; excerpt := None; sources := None; response := None |}.

Definition analysis_body (v : json_value) : body :=
  {| error := None; analysis := Parsed v; characters := None;
     excerpt := None; sources := None; response := None |}.

Definition characters_body (names : list jsstring) : body :=
  {| error := None; analysis := Unparsable (lit "Unexpected token");
     characters := Some names; excerpt := None; sources := None;
     response := None |}.

Definition response_body (text : jsstring) : body :=
  {| error := None; analysis := Unparsable (lit "Unexpected token");
     characters := None; excerpt := None; sources := None;
     response := Some text |}.

Definition analyze_reply : reply :=
  Replied 200 (analysis_body (JArray sample_analysis)).

Definition characters_reply : reply :=
  Replied 200 (characters_body [lit "A"; lit "B"]).

Definition large_reply : reply :=
  Replied 200 (analysis_body (JArray large_analysis)).

Definition network_down : reply := FetchRejected (lit "Failed to fetch").

(** The state in which the first reply of the sample analysis arrives. *)
Definition analysis_in_flight : state :=
  fst (handleAnalysis (engine := v8) ready_page).

(** The page after the sample analysis has succeeded. *)
Definition analysis_done : state :=
  fst (feed [analyze_reply; characters_reply]
         (handleAnalysis (engine := v8) ready_page)).

(** The page while the sample analysis is in flight, after the user has
    replaced the story by a short one. *)
Definition short_story_while_analyzing : state :=
  page (run (engine := v8)
          [Edit_storyInput story150; Call_handleAnalysis;
           Edit_storyInput (lit "too short")] (page_load fresh_page)).

(** The page after a second analysis, started on the page the sample
    analysis left, has failed for want of a network. *)
Definition analysis_failed_after_success : state :=
  fst (feed [network_down] (handleAnalysis (engine := v8) analysis_done)).

(** The page after the sample analysis, with a message typed. *)
Definition hello_typed : state := set_chatInput (lit "Hello") analysis_done.

(** A layout for the examples: the analysis panel is shown and its nav
    item, the first of three, is the active one. *)
Definition sample_layout : layout :=
  {| analysisView := ["view"];
     chatView := ["view"; "hidden"];
     aboutView := ["view"; "hidden"];
     navItems :=
       [{| nav_onclick := onclick_of (lit "analysis");
           nav_classList := ["nav-item"; "active-nav-item"; "bg-slate-700"] |};
        {| nav_onclick := onclick_of (lit "chat");
           nav_classList := ["nav-item"] |};
        {| nav_onclick := onclick_of (lit "about");
           nav_classList := ["nav-item"] |}] |}.

(** A query of four characters, and one that is long enough. *)
Definition short_query_page : state :=
  set_bookTitleInput (lit "Emma") fresh_page.

Definition search_page : state :=
  set_bookTitleInput (lit "Chapter 5 of Dracula") fresh_page.

(** An excerpt of two lines of 60 characters, parted by CR LF, between
    two spaces; it comes with two sources. *)
Definition excerpt_text : jsstring :=
  lit " " ++ repeat 98%N 60 ++ [13; 10]%N ++ repeat 98%N 60 ++ lit " ".


Definition sample_sources : list source :=
  [{| uri := lit "https://example.org/one"; title := lit "One" |};
   {| uri := lit "https://example.org/two"; title := lit "Two" |}].

Definition excerpt_body : body :=
  {| error := None; analysis := Unparsable (lit "Unexpected token");
     characters := None; excerpt := Some excerpt_text;
     sources := Some sample_sources; response := None |}.

Definition search_reply : reply := Replied 200 excerpt_body.

Definition chat_reply : reply :=
  Replied 200 (response_body (lit "Hello traveler")).

(** The user types the story and has it analyzed; both replies arrive. *)
Definition analysis_events : list event :=
  [Edit_storyInput story150; Call_handleAnalysis;
   Reply_arrives 0 analyze_reply; Reply_arrives 0 characters_reply].

(** After that the user sends Hello and gets an answer. *)
Definition chat_events : list event :=
  analysis_events
  ++ [Edit_chatInput (lit "Hello"); Call_handleChat; Reply_arrives 0 chat_reply].

(** ** Properties *)

Section Properties.

Context {engine : Engine}.

Implicit Types data : body.

(** *** Strings and class lists *)

Example trim_example :
  JsString.trim (lit "  a b " ++ [160%N; 10%N]) = lit "a b".
Proof. reflexivity. Qed.

Example of_N_example : JsString.of_N 503 = lit "503".
Proof. reflexivity. Qed.

Lemma startsWith_app (p s : jsstring) : JsString.startsWith (p ++ s) p = true.
Proof.
  induction p as [|c p IH]; simpl.
  - destruct s; reflexivity.
  - now rewrite N.eqb_refl, IH.
Qed.

Lemma includes_app_r (e p : jsstring) : JsString.includes (e ++ p) p = true.
Proof.
  induction e as [|c e IH]; simpl.
  - destruct p as [|c p]; simpl.
    + reflexivity.
    + rewrite N.eqb_refl.
      generalize (startsWith_app p []). rewrite app_nil_r. now intros ->.
  - rewrite IH. apply orb_true_r.
Qed.

Lemma classList_contains_In (c : string) (l : list string) :
  classList_contains c l = true <-> In c l.
Proof.
  unfold classList_contains. rewrite existsb_exists. split.
  - intros [x [Hx Heq]]. apply String.eqb_eq in Heq. now subst.
  - intros H. exists c. split; [assumption | apply String.eqb_refl].
Qed.

Lemma classList_add_In (cs l : list string) (c : string) :
  In c (classList_add cs l) <-> In c cs \/ In c l.
Proof.
  unfold classList_add. revert l.
  induction cs as [|d cs IH]; intros l; simpl.
  - tauto.
  - rewrite IH. destruct (classList_contains d l) eqn:E.
    + apply classList_contains_In in E. intuition (subst; auto).
    + rewrite in_app_iff. simpl. intuition (subst; auto).
Qed.

Lemma classList_remove_In (cs l : list string) (c : string) :
  In c (classList_remove cs l) <-> In c l /\ ~ In c cs.
Proof.
  unfold classList_remove. rewrite filter_In, negb_true_iff.
  rewrite <- (classList_contains_In c cs).
  destruct (classList_contains c cs); intuition congruence.
Qed.

Lemma disjoint_classes (c : string) :
  In c highlight_classes -> In c plain_classes -> False.
Proof.
  unfold highlight_classes, plain_classes. simpl.
  intuition (subst; discriminate).
Qed.

Lemma mark_icon_highlighted (name : option jsstring) (i : icon) :
  highlighted (mark_icon name i) <->
  JsString.includes (icon_textContent i) (to_text name) = true.
Proof.
  unfold mark_icon, highlighted.
  destruct (JsString.includes (icon_textContent i) (to_text name));
    cbn [with_classes icon_classList].
  - split; [reflexivity | intros _]. split; intros c Hc.
    + rewrite classList_remove_In, classList_add_In.
      split; [now left | intros Hp; exact (disjoint_classes c Hc Hp)].
    + rewrite classList_remove_In. tauto.
  - split; [| discriminate]. intros [H _]. exfalso.
    specialize (H "bg-blue-600"). 
    rewrite classList_add_In, classList_remove_In in H.
    assert (Hin : In "bg-blue-600" highlight_classes) by (simpl; auto).
    destruct (H Hin) as [Hp | [_ Hn]].
    + exact (disjoint_classes _ Hin Hp).
    + exact (Hn Hin).
Qed.

(** *** Switching the active character *)

Lemma mark_icon_name (name : option jsstring) (i : icon) :
  icon_name (mark_icon name i) = icon_name i.
Proof. unfold mark_icon. now destruct JsString.includes. Qed.

(** C7 (as amended): after [setActiveCharacter] with a name the
    transcript is empty (length 0), the name is the active character,
    every selector button of that name is highlighted (a button is
    highlighted exactly when its text includes the name), and the chat
    input has the focus if it is enabled; a disabled chat input does not
    take the focus, which then stays where it was. *)
Theorem setActiveCharacter_clears_and_highlights :
  forall (name : jsstring) (s : state),
    let s' := setActiveCharacter (Some name) s in
    List.length (chatHistory s') = 0%nat /\
    activeCharacter s' = Some name /\
    List.length (characterSlots s') = List.length (characterSlots s) /\
    (forall i, In i (characterSlots s') -> icon_name i = name ->
               highlighted i) /\
    (forall n i, nth_error (characterSlots s) n = Some i ->
       exists i', nth_error (characterSlots s') n = Some i' /\
         icon_name i' = icon_name i /\
         (highlighted i' <->
          JsString.includes (icon_textContent i) name = true)) /\
    (chatInput_disabled s = false -> chatInput_focused s' = true) /\
    (chatInput_disabled s = true ->
     chatInput_focused s' = chatInput_focused s).
Proof.
  intros name s s'. subst s'. unfold setActiveCharacter, focus_chatInput.
  cbn [chatInput_disabled set_characterSlots set_chatOutput set_chatHistory
       set_activeCharacter].
  destruct (chatInput_disabled s) eqn:Hd; cbn;
    (split; [reflexivity |]); (split; [reflexivity |]);
    (split; [apply length_map |]).
  all: split; [| split; [| split; intros; congruence]].
  all: try (intros i Hin Hname; apply in_map_iff in Hin;
            destruct Hin as [j [<- _]];
            apply mark_icon_highlighted; cbn [to_text];
            rewrite mark_icon_name in Hname;
            unfold icon_textContent; rewrite Hname;
            apply includes_app_r).
  all: intros n i Hn; exists (mark_icon (Some name) i);
    (split; [now rewrite nth_error_map, Hn |]);
    (split; [apply mark_icon_name |]);
    apply (mark_icon_highlighted (Some name) i).
Qed.

(** *** Validation of the story and of a chat message *)

(** C2 (as amended): when the trimmed story is shorter than 100 code
    units, [handleAnalysis] sends no request.  If no analysis is in
    flight it shows the validation message, in red, in the status line
    and changes nothing else; if one is in flight it does nothing. *)
Theorem short_story_is_rejected :
  forall s : state,
    (List.length (JsString.trim (storyInput s)) < 100)%nat ->
    snd (handleAnalysis s) = Done /\
    (isAnalyzing s = false ->
     fst (handleAnalysis s) =
       set_statusMessage
         {| content := [Txt validation_message];
            classList := classList_add [text_red_600]
                           (classList (statusMessage s)) |} s) /\
    (isAnalyzing s = true -> fst (handleAnalysis s) = s).
Proof.
  intros s Hshort. apply Nat.ltb_lt in Hshort.
  unfold handleAnalysis. rewrite Hshort.
  destruct (isAnalyzing s); repeat split; intros; try discriminate; reflexivity.
Qed.


(** *** The transcript across a chat exchange *)

Lemma handleChat_ready (s : state) :
  chat_ready s ->
  exists s1,
    handleChat s =
      (s1, Await {| endpoint := lit "/chat";
                    sent := ChatPayload (JsString.trim (storyInput s))
                              (chatHistory s1) (activeCharacter s) |}
             chat_resume) /\
    chatHistory s1 =
      chatHistory s ++ [user_says (JsString.trim (chatInput s))] /\
    isChatting s1 = true /\ isAnalyzing s1 = isAnalyzing s /\
    isSearching s1 = isSearching s /\
    lastAnalysisData s1 = lastAnalysisData s.
Proof.
  intros (Hb & Hd & Hu & Ht & Hc). unfold handleChat.
  rewrite Hb, Hd, Hc. cbn [orb negb].
  destruct (JsString.trim (chatInput s)) as [|c u]; [congruence |].
  destruct (JsString.trim (storyInput s)) as [|d t]; [congruence |].
  cbn [JsString.truthy negb]. eexists. split; [reflexivity |].
  repeat split.
Qed.



(** *** The analysis pipeline *)

Lemma handleAnalysis_ready (s : state) :
  analysis_ready s ->
  let storyText := JsString.trim (storyInput s) in
  exists s1,
    handleAnalysis s =
      (s1, Await {| endpoint := lit "/analyze"; sent := TextPayload storyText |}
             (analyze_resume storyText)) /\
    isAnalyzing s1 = true /\ isSearching s1 = isSearching s /\
    isChatting s1 = isChatting s /\ lastAnalysisData s1 = None /\
    chatInput_disabled s1 = true /\ sendChatButton_disabled s1 = true.
Proof.
  intros [Hb Hlen] storyText. subst storyText. unfold handleAnalysis.
  rewrite Hb. apply Nat.ltb_ge in Hlen. rewrite Hlen.
  eexists. split; [reflexivity |]. repeat split.
Qed.

Lemma handleAnalysis_not_ready (s : state) :
  ~ analysis_ready s ->
  snd (handleAnalysis s) = Done /\
  lastAnalysisData (fst (handleAnalysis s)) = lastAnalysisData s /\
  forall a, busy a (fst (handleAnalysis s)) = busy a s.
Proof.
  unfold analysis_ready, handleAnalysis. intros Hn.
  destruct (isAnalyzing s) eqn:Hb.
  { repeat split. }
  destruct (List.length (JsString.trim (storyInput s)) <? 100)%nat eqn:Hlen.
  - repeat split.
  - apply Nat.ltb_ge in Hlen. exfalso. auto.
Qed.

Lemma analyze_resume_analyzed (storyText : jsstring) (r : reply) (s : state)
  (analysisData : list AnalysisPoint) :
  analyzed r = Some analysisData ->
  List.length analysisData = 7%nat /\
  analyze_resume storyText r s =
    (set_lastAnalysisData (Some analysisData) s,
     Await {| endpoint := lit "/extract_characters";
              sent := TextPayload storyText |}
       (characters_resume analysisData)).
Proof.
  unfold analyzed, analyze_resume.
  destruct (fetchAPI r) as [[| data] | message]; try discriminate.
  destruct (analysis data) as [message | [| items | t]]; try discriminate.
  unfold check_structure.
  destruct (List.length items =? 7)%nat eqn:Hlen; [| discriminate].
  intros [= <-]. apply Nat.eqb_eq in Hlen. now split.
Qed.

Lemma analyze_resume_not_analyzed (storyText : jsstring) (r : reply)
  (s : state) :
  analyzed r = None ->
  exists message, analyze_resume storyText r s = analysis_fails message s.
Proof.
  unfold analyzed, analyze_resume.
  destruct (fetchAPI r) as [[| data] | message]; [eauto | | eauto].
  destruct (analysis data) as [message | [| items | [t | message]]];
    cbn; eauto.
  destruct (List.length items =? 7)%nat; [discriminate | cbn; eauto].
Qed.

Lemma render_all_slots (names : list jsstring) (s : state) :
  fold_left
    (fun s name => set_characterSlots (characterSlots s ++ [new_icon name]) s)
    names s =
  set_characterSlots (characterSlots s ++ map new_icon names) s.
Proof.
  revert s. induction names as [|name names IH]; intros s; cbn [fold_left map].
  - rewrite app_nil_r. now destruct s.
  - rewrite IH. cbn. now rewrite <- app_assoc.
Qed.

Lemma renderCharacterSlots_slots (first : jsstring) (rest : list jsstring)
  (s : state) :
  characterSlots_found s = true ->
  renderCharacterSlots (first :: rest) s =
    setActiveCharacter (Some first)
      (set_characterSlots (map new_icon (first :: rest)) s).
Proof.
  intros Hfound. unfold renderCharacterSlots. rewrite Hfound. cbn [negb].
  now rewrite render_all_slots.
Qed.

Lemma renderCharacterSlots_missing (names : list jsstring) (s : state) :
  characterSlots_found s = false -> renderCharacterSlots names s = s.
Proof.
  intros Hfound. unfold renderCharacterSlots. now rewrite Hfound.
Qed.

Ltac open_renderCharacterSlots s :=
  let Hfound := fresh "Hfound" in
  destruct (characterSlots_found s) eqn:Hfound;
  [rewrite renderCharacterSlots_slots by exact Hfound
  | rewrite renderCharacterSlots_missing by exact Hfound].

Lemma fold_left_add (l : list Z) (a : Z) :
  fold_left Z.add l a = (a + total l)%Z.
Proof.
  revert a. induction l as [|b l IH]; intros a; cbn [fold_left total fold_right].
  - lia.
  - rewrite IH. unfold total. lia.
Qed.

(** Rounding a quotient of integers to the nearest integer, halves
    upwards, in integer arithmetic. *)
Lemma round_half_up_div (t : Z) (n : positive) :
  round_half_up (inject_Z t / inject_Z (Z.pos n)) =
    ((2 * t + Z.pos n) / (2 * Z.pos n))%Z.
Proof.
  unfold round_half_up, Qfloor, Qplus, Qdiv, Qmult, Qinv, inject_Z.
  cbn [Qnum Qden]. f_equal; lia.
Qed.

Lemma same_number_eq (x y : number) : same_number x y = true -> x = y.
Proof.
  destruct x as [a | a | | a m e], y as [b | b | | b n f]; cbn;
    try discriminate; try reflexivity.
  - intros H. apply Bool.eqb_prop in H. now subst.
  - intros H. apply Bool.eqb_prop in H. now subst.
  - intros H. apply andb_true_iff in H. destruct H as [H He].
    apply andb_true_iff in H. destruct H as [Hs Hm].
    apply Bool.eqb_prop in Hs. apply Pos.eqb_eq in Hm. apply Z.eqb_eq in He.
    now subst.
Qed.

(** On the integers from 0 to 100 the additions of the average are
    exact: checked on every sum that can occur. *)
Lemma sums_are_exact :
  forallb
    (fun a =>
       forallb
         (fun b =>
            same_number
              (number_add (number_of_Z (Z.of_nat a)) (number_of_Z (Z.of_nat b)))
              (number_of_Z (Z.of_nat a + Z.of_nat b)))
         (seq 0 101))
    (seq 0 601) = true.
Proof. vm_compute. reflexivity. Qed.

(** And the division by 7, rounded as it is, is never close enough to a
    half for [Math.round] to go the other way. *)
Lemma quotients_are_rounded :
  forallb
    (fun k =>
       same_number
         (Math_round (number_div (number_of_Z (Z.of_nat k)) (number_of_Z 7)))
         (number_of_Z ((2 * Z.of_nat k + 7) / 14)))
    (seq 0 701) = true.
Proof. vm_compute. reflexivity. Qed.

Lemma number_add_exact (a b : Z) :
  (0 <= a <= 600)%Z -> (0 <= b <= 100)%Z ->
  number_add (number_of_Z a) (number_of_Z b) = number_of_Z (a + b).
Proof.
  intros Ha Hb. pose proof sums_are_exact as H.
  rewrite forallb_forall in H.
  assert (Hina : In (Z.to_nat a) (seq 0 601)) by (apply in_seq; lia).
  specialize (H (Z.to_nat a) Hina).
  rewrite forallb_forall in H.
  assert (Hinb : In (Z.to_nat b) (seq 0 101)) by (apply in_seq; lia).
  specialize (H (Z.to_nat b) Hinb). rewrite !Z2Nat.id in H by lia.
  now apply same_number_eq.
Qed.

Lemma Math_round_seventh (k : Z) :
  (0 <= k <= 700)%Z ->
  Math_round (number_div (number_of_Z k) (number_of_Z 7))
  = number_of_Z ((2 * k + 7) / 14).
Proof.
  intros Hk. pose proof quotients_are_rounded as H.
  rewrite forallb_forall in H.
  assert (Hin : In (Z.to_nat k) (seq 0 701)) by (apply in_seq; lia).
  specialize (H (Z.to_nat k) Hin). rewrite !Z2Nat.id in H by lia.
  now apply same_number_eq.
Qed.

Lemma average_nonempty (a : number) (l : list number) :
  average (a :: l) =
    Return (Math_round
              (number_div (fold_left number_add l a)
                 (number_of_Z (Z.of_nat (List.length (a :: l)))))).
Proof. reflexivity. Qed.

(** The average of seven integers from 0 to 100. *)
Lemma average_of_seven (scores : list Z) :
  List.length scores = 7%nat ->
  (forall t, In t scores -> (0 <= t <= 100)%Z) ->
  average (map number_of_Z scores)
  = Return (number_of_Z ((2 * total scores + 7) / 14)).
Proof.
  intros Hlen Hrange.
  destruct scores as [|t0 [|t1 [|t2 [|t3 [|t4 [|t5 [|t6 [|t7 l]]]]]]]];
    try discriminate.
  assert (H0 := Hrange t0). assert (H1 := Hrange t1).
  assert (H2 := Hrange t2). assert (H3 := Hrange t3).
  assert (H4 := Hrange t4). assert (H5 := Hrange t5).
  assert (H6 := Hrange t6). cbn [In] in *.
  cbn [map]. rewrite average_nonempty. cbn [fold_left List.length].
  rewrite !number_add_exact by lia.
  change (Z.of_nat 7) with 7%Z.
  rewrite Math_round_seventh by lia.
  unfold total. cbn [fold_right]. do 3 f_equal. lia.
Qed.

Lemma render_summary_seven (analysisData : list AnalysisPoint) :
  List.length analysisData = 7%nat ->
  exists panel,
    render_summary analysisData (map TensionScore analysisData) = Return panel /\
    average (map number_of_Z (map TensionScore analysisData))
    = Return (summary_avgTension panel).
Proof.
  intros Hlen.
  destruct analysisData as [|p0 [|p1 [|p2 [|p3 [|p4 [|p5 [|p6 [|p7 l]]]]]]]];
    try discriminate.
  unfold render_summary. cbn [nth_error map].
  rewrite average_nonempty. eexists. split; reflexivity.
Qed.

(** What a run of [updateUI] over seven beats leaves on the page. *)
Lemma updateUI_seven (analysisData : list AnalysisPoint)
  (names : list jsstring) (s : state) :
  List.length analysisData = 7%nat ->
  exists s' panel,
    updateUI analysisData names s = (s', Return tt) /\
    analysisOutput s' = AnalysisCards (map_indexed render_card 0 analysisData) /\
    analysisOutputSummary s' = Some panel /\
    average (map number_of_Z (map TensionScore analysisData))
    = Return (summary_avgTension panel) /\
    characterSlots s' =
      match names with
      | [] => map (mark_icon None) (characterSlots s)
      | first :: _ =>
          if characterSlots_found s
          then map (mark_icon (Some first)) (map new_icon names)
          else characterSlots s
      end /\
    activeCharacter s' =
      match names with
      | [] => None
      | first :: _ =>
          if characterSlots_found s then Some first else activeCharacter s
      end /\
    chatHistory s' = [] /\
    chatInput_disabled s' = false /\ sendChatButton_disabled s' = false /\
    lastAnalysisData s' = lastAnalysisData s /\
    (forall a, busy a s' = busy a s).
Proof.
  intros Hlen.
  destruct (render_summary_seven analysisData Hlen) as (panel & Hpanel & Havg).
  unfold updateUI. rewrite Hpanel.
  destruct names as [|first rest].
  - unfold setActiveCharacter, focus_chatInput. cbn.
    destruct (chatInput_disabled s); do 2 eexists;
      (split; [reflexivity |]); cbn; repeat split; try exact Havg;
      intros []; reflexivity.
  - destruct (characterSlots_found s) eqn:Hfound.
    + rewrite renderCharacterSlots_slots by exact Hfound.
      unfold setActiveCharacter, focus_chatInput. cbn.
      destruct (chatInput_disabled s); do 2 eexists;
        (split; [reflexivity |]); cbn; repeat split; try exact Havg;
        intros []; reflexivity.
    + rewrite renderCharacterSlots_missing by exact Hfound.
      do 2 eexists; (split; [reflexivity |]); cbn; repeat split;
        try exact Havg; intros []; reflexivity.
Qed.

Lemma feed_done (rs : list reply) (s : state) : feed rs (s, Done) = (s, Done).
Proof. now destruct rs. Qed.

(** A run of the whole pipeline with both replies successful, nothing
    else happening in between. *)
Lemma successful_run (s : state) (r1 r2 : reply)
  (analysisData : list AnalysisPoint) (names : list jsstring) :
  analysis_ready s ->
  analyzed r1 = Some analysisData ->
  extracted r2 = Some names ->
  exists final panel,
    feed [r1; r2] (handleAnalysis s) = (final, Done) /\
    List.length analysisData = 7%nat /\
    analysisOutput final =
      AnalysisCards (map_indexed render_card 0 analysisData) /\
    analysisOutputSummary final = Some panel /\
    average (map number_of_Z (map TensionScore analysisData))
    = Return (summary_avgTension panel) /\
    characterSlots final =
      match names with
      | [] => map (mark_icon None) (characterSlots s)
      | first :: _ =>
          if characterSlots_found s
          then map (mark_icon (Some first)) (map new_icon names)
          else characterSlots s
      end /\
    activeCharacter final =
      match names with
      | [] => None
      | first :: _ =>
          if characterSlots_found s then Some first else activeCharacter s
      end /\
    chatHistory final = [] /\
    chatInput_disabled final = false /\
    sendChatButton_disabled final = false /\
    lastAnalysisData final = Some analysisData /\
    isAnalyzing final = false.
Proof.
  intros Hready Hr1 Hr2.
  destruct (handleAnalysis_ready s Hready) as (s1 & Hstart & _).
  destruct (analyze_resume_analyzed (JsString.trim (storyInput s)) r1 s1 _ Hr1)
    as (Hlen & Hstep).
  rewrite Hstart. cbn [feed snd fst]. rewrite Hstep. cbn [feed snd fst].
  unfold characters_resume. unfold extracted in Hr2.
  destruct (fetchAPI r2) as [[| charResult] | message]; try discriminate.
  injection Hr2 as Hnames. rewrite Hnames.
  destruct (updateUI_seven analysisData names
              (set_lastAnalysisData (Some analysisData) s1) Hlen)
    as (s3 & panel & Hui & Hcards & Hpanel & Havg & Hslots & Hactive
        & Hhist & Hin & Hsend & Hlast & Hbusy).
  rewrite Hui. exists (analysis_finally s3), panel.
  split; [reflexivity |]. split; [exact Hlen |].
  assert (Hs1 : characterSlots s1 = characterSlots s /\
                characterSlots_found s1 = characterSlots_found s /\
                activeCharacter s1 = activeCharacter s).
  { unfold handleAnalysis in Hstart. destruct Hready as [Hb Hl].
    rewrite Hb in Hstart. apply Nat.ltb_ge in Hl. rewrite Hl in Hstart.
    injection Hstart as <-. repeat split. }
  destruct Hs1 as (Hs1 & Hf1 & Ha1).
  unfold analysis_finally. cbn.
  cbn in Hslots, Hactive. rewrite Hs1, Hf1 in Hslots. rewrite Hf1, Ha1 in Hactive.
  repeat split; assumption.
Qed.

Lemma map_indexed_nth_error {A B : Type} (f : nat -> A -> B) (l : list A) :
  forall index n,
    nth_error (map_indexed f index l) n =
      option_map (f (index + n)%nat) (nth_error l n).
Proof.
  induction l as [|a l IH]; intros index [|n]; cbn; try reflexivity.
  - now rewrite Nat.add_0_r.
  - rewrite IH. now rewrite Nat.add_succ_r.
Qed.

Lemma map_indexed_length {A B : Type} (f : nat -> A -> B) (l : list A) :
  forall index, List.length (map_indexed f index l) = List.length l.
Proof. induction l; intros; cbn; auto. Qed.

Lemma getMetricColor_band (score : Z) : metric_band (getMetricColor score) score.
Proof.
  unfold metric_band, getMetricColor.
  destruct (score >? 80)%Z eqn:H80; [| destruct (score >? 50)%Z eqn:H50];
    repeat split; intros; try reflexivity; lia.
Qed.

Lemma cardBorderColor_band (tension : Z) :
  border_band (cardBorderColor tension) tension.
Proof.
  unfold border_band, cardBorderColor.
  destruct (tension >? 70)%Z eqn:H70; [| destruct (tension >? 40)%Z eqn:H40];
    repeat split; intros; try reflexivity; lia.
Qed.

(** C1 (as amended): after a successful analysis there is one card per
    beat; each card lists the four metrics Tension, Pacing, Agency and
    Resonance with the beat's scores, and each score is shown red when
    greater than 80, amber when greater than 50 and at most 80, green
    otherwise.  The bands at 70 and 40 are those of the card's top
    border, which follows the Tension score. *)
Theorem metric_scores_are_banded :
  forall (s : state) (r1 r2 : reply) (analysisData : list AnalysisPoint)
         (names : list jsstring),
    analysis_ready s ->
    analyzed r1 = Some analysisData ->
    extracted r2 = Some names ->
    exists cards,
      analysisOutput (fst (feed [r1; r2] (handleAnalysis s)))
        = AnalysisCards cards /\
      List.length cards = 7%nat /\
      forall n item,
        nth_error analysisData n = Some item ->
        exists c,
          nth_error cards n = Some c /\
          map (fun row => (row_label row, row_score row)) (card_metrics c) =
            [(lit "Tension", TensionScore item);
             (lit "Pacing", PacingScore item);
             (lit "Agency", AgencyScore item);
             (lit "Resonance", ResonanceScore item)] /\
          (forall row, In row (card_metrics c) ->
                       metric_band (row_color row) (row_score row)) /\
          border_band (card_border c) (TensionScore item).
Proof.
  intros s r1 r2 analysisData names Hready Hr1 Hr2.
  destruct (successful_run s r1 r2 analysisData names Hready Hr1 Hr2)
    as (final & panel & Hrun & Hlen & Hcards & _).
  rewrite Hrun. cbn [fst]. eexists. split; [exact Hcards |].
  split; [now rewrite map_indexed_length |].
  intros n item Hn. exists (render_card n item).
  rewrite map_indexed_nth_error, Hn. split; [reflexivity |].
  split; [reflexivity |]. split.
  - intros row Hrow. cbn [render_card card_metrics In] in Hrow.
    destruct Hrow as [<- | [<- | [<- | [<- | []]]]];
      apply getMetricColor_band.
  - apply cardBorderColor_band.
Qed.

(** C5 (as amended): after a successful analysis of 7 points whose
    Tension scores are integers from 0 to 100, the average tension in the
    summary panel is the arithmetic mean of the 7 scores rounded to the
    nearest integer: it is an integer that differs from the mean by less
    than a half.  For the scores 10, 20, ..., 70 it is 40.  The sum and
    the quotient are those of binary64, which are exact enough on these
    scores and not on all. *)
Theorem average_tension_is_rounded_mean :
  forall (s : state) (r1 r2 : reply) (analysisData : list AnalysisPoint)
         (names : list jsstring),
    analysis_ready s ->
    analyzed r1 = Some analysisData ->
    extracted r2 = Some names ->
    (forall item, In item analysisData ->
                  (0 <= TensionScore item <= 100)%Z) ->
    exists panel avg,
      analysisOutputSummary (fst (feed [r1; r2] (handleAnalysis s)))
        = Some panel /\
      List.length analysisData = 7%nat /\
      summary_avgTension panel = number_of_Z avg /\
      avg = round_half_up
              (inject_Z (total (map TensionScore analysisData)) / 7) /\
      (Qabs (inject_Z avg
             - inject_Z (total (map TensionScore analysisData)) / 7)
       < 1 # 2)%Q /\
      (map TensionScore analysisData = [10; 20; 30; 40; 50; 60; 70]%Z ->
       avg = 40%Z).
Proof.
  intros s r1 r2 analysisData names Hready Hr1 Hr2 Hrange.
  destruct (successful_run s r1 r2 analysisData names Hready Hr1 Hr2)
    as (final & panel & Hrun & Hlen & _ & Hpanel & Havg & _).
  rewrite Hrun. cbn [fst].
  rewrite average_of_seven in Havg.
  2: now rewrite length_map.
  2: { intros t Ht. apply in_map_iff in Ht. destruct Ht as [item [<- Hin]].
       now apply Hrange. }
  injection Havg as Havg.
  set (t := total (map TensionScore analysisData)) in *.
  exists panel, ((2 * t + 7) / 14)%Z.
  split; [exact Hpanel |]. split; [exact Hlen |].
  split; [now symmetry |].
  split; [symmetry; exact (round_half_up_div t 7) |].
  split.
  - set (m := ((2 * t + 7) / 14)%Z).
    assert (Hdiv : (14 * m <= 2 * t + 7 < 14 * m + 14)%Z).
    { pose proof (Z.div_mod (2 * t + 7) 14 ltac:(lia)) as Hd.
      pose proof (Z.mod_pos_bound (2 * t + 7) 14 ltac:(lia)) as Hm.
      subst m. lia. }
    apply Qabs_Qlt_condition.
    unfold Qlt, Qminus, Qplus, Qopp, Qdiv, Qmult, Qinv, inject_Z.
    cbn [Qnum Qden]. lia.
  - intros H. subst t. rewrite H. reflexivity.
Qed.

Lemma mark_icon_onclick (name : option jsstring) (i : icon) :
  icon_onclick (mark_icon name i) = icon_onclick i.
Proof. unfold mark_icon. now destruct JsString.includes. Qed.


Lemma mark_icon_textContent (name : option jsstring) (i : icon) :
  icon_textContent (mark_icon name i) = icon_textContent i.
Proof. unfold mark_icon. now destruct JsString.includes. Qed.


(** *** Busy flags across the event loop *)

Lemma action_eqb_eq (a b : action) : action_eqb a b = true <-> a = b.
Proof. destruct a, b; cbn; split; congruence. Qed.

Lemma in_flight_In (a : action) (w : world) :
  in_flight a w = true <-> In a (map fst (pending w)).
Proof.
  unfold in_flight. rewrite existsb_exists, in_map_iff. split.
  - intros [p [Hp Heq]]. apply action_eqb_eq in Heq. eauto.
  - intros [p [Heq Hp]]. exists p. split; [assumption |].
    now apply action_eqb_eq.
Qed.

Lemma handleAnalysis_starts : starts Analyze handleAnalysis.
Proof.
  intros s. unfold handleAnalysis.
  destruct (isAnalyzing s) eqn:Hb; [left; repeat split |].
  destruct (List.length (JsString.trim (storyInput s)) <? 100)%nat.
  - left. repeat split.
  - right. cbn. repeat split; try assumption.
    + intros [] Hne; try reflexivity. congruence.
    + constructor.
Qed.

Lemma findBookSummary_starts : starts Search findBookSummary.
Proof.
  intros s. unfold findBookSummary.
  destruct (isSearching s) eqn:Hb; [left; repeat split |].
  destruct (List.length (JsString.trim (bookTitleInput s)) <? 5)%nat.
  - left. repeat split.
  - right. cbn. repeat split; try assumption.
    + intros [] Hne; try reflexivity. congruence.
    + constructor.
Qed.

Lemma handleChat_starts : starts Chat handleChat.
Proof.
  intros s. unfold handleChat.
  destruct (isChatting s) eqn:Hb; [left; repeat split |].
  destruct (chatInput_disabled s); [left; repeat split |]. cbn [orb].
  destruct (JsString.truthy (JsString.trim (chatInput s)));
    [| left; repeat split]. cbn [negb].
  destruct (JsString.truthy (JsString.trim (storyInput s)));
    [| left; repeat split]. cbn [negb].
  destruct (truthy_field (activeCharacter s)); [| left; repeat split].
  right. cbn. repeat split; try assumption.
  - intros [] Hne; try reflexivity. congruence.
  - constructor.
Qed.

Lemma chatInput_keypress_starts (key : jsstring) :
  starts Chat (chatInput_keypress key).
Proof.
  intros s. unfold chatInput_keypress.
  destruct (JsString.eqb key (lit "Enter") && negb (isChatting s)).
  - apply handleChat_starts.
  - left. repeat split.
Qed.

Lemma setActiveCharacter_busy (name : option jsstring) (s : state) (a : action) :
  busy a (setActiveCharacter name s) = busy a s.
Proof.
  unfold setActiveCharacter, focus_chatInput. cbn.
  destruct (chatInput_disabled s), a; reflexivity.
Qed.

Lemma updateUI_busy (analysisData : list AnalysisPoint)
  (names : list jsstring) (s : state) (a : action) :
  busy a (fst (updateUI analysisData names s)) = busy a s.
Proof.
  unfold updateUI.
  destruct (render_summary analysisData _); [| destruct a; reflexivity].
  destruct names as [|first rest].
  - cbn [fst]. unfold setActiveCharacter, focus_chatInput. cbn.
    destruct (chatInput_disabled s), a; reflexivity.
  - open_renderCharacterSlots s;
      cbn [fst]; unfold setActiveCharacter, focus_chatInput; cbn;
      destruct (chatInput_disabled s), a; reflexivity.
Qed.

Lemma analysis_fails_resumes (message : jsstring) (s : state) :
  (forall b, b <> Analyze ->
     busy b (fst (analysis_fails message s)) = busy b s) /\
  snd (analysis_fails message s) = Done /\
  busy Analyze (fst (analysis_fails message s)) = false.
Proof.
  repeat split. intros [] Hne; try reflexivity. congruence.
Qed.

Lemma known_resumes (a : action) (req : request)
  (k : reply -> state -> state * task) :
  known (a, Await req k) -> resumes a k.
Proof.
  intros Hk r s. inversion Hk; subst.
  - unfold analyze_resume.
    destruct (fetchAPI r) as [[| data] | message];
      [split; [| left]; apply analysis_fails_resumes |
      | split; [| left]; apply analysis_fails_resumes].
    destruct (analysis data) as [message | v];
      [split; [| left]; apply analysis_fails_resumes |].
    destruct (check_structure v) as [items | message];
      [| split; [| left]; apply analysis_fails_resumes].
    cbn. split; [intros []; reflexivity |]. right. split; [constructor | reflexivity].
  - unfold characters_resume.
    destruct (fetchAPI r) as [[| data] | message];
      [split; [| left]; apply analysis_fails_resumes |
      | split; [| left]; apply analysis_fails_resumes].
    pose proof (updateUI_busy analysisData
                  match characters data with Some l => l | None => [] end s)
      as Hb.
    destruct (updateUI analysisData _ s) as [s' [[] | message]]; cbn in *.
    + split; [intros [] Hne; [congruence | exact (Hb Search) | exact (Hb Chat)] |].
      left. split; reflexivity.
    + split; [intros [] Hne; [congruence | exact (Hb Search) | exact (Hb Chat)] |].
      left. split; reflexivity.
  - unfold search_resume, search_finally. cbn. split.
    + intros [] Hne; try congruence.
      * destruct (fetchAPI r) as [[| data] | message]; cbn;
          [reflexivity | | reflexivity].
        unfold search_try.
        destruct (excerpt data) as [[|c t] |]; cbn; try reflexivity.
        destruct (sources data) as [[|x l] |]; reflexivity.
      * destruct (fetchAPI r) as [[| data] | message]; cbn;
          [reflexivity | | reflexivity].
        unfold search_try.
        destruct (excerpt data) as [[|c t] |]; cbn; try reflexivity.
        destruct (sources data) as [[|x l] |]; reflexivity.
    + left. split; reflexivity.
  - unfold chat_resume, chat_finally, chat_try, focus_chatInput. split.
    + intros b Hne.
      destruct (fetchAPI r) as [[| data] | message]; cbn;
        [| destruct (response data) as [[|c t] |]; cbn |];
        destruct (chatInput_disabled s), b; try reflexivity; congruence.
    + left. split; [reflexivity |].
      destruct (fetchAPI r) as [[| data] | message]; cbn;
        [| destruct (response data) as [[|c t] |]; cbn |];
        destruct (chatInput_disabled s); reflexivity.
Qed.

Lemma remove_nth_perm {A : Type} (l : list A) :
  forall index x,
    nth_error l index = Some x -> Permutation l (x :: remove_nth index l).
Proof.
  induction l as [|a l IH]; intros [|index] x H; cbn in *; try discriminate.
  - injection H as ->. reflexivity.
  - rewrite (IH index x H) at 1. apply perm_swap.
Qed.

Lemma page_load_consistent (d : state) : consistent (page_load d).
Proof.
  unfold consistent, page_load. cbn. split; [constructor |].
  split; [constructor |]. intros []; cbn; split; intros; easy.
Qed.

Lemma sync_consistent (f : state -> state) (w : world) :
  (forall a s, busy a (f s) = busy a s) ->
  consistent w -> consistent (sync f w).
Proof.
  intros Hf (Hk & Hn & Hb). unfold consistent, sync. cbn.
  repeat split; try assumption; rewrite Hf; apply Hb.
Qed.

Lemma start_consistent (a : action) (h : state -> state * task) (w : world) :
  starts a h -> consistent w -> consistent (start a h w).
Proof.
  intros Hs (Hk & Hn & Hb). unfold consistent, start.
  specialize (Hs (page w)). destruct (h (page w)) as [s t]. cbn in *.
  destruct Hs as [[-> Hsame] | (Hfree & Hset & Hsame & Hknown)].
  - cbn. rewrite app_nil_r. repeat split; try assumption;
      rewrite Hsame; apply Hb.
  - assert (Hsusp : suspended a t = [(a, t)]) by (inversion Hknown; reflexivity).
    rewrite Hsusp, map_app. cbn [map fst].
    assert (Hnot : ~ In a (map fst (pending w))).
    { intros Hin. apply Hb in Hin. congruence. }
    split; [apply Forall_app; split; [assumption | now constructor] |].
    split.
    + apply NoDup_app; [assumption | repeat constructor; intros [] |].
      intros x Hx [<- | []]. contradiction.
    + intros b. rewrite in_app_iff. cbn [In].
      destruct b, a; try (rewrite Hset; intuition (auto; congruence));
        rewrite Hsame by congruence; rewrite Hb;
        intuition (auto; congruence).
Qed.

Lemma reply_consistent (index : nat) (r : reply) (w : world) :
  consistent w -> consistent (fire (Reply_arrives index r) w).
Proof.
  intros (Hk & Hn & Hb). cbn [fire].
  destruct (nth_error (pending w) index) as [[a [| req k]] |] eqn:Hnth;
    cbn iota beta; try exact (conj Hk (conj Hn Hb)).
  pose proof (remove_nth_perm _ _ _ Hnth) as Hperm.
  assert (Hknown : known (a, Await req k)).
  { rewrite Forall_forall in Hk. apply Hk. eapply nth_error_In; eassumption. }
  assert (Hrest : Forall known (remove_nth index (pending w))).
  { rewrite Forall_forall in *. intros x Hx. apply Hk.
    apply (Permutation_in _ (Permutation_sym Hperm)). now right. }
  pose proof (Permutation_map fst Hperm) as Hpm. cbn [map fst] in Hpm.
  pose proof (Permutation_NoDup Hpm Hn) as Hnd.
  inversion Hnd as [| ? ? Hnot Hnd']; subst.
  assert (Hin : forall b,
    In b (map fst (pending w)) <->
    b = a \/ In b (map fst (remove_nth index (pending w)))).
  { intros b. split; intros H.
    - apply (Permutation_in _ Hpm) in H. destruct H; auto.
    - apply (Permutation_in _ (Permutation_sym Hpm)). destruct H; [left | right]; auto. }
  destruct (known_resumes a req k Hknown r (page w)) as [Hother Hown].
  destruct (k r (page w)) as [s t]. cbn [fst snd] in *.
  unfold consistent. cbn [page pending].
  destruct Hown as [[-> Hclear] | [Hknown' Hkeep]].
  - cbn [suspended]. rewrite app_nil_r.
    split; [assumption |]. split; [assumption |].
    intros b. destruct (action_eqb b a) eqn:E.
    + apply action_eqb_eq in E. subst b. rewrite Hclear.
      split; [discriminate | contradiction].
    + assert (b <> a) by (intros ->; destruct a; discriminate).
      rewrite Hother by assumption. rewrite Hb, Hin. intuition congruence.
  - assert (Hsusp : suspended a t = [(a, t)]) by (inversion Hknown'; reflexivity).
    rewrite Hsusp, map_app. cbn [map fst].
    split; [apply Forall_app; split; [assumption | now constructor] |].
    split.
    + apply NoDup_app; [assumption | repeat constructor; intros [] |].
      intros x Hx [<- | []]. contradiction.
    + intros b. rewrite in_app_iff. cbn [In].
      destruct (action_eqb b a) eqn:E.
      * apply action_eqb_eq in E. subst b. rewrite Hkeep, Hb, Hin. tauto.
      * assert (b <> a) by (intros ->; destruct a; discriminate).
        rewrite Hother by assumption. rewrite Hb, Hin.
        intuition congruence.
Qed.

Lemma fire_consistent (e : event) (w : world) :
  consistent w -> consistent (fire e w).
Proof.
  intros Hw. destruct e; cbn [fire];
    try (apply sync_consistent; [intros []; reflexivity | assumption]).
  - apply start_consistent; [apply handleAnalysis_starts | assumption].
  - apply start_consistent; [apply findBookSummary_starts | assumption].
  - apply start_consistent; [apply handleChat_starts | assumption].
  - apply start_consistent; [apply chatInput_keypress_starts | assumption].
  - destruct (nth_error (characterSlots (page w)) index); [| assumption].
    apply sync_consistent; [| assumption].
    intros a s. apply setActiveCharacter_busy.
  - apply sync_consistent; [| assumption].
    intros a s. unfold downloadAnalysisData.
    destruct (lastAnalysisData s), a; reflexivity.
  - now apply reply_consistent.
Qed.

Lemma run_consistent (es : list event) :
  forall w, consistent w -> consistent (run es w).
Proof.
  unfold run. induction es as [|e es IH]; intros w Hw; cbn [fold_left].
  - assumption.
  - apply IH. now apply fire_consistent.
Qed.

Lemma passes_checks_starts (a : action) (s : state) :
  passes_checks a s ->
  exists s1 req resume,
    handler a s = (s1, Await req resume) /\
    busy a s1 = true /\ known (a, Await req resume).
Proof.
  destruct a; cbn [passes_checks handler busy].
  - intros Hready.
    destruct (handleAnalysis_ready s Hready) as (s1 & Hrun & Hflag & _).
    exists s1. do 2 eexists. split; [exact Hrun |].
    split; [exact Hflag | constructor].
  - intros [Hb Hlen]. unfold findBookSummary. apply Nat.ltb_ge in Hlen.
    rewrite Hb, Hlen. do 3 eexists. split; [reflexivity |].
    split; [reflexivity | constructor].
  - intros Hready.
    destruct (handleChat_ready s Hready) as (s1 & Hrun & _ & Hflag & _).
    exists s1. do 2 eexists. split; [exact Hrun |].
    split; [exact Hflag | constructor].
Qed.

(** A task of an action, fed with replies: as long as it waits the flag
    is as it was, and when it is done the flag is cleared. *)
Lemma feed_known (a : action) (rs : list reply) :
  forall st : state * task,
    known (a, snd st) ->
    busy a (fst st) = true ->
    (forall req resume, snd (feed rs st) = Await req resume ->
                        busy a (fst (feed rs st)) = true) /\
    (snd (feed rs st) = Done -> busy a (fst (feed rs st)) = false).
Proof.
  induction rs as [|r rs IH]; intros [s t] Hknown Hbusy; cbn [fst snd] in *.
  - cbn [feed]. cbn [fst snd]. split; [intros; exact Hbusy |].
    intros ->. inversion Hknown.
  - destruct t as [| req k]; [inversion Hknown |].
    cbn [feed snd fst].
    destruct (known_resumes a req k Hknown r s) as [_ [[Hd Hc] | [Hk Hkeep]]].
    + destruct (k r s) as [s' t']. cbn [fst snd] in *. subst t'.
      rewrite feed_done. cbn [fst snd]. split; [discriminate | now intros _].
    + apply IH; [exact Hk | congruence].
Qed.

(** A task of an action is done after two replies at most. *)
Lemma known_done (a : action) (t : task) (s : state) (r1 r2 : reply) :
  known (a, t) -> snd (feed [r1; r2] (s, t)) = Done.
Proof.
  intros Hknown. inversion Hknown; subst; cbn [feed snd fst].
  - destruct (analyzed r1) as [analysisData |] eqn:Hr.
    + destruct (analyze_resume_analyzed storyText r1 s _ Hr) as [_ ->].
      cbn [feed snd fst].
      destruct (known_resumes Analyze _ _ (known_characters req analysisData)
                  r2 (set_lastAnalysisData (Some analysisData) s))
        as [_ [[Hd _] | [Hk _]]].
      * destruct (characters_resume analysisData r2 _) as [s' t'].
        cbn [snd] in Hd. subst t'. reflexivity.
      * exfalso. unfold characters_resume in Hk.
        destruct (fetchAPI r2) as [[| data] | message];
          try (inversion Hk; fail).
        destruct (updateUI analysisData _ _) as [s' [[] | message]];
          inversion Hk.
    + destruct (analyze_resume_not_analyzed storyText r1 s Hr) as [message ->].
      reflexivity.
  - destruct (known_resumes Analyze _ _ (known_characters req analysisData)
                r1 s) as [_ [[Hd _] | [Hk _]]].
    + destruct (characters_resume analysisData r1 s) as [s' t'].
      cbn [snd] in Hd. subst t'. reflexivity.
    + exfalso. unfold characters_resume in Hk.
      destruct (fetchAPI r1) as [[| data] | message];
        try (inversion Hk; fail).
      destruct (updateUI analysisData _ _) as [s' [[] | message]];
        inversion Hk.
  - reflexivity.
  - reflexivity.
Qed.

(** C9: an invocation of the handler of one of the three guarded
    actions that passes its checks sends a request and suspends with the
    busy flag of the action set.  Run on with nothing else in between,
    the flag is set as long as the handler waits for a reply and is
    cleared when it is done, on success and on failure alike, which it
    is after two replies at most.  With other events in between,
    whatever the user does and in whatever order the replies arrive, the
    flag of each action is set exactly while a task of that action
    waits for a reply: it is set by the invocation, and a continuation
    that finishes leaves it cleared. *)
Theorem busy_flag_set_while_in_flight :
  forall (a : action) (s : state),
    passes_checks a s ->
    (exists s1 req resume,
       handler a s = (s1, Await req resume) /\ busy a s1 = true) /\
    (forall rs,
       (forall req resume,
          snd (feed rs (handler a s)) = Await req resume ->
          busy a (fst (feed rs (handler a s))) = true) /\
       (snd (feed rs (handler a s)) = Done ->
        busy a (fst (feed rs (handler a s))) = false)) /\
    (forall r1 r2, snd (feed [r1; r2] (handler a s)) = Done) /\
    (forall (d : state) (es : list event),
       let w := run es (page_load d) in
       (forall b, busy b (page w) = in_flight b w) /\
       (page w = s ->
        busy a (page (fire (invocation a) w)) = true /\
        in_flight a (fire (invocation a) w) = true) /\
       (forall index b req resume r,
          nth_error (pending w) index = Some (b, Await req resume) ->
          snd (resume r (page w)) = Done ->
          busy b (fst (resume r (page w))) = false)).
Proof.
  intros a s Hpass.
  destruct (passes_checks_starts a s Hpass)
    as (s1 & req & resume & Hrun & Hflag & Hknown).
  split; [exists s1, req, resume; now split |].
  split; [| split].
  - intros rs. rewrite Hrun. now apply feed_known.
  - intros r1 r2. rewrite Hrun. now apply (known_done a).
  - intros d es w.
    assert (Hw : consistent w) by (apply run_consistent, page_load_consistent).
    destruct Hw as (Hk & Hn & Hb).
    assert (Hsame : forall b, busy b (page w) = in_flight b w).
    { intros b. specialize (Hb b). rewrite <- in_flight_In in Hb.
      destruct (busy b (page w)), (in_flight b w); intuition congruence. }
    split; [exact Hsame |]. split.
    + intros Hpage.
      assert (Hfire : fire (invocation a) w = start a (handler a) w)
        by (destruct a; reflexivity).
      rewrite Hfire. unfold start. rewrite Hpage, Hrun.
      cbn [page pending suspended]. split; [exact Hflag |].
      unfold in_flight. cbn [pending]. rewrite existsb_app. cbn [existsb fst].
      assert (Hrefl : action_eqb a a = true) by now apply action_eqb_eq.
      rewrite Hrefl. now rewrite orb_true_r.
    + intros index b req' resume' r Hnth Hdone.
      assert (Hknown' : known (b, Await req' resume')).
      { rewrite Forall_forall in Hk. apply Hk.
        eapply nth_error_In; eassumption. }
      destruct (known_resumes b req' resume' Hknown' r (page w))
        as [_ [[_ H] | [H _]]].
      * exact H.
      * rewrite Hdone in H. inversion H.
Qed.

(** *** The retained analysis and its export *)

Lemma setActiveCharacter_lastAnalysisData (name : option jsstring) (s : state) :
  lastAnalysisData (setActiveCharacter name s) = lastAnalysisData s.
Proof.
  unfold setActiveCharacter, focus_chatInput. cbn.
  now destruct (chatInput_disabled s).
Qed.

Lemma updateUI_lastAnalysisData (analysisData : list AnalysisPoint)
  (names : list jsstring) (s : state) :
  lastAnalysisData (fst (updateUI analysisData names s)) = lastAnalysisData s.
Proof.
  unfold updateUI.
  destruct (render_summary analysisData _); [| reflexivity].
  destruct names as [|first rest].
  - cbn [fst]. unfold setActiveCharacter, focus_chatInput. cbn.
    now destruct (chatInput_disabled s).
  - open_renderCharacterSlots s;
      cbn [fst]; unfold setActiveCharacter, focus_chatInput; cbn;
      now destruct (chatInput_disabled s).
Qed.

Lemma characters_resume_lastAnalysisData (analysisData : list AnalysisPoint)
  (r : reply) (s : state) :
  lastAnalysisData (fst (characters_resume analysisData r s))
  = lastAnalysisData s.
Proof.
  unfold characters_resume.
  destruct (fetchAPI r) as [[| data] | message];
      [reflexivity | | reflexivity].
  pose proof (updateUI_lastAnalysisData analysisData
                match characters data with Some l => l | None => [] end s)
    as H.
  destruct (updateUI analysisData _ s) as [s' [[] | message]]; exact H.
Qed.

Lemma search_resume_lastAnalysisData (r : reply) (s : state) :
  lastAnalysisData (fst (search_resume r s)) = lastAnalysisData s.
Proof.
  unfold search_resume, search_finally, search_try. cbn.
  destruct (fetchAPI r) as [[| data] | message];
      [reflexivity | | reflexivity].
  destruct (excerpt data) as [[|c t] |]; cbn; try reflexivity.
  destruct (sources data) as [[|x l] |]; reflexivity.
Qed.

Lemma chat_resume_lastAnalysisData (r : reply) (s : state) :
  lastAnalysisData (fst (chat_resume r s)) = lastAnalysisData s.
Proof.
  unfold chat_resume, chat_finally, chat_try, focus_chatInput.
  destruct (fetchAPI r) as [[| data] | message]; cbn;
    [| destruct (response data) as [[|c t] |]; cbn |];
    destruct (chatInput_disabled s); reflexivity.
Qed.

Lemma handleChat_lastAnalysisData (s : state) :
  lastAnalysisData (fst (handleChat s)) = lastAnalysisData s.
Proof.
  unfold handleChat.
  destruct (isChatting s || chatInput_disabled s); [reflexivity |].
  destruct (JsString.truthy (JsString.trim (chatInput s))); [| reflexivity].
  destruct (JsString.truthy (JsString.trim (storyInput s))); [| reflexivity].
  destruct (truthy_field (activeCharacter s)); reflexivity.
Qed.

Lemma findBookSummary_lastAnalysisData (s : state) :
  lastAnalysisData (fst (findBookSummary s)) = lastAnalysisData s.
Proof.
  unfold findBookSummary.
  destruct (isSearching s); [reflexivity |].
  destruct (List.length (JsString.trim (bookTitleInput s)) <? 5)%nat;
    reflexivity.
Qed.

Lemma downloadAnalysisData_lastAnalysisData (today : jsstring) (s : state) :
  lastAnalysisData (downloadAnalysisData today s) = lastAnalysisData s.
Proof.
  unfold downloadAnalysisData. now destruct (lastAnalysisData s) eqn:E.
Qed.

Lemma start_page (a : action) (h : state -> state * task) (w : world) :
  page (start a h w) = fst (h (page w)).
Proof. unfold start. now destruct (h (page w)). Qed.

(** C4 (as amended): a successful run of [handleAnalysis] retains its
    result in [lastAnalysisData], from where the export takes it.  The
    retained result is kept until the next invocation of
    [handleAnalysis] that passes its checks, which clears it at once;
    after that only a successful reply to [/analyze] with 7 items sets
    it again, and no other event changes it.  An export with nothing
    retained shows an alert and saves no file; with a result retained it
    saves that result. *)
Theorem last_analysis_is_retained :
  forall (d : state) (es : list event),
    let w := run es (page_load d) in
    (forall s r1 r2 analysisData names,
       analysis_ready s ->
       analyzed r1 = Some analysisData ->
       extracted r2 = Some names ->
       lastAnalysisData (fst (feed [r1; r2] (handleAnalysis s)))
       = Some analysisData) /\
    (forall s, analysis_ready s ->
               lastAnalysisData (fst (handleAnalysis s)) = None) /\
    (forall e,
       lastAnalysisData (page (fire e w)) = lastAnalysisData (page w) \/
       (e = Call_handleAnalysis /\ analysis_ready (page w) /\
        lastAnalysisData (page (fire e w)) = None) \/
       (exists index r req resume analysisData,
          e = Reply_arrives index r /\
          nth_error (pending w) index = Some (Analyze, Await req resume) /\
          analyzed r = Some analysisData /\
          lastAnalysisData (page (fire e w)) = Some analysisData)) /\
    (forall today s,
       lastAnalysisData s = None ->
       alerts (downloadAnalysisData today s) = alerts s ++ [export_refused] /\
       downloads (downloadAnalysisData today s) = downloads s) /\
    (forall today s analysisData,
       lastAnalysisData s = Some analysisData ->
       downloads (downloadAnalysisData today s) =
         downloads s ++ [{| file_date := today; file_data := analysisData |}]).
Proof.
  intros d es w.
  assert (Hw : consistent w) by (apply run_consistent, page_load_consistent).
  split; [| split; [| split; [| split]]].
  - intros s r1 r2 analysisData names Hready Hr1 Hr2.
    destruct (successful_run s r1 r2 analysisData names Hready Hr1 Hr2)
      as (final & panel & Hrun & H).
    rewrite Hrun. cbn [fst]. tauto.
  - intros s Hready.
    destruct (handleAnalysis_ready s Hready) as (s1 & -> & H). cbn [fst]. tauto.
  - intros e. destruct e; cbn [fire]; try (left; reflexivity).
    + destruct (Bool.bool_dec (isAnalyzing (page w)) false) as [Hb | Hb].
      * destruct (Nat.leb_spec 100
                    (List.length (JsString.trim (storyInput (page w)))))
          as [Hl | Hl].
        -- right. left. assert (Hready : analysis_ready (page w)) by now split.
           split; [reflexivity |]. split; [assumption |].
           rewrite start_page.
           destruct (handleAnalysis_ready _ Hready) as (s1 & -> & H).
           cbn [fst]. tauto.
        -- left. rewrite start_page. apply handleAnalysis_not_ready.
           unfold analysis_ready. lia.
      * left. rewrite start_page. apply handleAnalysis_not_ready.
        unfold analysis_ready. tauto.
    + left. rewrite start_page. apply findBookSummary_lastAnalysisData.
    + left. rewrite start_page. apply handleChat_lastAnalysisData.
    + left. rewrite start_page. unfold chatInput_keypress.
      destruct (JsString.eqb key (lit "Enter") && negb (isChatting (page w)));
        [apply handleChat_lastAnalysisData | reflexivity].
    + left. destruct (nth_error (characterSlots (page w)) index);
        [apply setActiveCharacter_lastAnalysisData | reflexivity].
    + left. apply downloadAnalysisData_lastAnalysisData.
    + destruct (nth_error (pending w) index) as [[a [| req k]] |] eqn:Hnth;
        try (left; reflexivity).
      assert (Hknown : known (a, Await req k)).
      { destruct Hw as (Hk & _). rewrite Forall_forall in Hk. apply Hk.
        eapply nth_error_In; eassumption. }
      inversion Hknown; subst.
      * destruct (analyzed r) as [analysisData |] eqn:Hr.
        -- right. right. exists index, r, req, (analyze_resume storyText), analysisData.
           repeat split; try assumption.
           destruct (analyze_resume_analyzed storyText r (page w) _ Hr)
             as [_ ->]. reflexivity.
        -- left.
           destruct (analyze_resume_not_analyzed storyText r (page w) Hr)
             as [message ->]. reflexivity.
      * left.
        pose proof (characters_resume_lastAnalysisData analysisData r (page w)).
        now destruct (characters_resume analysisData r (page w)).
      * left. pose proof (search_resume_lastAnalysisData r (page w)).
        now destruct (search_resume r (page w)).
      * left. pose proof (chat_resume_lastAnalysisData r (page w)).
        now destruct (chat_resume r (page w)).
  - intros today s Hnone. unfold downloadAnalysisData. rewrite Hnone.
    split; reflexivity.
  - intros today s analysisData Hsome. unfold downloadAnalysisData.
    rewrite Hsome. reflexivity.
Qed.

(** *** A payload that is not an array of 7 items *)

(** For every such value the pipeline stops at the structure check: the
    structure error is shown in the output area, the status line reads
    that the analysis failed, in red, no further request is sent, and the
    chat input and the send button are disabled. *)
Lemma structure_error_aborts :
  forall (storyText : jsstring) (r : reply) (data : body) (v : json_value)
         (got : jsstring) (s : state),
    fetchAPI r = Return data ->
    analysis data = Parsed v ->
    malformed v got ->
    let s' := fst (analyze_resume storyText r s) in
    snd (analyze_resume storyText r s) = Done /\
    analysisOutput s' = AnalysisError (structure_message got) /\
    content (statusMessage s') = [Txt (lit "Analysis failed.")] /\
    In text_red_600 (classList (statusMessage s')) /\
    chatInput_disabled s' = true /\
    sendChatButton_disabled s' = true /\
    isAnalyzing s' = false /\
    lastAnalysisData s' = lastAnalysisData s.
Proof.
  intros storyText r data v got s Hr Ha Hv s'. subst s'.
  unfold analyze_resume. rewrite Hr, Ha.
  assert (Hc : check_structure v = Throw (structure_message got)).
  { destruct Hv as [items Hlen | t]; [| reflexivity].
    unfold check_structure. apply Nat.eqb_neq in Hlen. now rewrite Hlen. }
  rewrite Hc. cbn -[classList_add lit]. repeat split.
  apply classList_add_In. left. now left.
Qed.

(** C3 (the failing case): when the reply to [/analyze] parses to null,
    the structure check throws while it builds its own message, by
    reading [length] of null: what the user is shown is the engine's
    type error, not the structure error.  The pipeline still stops
    there, with the chat input and the send button disabled. *)
Theorem null_payload_raises_type_error :
  forall (storyText : jsstring) (r : reply) (data : body) (s : state),
    fetchAPI r = Return data ->
    analysis data = Parsed JNull ->
    let s' := fst (analyze_resume storyText r s) in
    snd (analyze_resume storyText r s) = Done /\
    analysisOutput s' =
      AnalysisError (fault_message (ReadOfNull (lit "length"))) /\
    chatInput_disabled s' = true /\
    sendChatButton_disabled s' = true.
Proof.
  intros storyText r data s Hr Ha s'. subst s'.
  unfold analyze_resume. rewrite Hr, Ha. cbn. repeat split.
Qed.

(** *** View management *)

Lemma JsString_eqb_eq (a b : jsstring) : JsString.eqb a b = true <-> a = b.
Proof.
  revert b. induction a as [|c a IH]; intros [|d b]; cbn;
    try (split; [discriminate | discriminate]); try tauto.
  rewrite andb_true_iff, N.eqb_eq, IH. split.
  - intros [-> ->]. reflexivity.
  - intros [= -> ->]. now split.
Qed.

Lemma hidden_added (l : list string) : In "hidden" (classList_add ["hidden"] l).
Proof. apply classList_add_In. left. now left. Qed.

Lemma hidden_removed (l : list string) :
  ~ In "hidden" (classList_remove ["hidden"] l).
Proof. rewrite classList_remove_In. intros [_ H]. apply H. now left. Qed.

(** X1: after [switchView] exactly the panel asked for is visible: it
    has lost the class [hidden] and the two others carry it; the other
    classes of the panels are as they were. *)
Theorem switchView_shows_one_panel :
  forall (viewName u : view) (p : layout),
    (In "hidden" (panel u (switchView viewName p)) <-> u <> viewName) /\
    (forall c, c <> "hidden" ->
       (In c (panel u (switchView viewName p)) <-> In c (panel u p))).
Proof.
  intros viewName u p. split.
  - destruct viewName, u; cbn -[classList_add classList_remove];
      split; intros H; try congruence; try apply hidden_added;
      exfalso; revert H; apply hidden_removed.
  - intros c Hc.
    destruct viewName, u; cbn -[classList_add classList_remove];
      rewrite ?classList_remove_In, ?classList_add_In; cbn [In];
      intuition congruence.
Qed.

Lemma first_match_head (attr : jsstring) (i : nav_item) (rest : list nav_item) :
  first_match attr (i :: rest) 0 <-> nav_onclick i = attr.
Proof.
  unfold first_match. cbn. split.
  - intros [[j [[= <-] H]] _]. exact H.
  - intros H. split; [eauto | intros m j Hm; lia].
Qed.

Lemma first_match_tail (attr : jsstring) (i : nav_item) (rest : list nav_item)
  (n : nat) :
  first_match attr (i :: rest) (S n) <->
  nav_onclick i <> attr /\ first_match attr rest n.
Proof.
  unfold first_match. cbn. split.
  - intros [Hn Hbefore]. split; [apply (Hbefore 0%nat i); [lia | reflexivity] |].
    split; [exact Hn |]. intros m j Hm Hj.
    apply (Hbefore (S m) j); [lia | exact Hj].
  - intros [Hi [Hn Hbefore]]. split; [exact Hn |].
    intros [|m] j Hm Hj; cbn in Hj.
    + injection Hj as <-. exact Hi.
    + apply (Hbefore m j); [lia | exact Hj].
Qed.

Lemma activate_first_nth (attr : jsstring) (items : list nav_item) :
  forall n i,
    nth_error items n = Some i ->
    exists i',
      nth_error (activate_first attr items) n = Some i' /\
      nav_onclick i' = nav_onclick i /\
      (first_match attr items n ->
       nav_classList i' = classList_add active_nav_classes (nav_classList i)) /\
      (~ first_match attr items n -> i' = i).
Proof.
  induction items as [|a items IH]; intros [|n] i Hn; cbn in Hn;
    try discriminate.
  - injection Hn as ->. cbn [activate_first].
    destruct (JsString.eqb (nav_onclick i) attr) eqn:E.
    + eexists. split; [reflexivity |]. split; [reflexivity |].
      split; [reflexivity |]. intros H. exfalso. apply H.
      apply first_match_head. now apply JsString_eqb_eq.
    + exists i. split; [reflexivity |]. split; [reflexivity |].
      split; [| reflexivity]. intros H. apply first_match_head in H.
      apply JsString_eqb_eq in H. congruence.
  - cbn [activate_first].
    destruct (JsString.eqb (nav_onclick a) attr) eqn:E.
    + exists i. split; [exact Hn |]. split; [reflexivity |].
      split; [| reflexivity]. intros H. apply first_match_tail in H.
      destruct H as [H _]. exfalso. apply H. now apply JsString_eqb_eq.
    + destruct (IH n i Hn) as (i' & Hi' & Hclick & Hyes & Hno).
      exists i'. split; [exact Hi' |]. split; [exact Hclick |].
      assert (Ha : nav_onclick a <> attr).
      { intros H. apply JsString_eqb_eq in H. congruence. }
      split; intros H.
      * apply Hyes. now apply first_match_tail in H.
      * apply Hno. intros H'. apply H. now apply first_match_tail.
Qed.

Lemma first_match_dec (attr : jsstring) (items : list nav_item) :
  forall n, first_match attr items n \/ ~ first_match attr items n.
Proof.
  induction items as [|a items IH]; intros n.
  - right. intros [[i [H _]] _]. destruct n; discriminate.
  - destruct (JsString.eqb (nav_onclick a) attr) eqn:E.
    + apply JsString_eqb_eq in E. destruct n.
      * left. now apply first_match_head.
      * right. rewrite first_match_tail. tauto.
    + assert (Ha : nav_onclick a <> attr).
      { intros H. apply JsString_eqb_eq in H. congruence. }
      destruct n.
      * right. rewrite first_match_head. exact Ha.
      * rewrite first_match_tail. destruct (IH n); tauto.
Qed.

Lemma first_match_ext (attr : jsstring) (f : nav_item -> nav_item)
  (items : list nav_item) (n : nat) :
  (forall i, nav_onclick (f i) = nav_onclick i) ->
  first_match attr (map f items) n <-> first_match attr items n.
Proof.
  intros Hf. unfold first_match. split.
  - intros [[i [Hi Hc]] Hbefore].
    rewrite nth_error_map in Hi.
    destruct (nth_error items n) as [i0|] eqn:Hn; [| discriminate].
    injection Hi as <-. rewrite Hf in Hc. split; [eauto |].
    intros m j Hm Hj. rewrite <- Hf. apply (Hbefore m (f j) Hm).
    now rewrite nth_error_map, Hj.
  - intros [[i [Hi Hc]] Hbefore]. split.
    + exists (f i). rewrite nth_error_map, Hi, Hf. now split.
    + intros m j Hm Hj. rewrite nth_error_map in Hj.
      destruct (nth_error items m) as [j0|] eqn:Hn; [| discriminate].
      injection Hj as <-. rewrite Hf. now apply (Hbefore m j0).
Qed.

(** X2: after [switchView] the nav item that carries the two classes
    of the active entry is the first one whose [onclick] calls
    [switchView] with that name, and no other; every nav item keeps its
    [onclick] and its other classes. *)
Theorem switchView_marks_one_nav_item :
  forall (viewName : view) (p : layout) (n : nat) (i : nav_item),
    nth_error (navItems p) n = Some i ->
    exists i',
      nth_error (navItems (switchView viewName p)) n = Some i' /\
      nav_onclick i' = nav_onclick i /\
      (forall c, In c active_nav_classes ->
         (In c (nav_classList i') <->
          first_match (onclick_of (view_key viewName)) (navItems p) n)) /\
      (forall c, ~ In c active_nav_classes ->
         (In c (nav_classList i') <-> In c (nav_classList i))).
Proof.
  intros viewName p n i Hn.
  set (attr := onclick_of (view_key viewName)).
  set (clear := fun item =>
         with_nav_classes
           (classList_remove active_nav_classes (nav_classList item)) item).
  assert (Hitems : navItems (switchView viewName p)
                   = activate_first attr (map clear (navItems p))).
  { destruct viewName; reflexivity. }
  rewrite Hitems.
  assert (Hn' : nth_error (map clear (navItems p)) n = Some (clear i))
    by now rewrite nth_error_map, Hn.
  destruct (activate_first_nth attr _ n _ Hn') as (i' & Hi' & Hclick & Hyes & Hno).
  exists i'. split; [exact Hi' |]. split; [exact Hclick |].
  assert (Hm : first_match attr (map clear (navItems p)) n
               <-> first_match attr (navItems p) n)
    by (apply first_match_ext; reflexivity).
  destruct (first_match_dec attr (navItems p) n) as [Hfirst | Hfirst].
  - rewrite (Hyes (proj2 Hm Hfirst)). cbn [clear nav_classList with_nav_classes].
    split; intros c Hc; rewrite classList_add_In, classList_remove_In; tauto.
  - rewrite (Hno (fun H => Hfirst (proj1 Hm H))).
    cbn [clear nav_classList with_nav_classes].
    split; intros c Hc; rewrite classList_remove_In; tauto.
Qed.

(** *** White space around the inputs *)

Lemma all_white_app (a b : jsstring) :
  all_white (a ++ b) <-> all_white a /\ all_white b.
Proof. unfold all_white. rewrite forallb_app, andb_true_iff. tauto. Qed.

Lemma all_white_rev (a : jsstring) : all_white (rev a) <-> all_white a.
Proof.
  unfold all_white. rewrite !forallb_forall.
  split; intros H x Hx; apply H; [now apply in_rev in Hx | now apply in_rev].
Qed.

Lemma trimStart_app_white (w x : jsstring) :
  all_white w -> JsString.trimStart (w ++ x) = JsString.trimStart x.
Proof.
  unfold all_white. induction w as [|c w IH]; cbn; [reflexivity |].
  rewrite andb_true_iff. intros [-> H]. now apply IH.
Qed.

Lemma trimStart_split (s : jsstring) :
  exists w, all_white w /\ s = w ++ JsString.trimStart s.
Proof.
  induction s as [|c s [w [Hw Hs]]]; cbn.
  - exists []. now split.
  - destruct (JsString.isWhiteSpace c) eqn:E.
    + exists (c :: w). split; [| now rewrite Hs at 1].
      unfold all_white in *. cbn. now rewrite E, Hw.
    + exists []. now split.
Qed.

Lemma trimStart_nil_iff (s : jsstring) :
  JsString.trimStart s = [] <-> all_white s.
Proof.
  unfold all_white. induction s as [|c s IH]; cbn; [tauto |].
  destruct (JsString.isWhiteSpace c); cbn; [exact IH |].
  split; discriminate.
Qed.

Lemma trimStart_app_text (s x : jsstring) :
  JsString.trimStart s <> [] ->
  JsString.trimStart (s ++ x) = JsString.trimStart s ++ x.
Proof.
  induction s as [|c s IH]; cbn; [congruence |].
  destruct (JsString.isWhiteSpace c); [exact IH | reflexivity].
Qed.

Lemma trimEnd_app_white (x w : jsstring) :
  all_white w -> JsString.trimEnd (x ++ w) = JsString.trimEnd x.
Proof.
  intros Hw. unfold JsString.trimEnd. rewrite rev_app_distr.
  rewrite trimStart_app_white; [reflexivity | now apply all_white_rev].
Qed.

Lemma trimEnd_split (s : jsstring) :
  exists w, all_white w /\ s = JsString.trimEnd s ++ w.
Proof.
  destruct (trimStart_split (rev s)) as [w [Hw Hs]].
  exists (rev w). split; [now apply all_white_rev |].
  unfold JsString.trimEnd. rewrite <- rev_app_distr, <- Hs.
  now rewrite rev_involutive.
Qed.

Lemma trimEnd_nil_iff (s : jsstring) : JsString.trimEnd s = [] <-> all_white s.
Proof.
  unfold JsString.trimEnd. rewrite <- all_white_rev, <- trimStart_nil_iff.
  split; intros H.
  - apply (f_equal (@rev _)) in H. now rewrite rev_involutive in H.
  - now rewrite H.
Qed.

(** White space at either end of a string does not count for [trim]. *)
Lemma trim_padding (w1 t w2 : jsstring) :
  all_white w1 -> all_white w2 ->
  JsString.trim (w1 ++ t ++ w2) = JsString.trim t.
Proof.
  intros H1 H2. unfold JsString.trim. rewrite trimStart_app_white by exact H1.
  destruct (JsString.trimStart t) as [|c u] eqn:E.
  - apply trimStart_nil_iff in E.
    assert (Hall : all_white (t ++ w2)) by now apply all_white_app.
    apply trimStart_nil_iff in Hall. now rewrite Hall.
  - rewrite trimStart_app_text by congruence. rewrite E.
    now apply trimEnd_app_white.
Qed.

Lemma trim_split (s : jsstring) :
  exists w1 w2, all_white w1 /\ all_white w2 /\ s = w1 ++ JsString.trim s ++ w2.
Proof.
  destruct (trimStart_split s) as [w1 [H1 Hs]].
  destruct (trimEnd_split (JsString.trimStart s)) as [w2 [H2 Ht]].
  exists w1, w2. split; [exact H1 |]. split; [exact H2 |].
  unfold JsString.trim. now rewrite <- Ht.
Qed.

Lemma trim_idempotent (s : jsstring) :
  JsString.trim (JsString.trim s) = JsString.trim s.
Proof.
  destruct (trim_split s) as (w1 & w2 & H1 & H2 & Hs).
  rewrite Hs at 2. now rewrite trim_padding.
Qed.

Lemma trim_nil_iff (s : jsstring) : JsString.trim s = [] <-> all_white s.
Proof.
  split; intros H.
  - destruct (trim_split s) as (w1 & w2 & H1 & H2 & Hs).
    rewrite H in Hs. cbn in Hs. rewrite Hs. now apply all_white_app.
  - unfold JsString.trim. apply trimStart_nil_iff in H. now rewrite H.
Qed.

Lemma trim_length (s : jsstring) :
  (List.length (JsString.trim s) <= List.length s)%nat.
Proof.
  destruct (trim_split s) as (w1 & w2 & _ & _ & Hs).
  rewrite Hs at 2. rewrite !length_app. lia.
Qed.

(** X3: with the other preconditions of [handleChat] met, a request
    is sent exactly when the message has a code unit that is not white
    space; a message of white space only is dropped without a trace. *)
Theorem blank_message_is_not_sent :
  forall s : state,
    (all_white (chatInput s) -> handleChat s = (s, Done)) /\
    (isChatting s = false -> chatInput_disabled s = false ->
     JsString.trim (storyInput s) <> [] ->
     truthy_field (activeCharacter s) = true ->
     ((exists s1 req resume, handleChat s = (s1, Await req resume))
      <-> ~ all_white (chatInput s))).
Proof.
  intros s. split.
  - intros Hw. apply trim_nil_iff in Hw. unfold handleChat. rewrite Hw.
    now destruct (isChatting s || chatInput_disabled s).
  - intros Hb Hd Hs Hc. split.
    + intros (s1 & req & resume & Hrun) Hw.
      apply trim_nil_iff in Hw. unfold handleChat in Hrun.
      rewrite Hw in Hrun.
      destruct (isChatting s || chatInput_disabled s); discriminate.
    + intros Hw.
      assert (Hready : chat_ready s).
      { repeat split; try assumption. intros H. apply Hw.
        now apply trim_nil_iff. }
      destruct (handleChat_ready s Hready) as (s1 & Hrun & _). eauto.
Qed.

Lemma short_story_is_rejected_aux (s : state) :
  (List.length (JsString.trim (storyInput s)) < 100)%nat ->
  snd (handleAnalysis s) = Done.
Proof.
  intros Hshort. apply Nat.ltb_lt in Hshort.
  unfold handleAnalysis. rewrite Hshort. now destruct (isAnalyzing s).
Qed.

(** X4: a story of fewer than 100 code units is refused whatever it
    holds, and white space put before and after a story changes neither
    the decision nor the text that is sent: the request and the rest of
    the run are the same. *)
Theorem story_padding_is_ignored :
  forall s : state,
    ((List.length (storyInput s) < 100)%nat -> snd (handleAnalysis s) = Done) /\
    (forall w1 w2, all_white w1 -> all_white w2 ->
       let padded := w1 ++ storyInput s ++ w2 in
       snd (handleAnalysis (set_storyInput padded s)) = snd (handleAnalysis s) /\
       fst (handleAnalysis (set_storyInput padded s))
       = set_storyInput padded (fst (handleAnalysis s))).
Proof.
  intros s. split.
  - intros Hlen. apply short_story_is_rejected_aux.
    pose proof (trim_length (storyInput s)). lia.
  - intros w1 w2 H1 H2 padded. subst padded. unfold handleAnalysis.
    cbn [isAnalyzing storyInput set_storyInput]. rewrite trim_padding by assumption.
    destruct (isAnalyzing s); [split; reflexivity |].
    destruct (List.length (JsString.trim (storyInput s)) <? 100)%nat;
      split; reflexivity.
Qed.

(** X5: a query whose trimmed text is shorter than 5 code units sends
    no request: the status line of the search shows the refusal in red
    and nothing else changes.  So it is for every query of fewer than 5
    code units and for every query of white space only. *)
Theorem short_query_is_refused :
  forall s : state,
    isSearching s = false ->
    (List.length (JsString.trim (bookTitleInput s)) < 5)%nat
    \/ (List.length (bookTitleInput s) < 5)%nat
    \/ all_white (bookTitleInput s) ->
    findBookSummary s =
      (set_searchStatusMessage
         {| content := [Txt query_refused];
            classList := classList_add [text_red_600]
                           (classList (searchStatusMessage s)) |} s,
       Done).
Proof.
  intros s Hb Hshort.
  assert (Hlen : (List.length (JsString.trim (bookTitleInput s)) < 5)%nat).
  { destruct Hshort as [H | [H | H]].
    - exact H.
    - pose proof (trim_length (bookTitleInput s)). lia.
    - apply trim_nil_iff in H. rewrite H. cbn. lia. }
  apply Nat.ltb_lt in Hlen. unfold findBookSummary. now rewrite Hb, Hlen.
Qed.

(** *** Excerpt search *)

Lemma findBookSummary_ready (s : state) :
  isSearching s = false ->
  (5 <= List.length (JsString.trim (bookTitleInput s)))%nat ->
  exists s1,
    findBookSummary s =
      (s1, Await {| endpoint := lit "/search_excerpt";
                    sent := QueryPayload (JsString.trim (bookTitleInput s)) |}
             search_resume) /\
    isSearching s1 = true /\ findSummaryButton_disabled s1 = true /\
    In "hidden" (summaryOutput s1) /\
    ~ In text_red_600 (classList (searchStatusMessage s1)) /\
    isAnalyzing s1 = isAnalyzing s /\ storyInput s1 = storyInput s.
Proof.
  intros Hb Hlen. apply Nat.ltb_ge in Hlen. unfold findBookSummary.
  rewrite Hb, Hlen. eexists. split; [reflexivity |].
  cbn -[classList_add classList_remove lit]. repeat split.
  - apply hidden_added.
  - rewrite classList_remove_In. intros [_ H]. apply H. now left.
Qed.

(** The last code unit of a string survives the normalization of the
    newlines when it is not white space. *)
Lemma normalize_newlines_last (d : JsString.code_unit) (m : jsstring) :
  JsString.isWhiteSpace d = false ->
  normalize_newlines (m ++ [d]) = normalize_newlines m ++ [d] /\
  forall c, normalize_newlines (c :: m ++ [d])
            = normalize_newlines (c :: m) ++ [d].
Proof.
  intros Hd.
  assert (H13 : (d =? 13)%N = false).
  { destruct (d =? 13)%N eqn:E; [| reflexivity].
    apply N.eqb_eq in E. subst d. discriminate. }
  assert (H10 : (d =? 10)%N = false).
  { destruct (d =? 10)%N eqn:E; [| reflexivity].
    apply N.eqb_eq in E. subst d. discriminate. }
  induction m as [|x m [IH1 IH2]].
  - split; [cbn; now rewrite H13 |].
    intros c. cbn. rewrite H10, H13. now destruct (c =? 13)%N.
  - split; [exact (IH2 x) |].
    intros c. cbn [app normalize_newlines].
    destruct (c =? 13)%N.
    + destruct (x =? 10)%N.
      * cbn [app]. now rewrite IH1.
      * specialize (IH2 x). cbn [app normalize_newlines] in IH2.
        cbn [app]. now rewrite IH2.
    + specialize (IH2 x). cbn [app normalize_newlines] in IH2.
      cbn [app]. now rewrite IH2.
Qed.

Lemma trim_tidy (c d : JsString.code_unit) (m : jsstring) :
  JsString.isWhiteSpace c = false -> JsString.isWhiteSpace d = false ->
  JsString.trim [c] = [c] /\ JsString.trim (c :: m ++ [d]) = c :: m ++ [d].
Proof.
  intros Hc Hd. unfold JsString.trim, JsString.trimEnd.
  cbn [JsString.trimStart rev app]. rewrite Hc. cbn [rev app JsString.trimStart].
  rewrite Hc. split; [reflexivity |].
  rewrite rev_app_distr. cbn [rev app JsString.trimStart]. rewrite Hd.
  change (d :: rev m ++ [c]) with ([d] ++ rev m ++ [c]).
  rewrite !rev_app_distr, rev_involutive. reflexivity.
Qed.

(** A trimmed string is empty, or begins and ends with a code unit that
    is not white space. *)
Lemma trimmed_cases (s : jsstring) :
  JsString.trim s = [] \/
  (exists c, JsString.trim s = [c] /\ JsString.isWhiteSpace c = false) \/
  (exists c m d, JsString.trim s = c :: m ++ [d] /\
                 JsString.isWhiteSpace c = false /\
                 JsString.isWhiteSpace d = false).
Proof.
  pose proof (trim_idempotent s) as Hid.
  destruct (JsString.trim s) as [|c u] eqn:E; [now left |]. right.
  assert (Hc : JsString.isWhiteSpace c = false).
  { destruct (JsString.isWhiteSpace c) eqn:Hc; [| reflexivity]. exfalso.
    pose proof (trim_length u) as Hl.
    assert (Ht : JsString.trim (c :: u) = JsString.trim u).
    { unfold JsString.trim. cbn [JsString.trimStart]. now rewrite Hc. }
    rewrite Ht in Hid. rewrite Hid in Hl. cbn in Hl. lia. }
  destruct u as [|x u'] using rev_ind; [left; eauto |].
  clear IHu'. right. exists c, u', x. split; [reflexivity |].
  split; [exact Hc |].
  destruct (JsString.isWhiteSpace x) eqn:Hx; [| reflexivity]. exfalso.
  pose proof (trim_length (c :: u')) as Hl.
  assert (Hw : all_white [x]) by (unfold all_white; cbn; now rewrite Hx).
  pose proof (trim_padding [] (c :: u') [x] eq_refl Hw) as Ht.
  cbn [app] in Ht. rewrite Ht in Hid. rewrite Hid in Hl.
  cbn [List.length] in Hl. rewrite length_app in Hl. cbn in Hl. lia.
Qed.

(** Trimming what a text area holds for a trimmed text changes nothing. *)
Lemma trim_normalize_trim (s : jsstring) :
  JsString.trim (normalize_newlines (JsString.trim s))
  = normalize_newlines (JsString.trim s).
Proof.
  assert (Hnot13 : forall c, JsString.isWhiteSpace c = false ->
                             (c =? 13)%N = false).
  { intros c Hc. destruct (c =? 13)%N eqn:E; [| reflexivity].
    apply N.eqb_eq in E. subst c. discriminate. }
  destruct (trimmed_cases s) as [-> | [(c & -> & Hc) | (c & m & d & -> & Hc & Hd)]].
  - reflexivity.
  - cbn [normalize_newlines]. rewrite (Hnot13 c Hc).
    exact (proj1 (trim_tidy c c [] Hc Hc)).
  - cbn [normalize_newlines]. rewrite (Hnot13 c Hc).
    rewrite (proj1 (normalize_newlines_last d m Hd)).
    exact (proj2 (trim_tidy c d (normalize_newlines m) Hc Hd)).
Qed.


Lemma links_join_links (l : list source) :
  links (join_links l) = map (fun a => (uri a, title a)) l.
Proof.
  induction l as [|a [|b l] IH]; [reflexivity | reflexivity |].
  change (join_links (a :: b :: l))
    with (Link (uri a) (title a) :: Txt (lit " | ") :: join_links (b :: l)).
  cbn [links map]. f_equal. exact IH.
Qed.

(** X7: when an excerpt is found and the reply names sources, the
    markup written into the status line of the search holds one link
    per source, in the order of the reply, with the address and the
    title of the source put into it as they are, after the words that
    announce the sources; without sources, or with an empty list of
    them, the status line gets the plain message as its text. *)
Theorem sources_are_listed_in_order :
  forall (r : reply) (data : body) (text : jsstring) (s : state),
    fetchAPI r = Return data ->
    excerpt data = Some text -> text <> [] ->
    let written := content (searchStatusMessage (fst (search_resume r s))) in
    (forall l, sources data = Some l -> l <> [] ->
       links written = map (fun a => (uri a, title a)) l /\
       hd_error written = Some (Txt (lit "Excerpt found! Sources: "))) /\
    (sources data = None \/ sources data = Some [] ->
     written =
       [Txt (lit "Excerpt found! Review the text below and copy it for analysis.")]).
Proof.
  intros r data text s Hr Hex Hne written. subst written.
  unfold search_resume, search_finally, search_try. rewrite Hr, Hex.
  destruct text as [|c t]; [congruence |]. cbn [JsString.truthy fst].
  split.
  - intros l Hl Hnil. rewrite Hl. destruct l as [|a l]; [congruence |].
    cbn -[join_links lit links]. split; [| reflexivity].
    change (links (Txt (lit "Excerpt found! Sources: ") :: join_links (a :: l)))
      with (links (join_links (a :: l))).
    apply links_join_links.
  - intros [Hl | Hl]; rewrite Hl; reflexivity.
Qed.

(** X8: search, copy, analyse.  After a search has found an excerpt,
    [copySummaryToInput] puts what the text area holds, the trimmed
    excerpt with its newlines normalized, into the story input and hides
    the panel again; if that text has at least 100 code units and no
    analysis is in flight, [handleAnalysis] then sends exactly that text
    to [/analyze]. *)
Theorem found_excerpt_is_analyzed :
  forall (s : state) (r : reply) (data : body) (text : jsstring),
    isSearching s = false ->
    (5 <= List.length (JsString.trim (bookTitleInput s)))%nat ->
    isAnalyzing s = false ->
    fetchAPI r = Return data ->
    excerpt data = Some text ->
    let held := normalize_newlines (JsString.trim text) in
    (100 <= List.length held)%nat ->
    let copied := copySummaryToInput (fst (feed [r] (findBookSummary s))) in
    storyInput copied = held /\
    In "hidden" (summaryOutput copied) /\
    exists s4,
      handleAnalysis copied =
        (s4, Await {| endpoint := lit "/analyze"; sent := TextPayload held |}
               (analyze_resume held)).
Proof.
  intros s r data text Hb Hq Ha Hr Hex held Hlen copied.
  destruct (findBookSummary_ready s Hb Hq)
    as (s1 & Hrun & _ & _ & _ & _ & Han & _).
  assert (Hne : text <> []).
  { intros ->. cbn in Hlen. lia. }
  assert (Hcopied : storyInput copied = held /\
                    In "hidden" (summaryOutput copied) /\
                    isAnalyzing copied = false).
  { subst copied. rewrite Hrun. cbn [feed snd fst].
    unfold search_resume, search_finally, search_try. rewrite Hr, Hex.
    destruct text as [|c t]; [congruence |]. cbn [JsString.truthy fst feed snd].
    unfold copySummaryToInput.
    destruct (sources data) as [[|a l] |];
      cbn -[classList_add classList_remove JsString.trim normalize_newlines
            lit];
      (split; [reflexivity |]); (split; [apply hidden_added |]);
      congruence. }
  destruct Hcopied as (Hstory & Hhidden & Hidle).
  split; [exact Hstory |]. split; [exact Hhidden |].
  assert (Htrim : JsString.trim held = held) by apply trim_normalize_trim.
  assert (Hready : analysis_ready copied).
  { split; [exact Hidle |]. rewrite Hstory, Htrim. exact Hlen. }
  destruct (handleAnalysis_ready copied Hready) as (s4 & Hstart & _).
  exists s4. rewrite Hstart, Hstory, Htrim. reflexivity.
Qed.

(** *** Failures of the analysis *)

Lemma analysis_fails_page (message : jsstring) (s : state) :
  let s' := fst (analysis_fails message s) in
  analysisOutput s' = AnalysisError message /\
  content (statusMessage s') = [Txt analysis_failed] /\
  In text_red_600 (classList (statusMessage s')) /\
  chatInput_disabled s' = true /\ sendChatButton_disabled s' = true /\
  isAnalyzing s' = false /\ analyzeButton_disabled s' = false /\
  lastAnalysisData s' = lastAnalysisData s /\
  characterSlots s' = characterSlots s /\
  activeCharacter s' = activeCharacter s /\
  chatHistory s' = chatHistory s /\
  downloads s' = downloads s.
Proof.
  cbn -[classList_add lit]. repeat split.
  apply classList_add_In. left. now left.
Qed.

Lemma handleAnalysis_start (s : state) :
  analysis_ready s ->
  exists s1,
    handleAnalysis s =
      (s1, Await {| endpoint := lit "/analyze";
                    sent := TextPayload (JsString.trim (storyInput s)) |}
             (analyze_resume (JsString.trim (storyInput s)))) /\
    characterSlots s1 = characterSlots s /\
    activeCharacter s1 = activeCharacter s /\
    chatHistory s1 = chatHistory s /\
    downloads s1 = downloads s /\
    storyInput s1 = storyInput s /\
    chatOutput s1 = chatOutput s /\
    alerts s1 = alerts s.
Proof.
  intros [Hb Hlen]. unfold handleAnalysis.
  rewrite Hb. apply Nat.ltb_ge in Hlen. rewrite Hlen.
  eexists. split; [reflexivity |]. repeat split.
Qed.

(** X9: when the analysis itself succeeds and the extraction of the
    characters then fails, the run ends as a failed one: the status line
    reads that the analysis failed, in red, the chat input and the send
    button are disabled and the selector, the active character and the
    transcript are as before the run.  Yet the result of the analysis is
    retained, and an export saves it. *)
Theorem failed_extraction_keeps_the_analysis :
  forall (s : state) (r1 r2 : reply) (analysisData : list AnalysisPoint)
         (message today : jsstring),
    analysis_ready s ->
    analyzed r1 = Some analysisData ->
    fetchAPI r2 = Throw message ->
    let final := fst (feed [r1; r2] (handleAnalysis s)) in
    snd (feed [r1; r2] (handleAnalysis s)) = Done /\
    content (statusMessage final) = [Txt analysis_failed] /\
    In text_red_600 (classList (statusMessage final)) /\
    chatInput_disabled final = true /\ sendChatButton_disabled final = true /\
    isAnalyzing final = false /\ analyzeButton_disabled final = false /\
    characterSlots final = characterSlots s /\
    activeCharacter final = activeCharacter s /\
    chatHistory final = chatHistory s /\
    lastAnalysisData final = Some analysisData /\
    downloads (downloadAnalysisData today final)
    = downloads s ++ [{| file_date := today; file_data := analysisData |}].
Proof.
  intros s r1 r2 analysisData message today Hready Hr1 Hr2 final.
  subst final.
  destruct (handleAnalysis_start s Hready)
    as (s1 & Hstart & Hslots & Hactive & Hhist & Hdown & _).
  destruct (analyze_resume_analyzed (JsString.trim (storyInput s)) r1 s1 _ Hr1)
    as [_ Hstep].
  rewrite Hstart. cbn [feed snd fst]. rewrite Hstep. cbn [feed snd fst].
  unfold characters_resume. rewrite Hr2. cbn [feed snd fst].
  split; [reflexivity |].
  pose proof (analysis_fails_page message
                (set_lastAnalysisData (Some analysisData) s1)) as H.
  cbn zeta in H.
  destruct H as (H1 & H2 & H3 & H4 & H5 & H6 & H7 & H8 & H9 & H10 & H11 & H12).
  split; [exact H2 |]. split; [exact H3 |].
  split; [exact H4 |]. split; [exact H5 |]. split; [exact H6 |].
  split; [exact H7 |]. split; [now rewrite H9 |]. split; [now rewrite H10 |].
  split; [now rewrite H11 |]. split; [exact H8 |].
  unfold downloadAnalysisData. rewrite H8.
  cbn [lastAnalysisData set_lastAnalysisData downloads set_downloads set_alerts].
  rewrite H12. cbn [downloads set_lastAnalysisData]. now rewrite Hdown.
Qed.

(** X10: a reply whose status is outside 200..299 is never used as a
    result, whatever its body holds: [fetchAPI] throws.  The message is
    the error the server names in the body or, when it names none or an
    empty one, the generic text with the status in decimal; on a body
    that is null it is the engine's error about reading [error] of null.
    And whatever [fetchAPI] throws, the [catch] block of the caller
    gets: the analysis ends as a failed one, with that message, at
    either of its two requests, keeping the retained result as it is;
    the search and the chat put the message after their own words into
    their status line, as its text, the excerpt panel and the text area
    are left alone and the transcript gets no model message. *)
Theorem server_errors_are_shown :
  forall status : N,
    (status < 200 \/ 299 < status)%N ->
    (forall data,
       exists shown,
         fetchAPI (Replied status data) = Throw shown /\
         (forall text, error data = Some text -> text <> [] ->
                       shown = text) /\
         (error data = None \/ error data = Some [] ->
          shown = lit "Server error: " ++ JsString.of_N status)) /\
    fetchAPI (Replied status JsonNull)
    = Throw (fault_message (ReadOfNull (lit "error"))) /\
    (forall r shown,
       fetchAPI r = Throw shown ->
       (forall storyText s,
          analyze_resume storyText r s = analysis_fails shown s) /\
       (forall analysisData s,
          characters_resume analysisData r s = analysis_fails shown s) /\
       (forall s,
          let s' := fst (search_resume r s) in
          content (searchStatusMessage s')
            = [Txt (lit "Search failed: " ++ shown)] /\
          summaryOutput s' = summaryOutput s /\
          summaryTextarea s' = summaryTextarea s) /\
       (forall s,
          let s' := fst (chat_resume r s) in
          content (chatStatusMessage s')
            = [Txt (lit "Chat failed: " ++ shown)] /\
          chatHistory s' = chatHistory s)) /\
    (forall shown s,
       let s' := fst (analysis_fails shown s) in
       snd (analysis_fails shown s) = Done /\
       content (statusMessage s') = [Txt analysis_failed] /\
       chatInput_disabled s' = true /\
       isAnalyzing s' = false /\
       lastAnalysisData s' = lastAnalysisData s /\
       characterSlots s' = characterSlots s).
Proof.
  intros status Hstatus.
  assert (Hok : response_ok status = false).
  { unfold response_ok.
    destruct (200 <=? status)%N eqn:E1; [| reflexivity].
    destruct (status <=? 299)%N eqn:E2; [| reflexivity].
    apply N.leb_le in E1, E2. lia. }
  split; [| split; [| split]].
  - intros data.
    exists (or_else (error data)
              (lit "Server error: " ++ JsString.of_N status)).
    split; [unfold fetchAPI; now rewrite Hok |]. split.
    + intros text -> Hne. destruct text; [congruence | reflexivity].
    + intros [-> | ->]; reflexivity.
  - unfold fetchAPI. now rewrite Hok.
  - intros r shown Hfetch. split; [| split; [| split]].
    + intros storyText s. unfold analyze_resume. now rewrite Hfetch.
    + intros analysisData s. unfold characters_resume. now rewrite Hfetch.
    + intros s s'. subst s'. unfold search_resume. rewrite Hfetch.
      repeat split.
    + intros s s'. subst s'.
      unfold chat_resume, chat_try, chat_finally, focus_chatInput.
      rewrite Hfetch. cbn -[lit classList_add].
      destruct (chatInput_disabled s); repeat split.
  - intros shown s s'. subst s'. repeat split.
Qed.

(** X11: both requests of an analysis carry the story as it was,
    trimmed, when the analysis started: the second one is built from the
    text the handler kept, not from the story input as it is when the
    first reply arrives. *)
Theorem analysis_sends_the_story_it_started_with :
  forall s : state,
    analysis_ready s ->
    exists s1 req1 resume1,
      handleAnalysis s = (s1, Await req1 resume1) /\
      req1 = {| endpoint := lit "/analyze";
                sent := TextPayload (JsString.trim (storyInput s)) |} /\
      forall r1 s' analysisData,
        analyzed r1 = Some analysisData ->
        exists s2 req2 resume2,
          resume1 r1 s' = (s2, Await req2 resume2) /\
          req2 = {| endpoint := lit "/extract_characters";
                    sent := TextPayload (JsString.trim (storyInput s)) |} /\
          storyInput s2 = storyInput s'.
Proof.
  intros s Hready.
  destruct (handleAnalysis_start s Hready) as (s1 & Hstart & _).
  exists s1. do 2 eexists. split; [exact Hstart |]. split; [reflexivity |].
  intros r1 s' analysisData Hr1.
  destruct (analyze_resume_analyzed (JsString.trim (storyInput s)) r1 s' _ Hr1)
    as [_ Hstep].
  rewrite Hstep. do 3 eexists. split; [reflexivity |]. split; reflexivity.
Qed.

(** *** The page after a successful analysis *)

Lemma render_summary_fields (analysisData : list AnalysisPoint) :
  List.length analysisData = 7%nat ->
  exists panel first last,
    render_summary analysisData (map TensionScore analysisData) = Return panel /\
    nth_error analysisData 0 = Some first /\
    nth_error analysisData 6 = Some last /\
    summary_conflict panel = keyEvent first /\
    summary_climax panel = keyEvent last /\
    summary_mainCharacter panel = characterFocus first.
Proof.
  intros Hlen.
  destruct analysisData as [|p0 [|p1 [|p2 [|p3 [|p4 [|p5 [|p6 [|p7 l]]]]]]]];
    try discriminate.
  unfold render_summary. cbn [nth_error map].
  rewrite average_nonempty. do 3 eexists. repeat split.
Qed.

Lemma updateUI_seven_page (analysisData : list AnalysisPoint)
  (names : list jsstring) (s : state) :
  List.length analysisData = 7%nat ->
  exists s' panel first last,
    updateUI analysisData names s = (s', Return tt) /\
    nth_error analysisData 0 = Some first /\
    nth_error analysisData 6 = Some last /\
    analysisOutputSummary s' = Some panel /\
    summary_conflict panel = keyEvent first /\
    summary_climax panel = keyEvent last /\
    summary_mainCharacter panel = characterFocus first /\
    chartData s' = map TensionScore analysisData /\
    analysisOutput s' = AnalysisCards (map_indexed render_card 0 analysisData) /\
    chatOutput s' = [Notice chat_mode_notice] /\
    chatInput s' = [] /\
    statusMessage s' = with_text analysis_complete (statusMessage s) /\
    content (chatStatusMessage s')
      = [Txt match names with [] => no_characters | _ :: _ => characters_loaded end] /\
    (chatInput_disabled s = true ->
     chatInput_focused s' = chatInput_focused s) /\
    storyInput s' = storyInput s /\
    downloads s' = downloads s /\ alerts s' = alerts s.
Proof.
  intros Hlen.
  destruct (render_summary_fields analysisData Hlen)
    as (panel & first & last & Hpanel & H0 & H6 & Hc & Hl & Hm).
  unfold updateUI. rewrite Hpanel.
  destruct names as [|name rest].
  - unfold setActiveCharacter, focus_chatInput. cbn -[lit].
    destruct (chatInput_disabled s); eexists; exists panel, first, last;
      (split; [reflexivity |]); cbn -[lit]; repeat split;
      try assumption; discriminate.
  - open_renderCharacterSlots s;
      unfold setActiveCharacter, focus_chatInput; cbn -[lit];
      destruct (chatInput_disabled s); eexists; exists panel, first, last;
      (split; [reflexivity |]); cbn -[lit]; repeat split;
      try assumption; discriminate.
Qed.

Lemma successful_run_page (s : state) (r1 r2 : reply)
  (analysisData : list AnalysisPoint) (names : list jsstring) :
  analysis_ready s ->
  analyzed r1 = Some analysisData ->
  extracted r2 = Some names ->
  exists final panel first last,
    feed [r1; r2] (handleAnalysis s) = (final, Done) /\
    nth_error analysisData 0 = Some first /\
    nth_error analysisData 6 = Some last /\
    analysisOutputSummary final = Some panel /\
    summary_conflict panel = keyEvent first /\
    summary_climax panel = keyEvent last /\
    summary_mainCharacter panel = characterFocus first /\
    chartData final = map TensionScore analysisData /\
    analysisOutput final
      = AnalysisCards (map_indexed render_card 0 analysisData) /\
    chatOutput final = [Notice chat_mode_notice] /\
    chatInput final = [] /\
    content (statusMessage final) = [Txt analysis_complete] /\
    ~ In text_red_600 (classList (statusMessage final)) /\
    content (chatStatusMessage final)
      = [Txt match names with [] => no_characters | _ :: _ => characters_loaded end] /\
    chatInput_focused final = chatInput_focused s /\
    storyInput final = storyInput s /\
    analyzeButton_disabled final = false /\
    downloads final = downloads s /\ alerts final = alerts s.
Proof.
  intros Hready Hr1 Hr2.
  assert (Hs1 : exists s1,
    handleAnalysis s =
      (s1, Await {| endpoint := lit "/analyze";
                    sent := TextPayload (JsString.trim (storyInput s)) |}
             (analyze_resume (JsString.trim (storyInput s)))) /\
    chatInput_disabled s1 = true /\ chatInput_focused s1 = chatInput_focused s /\
    storyInput s1 = storyInput s /\ downloads s1 = downloads s /\
    alerts s1 = alerts s /\
    ~ In text_red_600 (classList (statusMessage s1))).
  { destruct Hready as [Hb Hlen]. unfold handleAnalysis.
    rewrite Hb. apply Nat.ltb_ge in Hlen. rewrite Hlen.
    eexists. split; [reflexivity |]. cbn -[classList_remove lit].
    repeat split. rewrite classList_remove_In. intros [_ H]. apply H. now left. }
  destruct Hs1 as (s1 & Hstart & Hdis & Hfocus & Hstory & Hdown & Halerts & Hred).
  destruct (analyze_resume_analyzed (JsString.trim (storyInput s)) r1 s1 _ Hr1)
    as (Hlen & Hstep).
  rewrite Hstart. cbn [feed snd fst]. rewrite Hstep. cbn [feed snd fst].
  unfold characters_resume. unfold extracted in Hr2.
  destruct (fetchAPI r2) as [[| charResult] | message];
      [discriminate | | discriminate].
  injection Hr2 as Hnames. rewrite Hnames.
  destruct (updateUI_seven_page analysisData names
              (set_lastAnalysisData (Some analysisData) s1) Hlen)
    as (s3 & panel & first & last & Hui & H0 & H6 & Hp & Hc & Hl & Hm & Hchart
        & Hcards & Hout & Hin & Hstatus & Hchat & Hf & Hst & Hd & Ha).
  rewrite Hui. exists (analysis_finally s3), panel, first, last.
  split; [reflexivity |]. unfold analysis_finally.
  cbn [analysisOutputSummary chartData analysisOutput chatOutput chatInput
       statusMessage chatStatusMessage chatInput_focused storyInput
       analyzeButton_disabled downloads alerts set_isAnalyzing
       set_analyzeButton_disabled].
  cbn [chatInput_disabled chatInput_focused storyInput downloads alerts
       statusMessage set_lastAnalysisData] in Hf, Hst, Hd, Ha, Hstatus.
  specialize (Hf Hdis). rewrite Hstatus.
  repeat split; try assumption; try congruence.
Qed.

(** X12: after a successful analysis the chart holds the 7 Tension
    scores in order, the summary panel is filled, and there is one card
    per beat, in order, which carries the number of the beat (from 1),
    the label the chart has for it and the four metrics in the order
    Tension, Pacing, Agency, Resonance. *)
Theorem analysis_fills_chart_summary_and_cards :
  forall (s : state) (r1 r2 : reply) (analysisData : list AnalysisPoint)
         (names : list jsstring),
    analysis_ready s ->
    analyzed r1 = Some analysisData ->
    extracted r2 = Some names ->
    let final := fst (feed [r1; r2] (handleAnalysis s)) in
    chartData final = map TensionScore analysisData /\
    (exists panel, analysisOutputSummary final = Some panel) /\
    (exists cards,
       analysisOutput final = AnalysisCards cards /\
       List.length cards = 7%nat /\
       forall n item,
         nth_error analysisData n = Some item ->
         exists c,
           nth_error cards n = Some c /\
           card_number c = S n /\
           nth_error chart_labels n = Some (card_label c) /\
           map row_label (card_metrics c) =
             [lit "Tension"; lit "Pacing"; lit "Agency"; lit "Resonance"]).
Proof.
  intros s r1 r2 analysisData names Hready Hr1 Hr2 final. subst final.
  destruct (analyze_resume_analyzed [] r1 s _ Hr1) as [Hlen _].
  destruct (successful_run_page s r1 r2 analysisData names Hready Hr1 Hr2)
    as (final & panel & first & last & Hrun & H0 & H6 & Hp & Hc & Hl & Hm
        & Hchart & Hcards & _).
  rewrite Hrun. cbn [fst]. split; [exact Hchart |]. split.
  - now exists panel.
  - eexists. split; [exact Hcards |].
    split; [now rewrite map_indexed_length |].
    intros n item Hn.
    exists (render_card n item). rewrite map_indexed_nth_error, Hn.
    split; [reflexivity |]. split; [cbn; lia |].
    split; [| reflexivity].
    assert (Hbound : (n < 7)%nat).
    { rewrite <- Hlen. apply nth_error_Some. congruence. }
    cbn [render_card card_label].
    do 7 (destruct n as [|n]; [reflexivity |]). lia.
Qed.

(** X27: the texts of an analysis go into the markup of the page as the
    reply has them, without escaping: the markup of the card of a beat
    has the key event, the character focus and the four summaries of
    the beat in the holes of its template, and the markup of the summary
    panel the key event of the first beat as the conflict, that of the
    seventh as the climax and the character focus of the first beat as
    the main character.  What the page shows of a text that holds markup
    is therefore up to the HTML parser. *)
Theorem analysis_texts_are_interpolated :
  forall (s : state) (r1 r2 : reply) (analysisData : list AnalysisPoint)
         (names : list jsstring),
    analysis_ready s ->
    analyzed r1 = Some analysisData ->
    extracted r2 = Some names ->
    let final := fst (feed [r1; r2] (handleAnalysis s)) in
    (exists panel first last,
       analysisOutputSummary final = Some panel /\
       nth_error analysisData 0 = Some first /\
       nth_error analysisData 6 = Some last /\
       summary_conflict panel = keyEvent first /\
       summary_climax panel = keyEvent last /\
       summary_mainCharacter panel = characterFocus first) /\
    (exists cards,
       analysisOutput final = AnalysisCards cards /\
       forall n item,
         nth_error analysisData n = Some item ->
         exists c,
           nth_error cards n = Some c /\
           card_event c = keyEvent item /\
           card_focus c = characterFocus item /\
           map row_summary (card_metrics c) =
             [TensionSummary item; PacingSummary item; AgencySummary item;
              ResonanceSummary item]).
Proof.
  intros s r1 r2 analysisData names Hready Hr1 Hr2 final. subst final.
  destruct (successful_run_page s r1 r2 analysisData names Hready Hr1 Hr2)
    as (final & panel & first & last & Hrun & H0 & H6 & Hp & Hc & Hl & Hm
        & Hchart & Hcards & _).
  rewrite Hrun. cbn [fst]. split.
  - exists panel, first, last. repeat split; assumption.
  - eexists. split; [exact Hcards |]. intros n item Hn.
    exists (render_card n item). rewrite map_indexed_nth_error, Hn.
    repeat split.
Qed.

(** X13: a successful analysis resets the chat: the transcript is
    empty, the chat panel shows the notice that chat mode is active (and
    not the one of the character just selected), the chat input is empty
    and enabled like the send button, the status line announces the end
    of the analysis and is not red, and the analyze button is enabled
    again.  The story input is left as it is, and the focus stays where
    it was: the first character is selected while the chat input is
    still disabled. *)
Theorem analysis_resets_the_chat :
  forall (s : state) (r1 r2 : reply) (analysisData : list AnalysisPoint)
         (names : list jsstring),
    analysis_ready s ->
    analyzed r1 = Some analysisData ->
    extracted r2 = Some names ->
    let final := fst (feed [r1; r2] (handleAnalysis s)) in
    chatHistory final = [] /\
    chatOutput final = [Notice chat_mode_notice] /\
    chatInput final = [] /\
    chatInput_disabled final = false /\
    sendChatButton_disabled final = false /\
    content (statusMessage final) = [Txt analysis_complete] /\
    ~ In text_red_600 (classList (statusMessage final)) /\
    content (chatStatusMessage final)
      = [Txt match names with [] => no_characters | _ :: _ => characters_loaded end] /\
    analyzeButton_disabled final = false /\
    storyInput final = storyInput s /\
    chatInput_focused final = chatInput_focused s.
Proof.
  intros s r1 r2 analysisData names Hready Hr1 Hr2 final. subst final.
  destruct (successful_run s r1 r2 analysisData names Hready Hr1 Hr2)
    as (final & panel & Hrun & _ & _ & _ & _ & _ & _ & Hhist & Hin & Hsend & _).
  destruct (successful_run_page s r1 r2 analysisData names Hready Hr1 Hr2)
    as (final' & panel' & first & last & Hrun' & _ & _ & _ & _ & _ & _ & _ & _
        & Hout & Hinput & Hstatus & Hred & Hchat & Hfocus & Hstory & Hbutton & _).
  rewrite Hrun in Hrun'. injection Hrun' as <-.
  rewrite Hrun. cbn [fst]. repeat split; assumption.
Qed.

(** *** Choosing a character *)

Lemma mark_icon_plain (name : option jsstring) (i : icon) :
  plain (mark_icon name i) <->
  JsString.includes (icon_textContent i) (to_text name) = false.
Proof.
  unfold mark_icon, plain.
  destruct (JsString.includes (icon_textContent i) (to_text name));
    cbn [with_classes icon_classList].
  - split; [| discriminate]. intros [H _]. exfalso.
    specialize (H "bg-white").
    rewrite classList_remove_In in H.
    assert (Hin : In "bg-white" plain_classes) by (simpl; auto).
    destruct (H Hin) as [_ Hn]. exact (Hn Hin).
  - split; [reflexivity | intros _]. split; intros c Hc.
    + rewrite classList_add_In. now left.
    + rewrite classList_add_In, classList_remove_In.
      intros [Hp | [_ Hn]]; [exact (disjoint_classes c Hc Hp) | exact (Hn Hc)].
Qed.

(** X14: after a successful analysis on a page that has the selector,
    a click on the n-th button of the selector makes the n-th returned
    character the active one, empties the transcript and gives the chat
    input the focus; no request is sent.  The buttons still stand for
    the returned characters in order.  Every button is either
    highlighted, when its text includes the chosen name, or plain, when
    it does not; so the button clicked is highlighted if the parser
    reads its name as it is written. *)
Theorem click_selects_the_character :
  forall (s : state) (r1 r2 : reply) (analysisData : list AnalysisPoint)
         (names : list jsstring) (n : nat) (name : jsstring),
    analysis_ready s ->
    characterSlots_found s = true ->
    analyzed r1 = Some analysisData ->
    extracted r2 = Some names ->
    nth_error names n = Some name ->
    let final := fst (feed [r1; r2] (handleAnalysis s)) in
    let w := fire (Click_character n) {| page := final; pending := [] |} in
    pending w = [] /\
    activeCharacter (page w) = Some name /\
    chatHistory (page w) = [] /\
    chatInput_focused (page w) = true /\
    map icon_onclick (characterSlots (page w)) = names /\
    map icon_name (characterSlots (page w)) = map label_text names /\
    (forall i, In i (characterSlots (page w)) ->
       (highlighted i <->
        JsString.includes (icon_textContent i) name = true) /\
       (plain i <-> JsString.includes (icon_textContent i) name = false)) /\
    (label_text name = name ->
     exists i, nth_error (characterSlots (page w)) n = Some i /\
               icon_onclick i = name /\ highlighted i).
Proof.
  intros s r1 r2 analysisData names n name Hready Hfound Hr1 Hr2 Hn final w.
  subst w final.
  destruct (successful_run s r1 r2 analysisData names Hready Hr1 Hr2)
    as (final & panel & Hrun & _ & _ & _ & _ & Hslots & _ & _ & Hin & _).
  rewrite Hrun. cbn [fst fire page].
  destruct names as [|first rest]; [destruct n; discriminate |].
  rewrite Hfound in Hslots.
  assert (Hnth : nth_error (characterSlots final) n
                 = Some (mark_icon (Some first) (new_icon name))).
  { rewrite Hslots, !nth_error_map, Hn. reflexivity. }
  rewrite Hnth. cbn [sync page pending].
  rewrite mark_icon_onclick. cbn [new_icon icon_onclick].
  unfold setActiveCharacter, focus_chatInput.
  cbn [chatInput_disabled set_characterSlots set_chatOutput set_chatHistory
       set_activeCharacter].
  rewrite Hin.
  cbn [activeCharacter chatHistory chatOutput chatInput_focused characterSlots
       set_chatInput_focused to_text].
  split; [reflexivity |]. split; [reflexivity |]. split; [reflexivity |].
  split; [reflexivity |].
  cbn [characterSlots set_characterSlots set_chatOutput set_chatHistory
       set_activeCharacter].
  rewrite Hslots. split; [| split; [| split]].
  - rewrite !map_map. rewrite <- (map_id (first :: rest)) at 2.
    apply map_ext. intros x. now rewrite !mark_icon_onclick.
  - rewrite !map_map. apply map_ext. intros x.
    now rewrite !mark_icon_name.
  - intros i Hi. apply in_map_iff in Hi. destruct Hi as [j [<- _]].
    rewrite mark_icon_textContent. split.
    + apply (mark_icon_highlighted (Some name) j).
    + apply (mark_icon_plain (Some name) j).
  - intros Hplain.
    exists (mark_icon (Some name) (mark_icon (Some first) (new_icon name))).
    split; [now rewrite !nth_error_map, Hn |].
    split; [now rewrite !mark_icon_onclick |].
    apply mark_icon_highlighted. rewrite mark_icon_textContent.
    unfold icon_textContent. cbn [new_icon icon_emoji icon_name to_text].
    rewrite Hplain. apply includes_app_r.
Qed.

(** *** What the event loop keeps *)

Lemma kept_fire (P : state -> Prop) :
  kept P ->
  forall (w : world) (e : event),
    consistent w -> P (page w) -> P (page (fire e w)).
Proof.
  intros (Hstory & Htitle & Harea & Hchat & Han & Hfind & Hcopy & Hsend
          & Hselect & Hsave & Hr1 & Hr2 & Hr3 & Hr4) w e Hw HP.
  destruct e; cbn [fire]; try (cbn; auto; fail).
  - rewrite start_page. now apply Han.
  - rewrite start_page. now apply Hfind.
  - rewrite start_page. now apply Hsend.
  - rewrite start_page. unfold chatInput_keypress.
    destruct (JsString.eqb key (lit "Enter") && negb (isChatting (page w)));
      [now apply Hsend | exact HP].
  - destruct (nth_error (characterSlots (page w)) index);
      [now apply Hselect | exact HP].
  - destruct (nth_error (pending w) index) as [[a [| req k]] |] eqn:Hnth;
      try exact HP.
    assert (Hknown : known (a, Await req k)).
    { destruct Hw as (Hk & _). rewrite Forall_forall in Hk. apply Hk.
      eapply nth_error_In; eassumption. }
    inversion Hknown; subst.
    + specialize (Hr1 storyText r (page w) HP).
      now destruct (analyze_resume storyText r (page w)).
    + specialize (Hr2 analysisData r (page w) HP).
      now destruct (characters_resume analysisData r (page w)).
    + specialize (Hr3 r (page w) HP). now destruct (search_resume r (page w)).
    + specialize (Hr4 r (page w) HP). now destruct (chat_resume r (page w)).
Qed.

Lemma kept_run (P : state -> Prop) :
  kept P ->
  forall (es : list event) (w : world),
    consistent w -> P (page w) -> P (page (run es w)).
Proof.
  intros HP es. unfold run.
  induction es as [|e es IH]; intros w Hw Hpage; cbn [fold_left].
  - exact Hpage.
  - apply IH; [now apply fire_consistent | now apply kept_fire].
Qed.

Lemma run_app (es1 es2 : list event) (w : world) :
  run (es1 ++ es2) w = run es2 (run es1 w).
Proof. unfold run. apply fold_left_app. Qed.

Lemma check_structure_seven (v : json_value) (items : list AnalysisPoint) :
  check_structure v = Return items -> List.length items = 7%nat.
Proof.
  unfold check_structure.
  destruct v as [| l | [t | m]]; try discriminate.
  destruct (List.length l =? 7)%nat eqn:E; [| discriminate].
  intros [= <-]. now apply Nat.eqb_eq.
Qed.

Lemma updateUI_downloads (analysisData : list AnalysisPoint)
  (names : list jsstring) (s : state) :
  downloads (fst (updateUI analysisData names s)) = downloads s.
Proof.
  unfold updateUI.
  destruct (render_summary analysisData _); [| reflexivity].
  destruct names as [|first rest].
  - cbn [fst]. unfold setActiveCharacter, focus_chatInput. cbn.
    now destruct (chatInput_disabled s).
  - open_renderCharacterSlots s;
      cbn [fst]; unfold setActiveCharacter, focus_chatInput; cbn;
      now destruct (chatInput_disabled s).
Qed.

Lemma seven_points_kept (before : list download) : kept (seven_points before).
Proof.
  unfold kept, seven_points.
  repeat match goal with |- _ /\ _ => split end.
  - intros text s H. exact H.
  - intros text s H. exact H.
  - intros text s H. exact H.
  - intros text s H. exact H.
  - intros s [H1 H2]. unfold handleAnalysis.
    destruct (isAnalyzing s); [now split |].
    destruct (List.length (JsString.trim (storyInput s)) <? 100)%nat;
      cbn; split; try assumption; discriminate.
  - intros s [H1 H2]. unfold findBookSummary.
    destruct (isSearching s); [now split |].
    destruct (List.length (JsString.trim (bookTitleInput s)) <? 5)%nat;
      now split.
  - intros s H. exact H.
  - intros s [H1 H2]. unfold handleChat.
    destruct (isChatting s || chatInput_disabled s); [now split |].
    destruct (JsString.truthy (JsString.trim (chatInput s))); [| now split].
    destruct (JsString.truthy (JsString.trim (storyInput s))); [| now split].
    destruct (truthy_field (activeCharacter s)); now split.
  - intros name s [H1 H2]. unfold setActiveCharacter, focus_chatInput. cbn.
    destruct (chatInput_disabled s); now split.
  - intros today s [H1 H2]. unfold downloadAnalysisData.
    destruct (lastAnalysisData s) as [analysisData |] eqn:E; cbn.
    + rewrite E. split; [exact H1 |]. intros f Hf.
      apply in_app_iff in Hf. destruct Hf as [Hf | [<- | []]]; [auto |].
      right. now apply H1.
    + rewrite E. now split.
  - intros storyText r s [H1 H2]. unfold analyze_resume.
    destruct (fetchAPI r) as [[| data] | message];
      [now split | | now split].
    destruct (analysis data) as [message | v]; [now split |].
    destruct (check_structure v) as [items | message] eqn:E; [| now split].
    cbn. split; [| exact H2]. intros x [= <-].
    now apply check_structure_seven in E.
  - intros analysisData r s [H1 H2].
    rewrite characters_resume_lastAnalysisData. split; [exact H1 |].
    unfold characters_resume.
    destruct (fetchAPI r) as [[| data] | message];
      [exact H2 | | exact H2].
    pose proof (updateUI_downloads analysisData
                  match characters data with Some l => l | None => [] end s)
      as Hd.
    destruct (updateUI analysisData _ s) as [s' [[] | message]];
      cbn in *; now rewrite Hd.
  - intros r s [H1 H2]. rewrite search_resume_lastAnalysisData.
    split; [exact H1 |].
    unfold search_resume, search_finally, search_try. cbn.
    destruct (fetchAPI r) as [[| data] | message];
      [exact H2 | | exact H2].
    destruct (excerpt data) as [[|c t] |]; cbn; try exact H2.
    destruct (sources data) as [[|x l] |]; exact H2.
  - intros r s [H1 H2]. rewrite chat_resume_lastAnalysisData.
    split; [exact H1 |].
    unfold chat_resume, chat_finally, chat_try, focus_chatInput.
    destruct (fetchAPI r) as [[| data] | message]; cbn;
      [| destruct (response data) as [[|c t] |]; cbn |];
      destruct (chatInput_disabled s); exact H2.
Qed.

(** X15: whatever the user does and in whatever order the replies
    arrive, the retained analysis, when there is one, has exactly 7
    points, and so has every file the export has saved since the page
    was loaded. *)
Theorem exports_hold_seven_points :
  forall (d : state) (es : list event),
    let w := run es (page_load d) in
    (forall analysisData,
       lastAnalysisData (page w) = Some analysisData ->
       List.length analysisData = 7%nat) /\
    (forall f, In f (downloads (page w)) ->
               In f (downloads d) \/ List.length (file_data f) = 7%nat).
Proof.
  intros d es w. subst w.
  apply (kept_run (seven_points (downloads d)) (seven_points_kept _)).
  - apply page_load_consistent.
  - split; [discriminate | intros f Hf; now left].
Qed.

Ltac through_handlers :=
  unfold kept; repeat match goal with |- _ /\ _ => split end.

Ltac open_handleAnalysis s :=
  unfold handleAnalysis;
  destruct (isAnalyzing s) eqn:?;
  [| destruct (List.length (JsString.trim (storyInput s)) <? 100)%nat].

Ltac open_findBookSummary s :=
  unfold findBookSummary;
  destruct (isSearching s) eqn:?;
  [| destruct (List.length (JsString.trim (bookTitleInput s)) <? 5)%nat].

Ltac open_handleChat s :=
  unfold handleChat;
  destruct (isChatting s || chatInput_disabled s) eqn:?;
  [| destruct (JsString.truthy (JsString.trim (chatInput s))) eqn:?;
     [destruct (JsString.truthy (JsString.trim (storyInput s))) eqn:?;
      [destruct (truthy_field (activeCharacter s)) eqn:? | ] | ]].

Ltac open_search_resume r :=
  unfold search_resume, search_finally, search_try, search_catch;
  destruct (fetchAPI r) as [[| ?data] | ?message];
  [ | destruct (excerpt data) as [[|?c ?t] |];
      [ | destruct (sources data) as [[|?x ?l] |] | ] | ].

Ltac open_chat_resume r s :=
  unfold chat_resume, chat_finally, chat_try, chat_catch, focus_chatInput,
    renderMessage;
  destruct (fetchAPI r) as [[| ?data] | ?message];
  [ | destruct (response data) as [[|?c ?t] |] | ];
  cbn -[lit classList_add]; destruct (chatInput_disabled s) eqn:?;
  cbn -[lit classList_add].

Lemma characters_resume_idle (analysisData : list AnalysisPoint) (r : reply)
  (s : state) :
  isAnalyzing (fst (characters_resume analysisData r s)) = false.
Proof.
  unfold characters_resume.
  destruct (fetchAPI r) as [[| data] | message];
      [reflexivity | | reflexivity].
  now destruct (updateUI analysisData _ s) as [s' [[] | message]].
Qed.

Lemma chat_closed_kept : kept chat_closed_while_analyzing.
Proof.
  through_handlers; unfold chat_closed_while_analyzing.
  - intros text s H. exact H.
  - intros text s H. exact H.
  - intros text s H. exact H.
  - intros text s H. exact H.
  - intros s H. open_handleAnalysis s; cbn; intuition congruence.
  - intros s H. open_findBookSummary s; cbn; intuition congruence.
  - intros s H. exact H.
  - intros s H. open_handleChat s; cbn; intuition congruence.
  - intros name s H. unfold setActiveCharacter, focus_chatInput. cbn.
    destruct (chatInput_disabled s) eqn:E; cbn; intuition congruence.
  - intros today s H. unfold downloadAnalysisData.
    destruct (lastAnalysisData s); exact H.
  - intros storyText r s H. unfold analyze_resume.
    destruct (fetchAPI r) as [[| data] | message];
      [discriminate | | discriminate].
    destruct (analysis data) as [message | v]; [discriminate |].
    destruct (check_structure v) as [items | message]; [exact H | discriminate].
  - intros analysisData r s H. rewrite characters_resume_idle. discriminate.
  - intros r s H. open_search_resume r; exact H.
  - intros r s H. open_chat_resume r s; cbn in *; intuition congruence.
Qed.

(** X16: while an analysis is in flight the chat input is disabled,
    so no chat request starts then: a call of [handleChat], or Enter in
    the chat input, sends nothing and changes nothing. *)
Theorem no_chat_during_an_analysis :
  forall (d : state) (es : list event),
    let w := run es (page_load d) in
    isAnalyzing (page w) = true ->
    chatInput_disabled (page w) = true /\
    handleChat (page w) = (page w, Done) /\
    (forall key, chatInput_keypress key (page w) = (page w, Done)) /\
    fire Call_handleChat w = w.
Proof.
  intros d es w Hbusy.
  assert (Hclosed : chatInput_disabled (page w) = true).
  { apply (kept_run _ chat_closed_kept es (page_load d)).
    - apply page_load_consistent.
    - intros H. discriminate H.
    - exact Hbusy. }
  assert (Hchat : handleChat (page w) = (page w, Done)).
  { unfold handleChat. rewrite Hclosed. now rewrite orb_true_r. }
  split; [exact Hclosed |]. split; [exact Hchat |]. split.
  - intros key. unfold chatInput_keypress. rewrite Hchat.
    now destruct (JsString.eqb key (lit "Enter") && negb (isChatting (page w))).
  - cbn [fire]. unfold start. rewrite Hchat. cbn [suspended].
    rewrite app_nil_r. now destruct w.
Qed.

Lemma written_messages_app (a b : list bubble) :
  written_messages (a ++ b) = written_messages a ++ written_messages b.
Proof.
  induction a as [|[text | who name text] a IH]; cbn; [reflexivity | exact IH |].
  now rewrite IH.
Qed.

Lemma updateUI_transcript (analysisData : list AnalysisPoint)
  (names : list jsstring) (s : state) :
  panel_follows_transcript s ->
  panel_follows_transcript (fst (updateUI analysisData names s)).
Proof.
  unfold panel_follows_transcript, updateUI. intros H.
  destruct (render_summary analysisData _); [| exact H].
  destruct names; reflexivity.
Qed.

Lemma transcript_kept : kept panel_follows_transcript.
Proof.
  through_handlers; unfold panel_follows_transcript.
  - intros text s H. exact H.
  - intros text s H. exact H.
  - intros text s H. exact H.
  - intros text s H. exact H.
  - intros s H. open_handleAnalysis s; exact H.
  - intros s H. open_findBookSummary s; exact H.
  - intros s H. exact H.
  - intros s H. open_handleChat s; try exact H.
    unfold renderMessage. cbn -[lit]. rewrite written_messages_app, H.
    reflexivity.
  - intros name s H. unfold setActiveCharacter, focus_chatInput. cbn -[lit].
    now destruct (chatInput_disabled s).
  - intros today s H. unfold downloadAnalysisData.
    destruct (lastAnalysisData s); exact H.
  - intros storyText r s H. unfold analyze_resume.
    destruct (fetchAPI r) as [[| data] | message];
      [exact H | | exact H].
    destruct (analysis data) as [message | v]; [exact H |].
    destruct (check_structure v) as [items | message]; exact H.
  - intros analysisData r s H. unfold characters_resume.
    destruct (fetchAPI r) as [[| data] | message];
      [exact H | | exact H].
    pose proof (updateUI_transcript analysisData
                  match characters data with Some l => l | None => [] end s H)
      as H'.
    destruct (updateUI analysisData _ s) as [s' [[] | message]]; exact H'.
  - intros r s H. open_search_resume r; exact H.
  - intros r s H. open_chat_resume r s; try exact H;
      rewrite written_messages_app, H; reflexivity.
Qed.

(** X17: the chat panel and the transcript stay in step.  If the
    panel holds no message when the page is loaded, then after any
    sequence of events the message fragments the script has put into the
    panel since it last replaced its content carry, in order, role by
    role and with the texts as they are, the entries of [chatHistory],
    which is what the next chat request sends as history.  (The texts go
    into the markup unescaped; what the panel shows of a text that holds
    markup is up to the HTML parser.) *)
Theorem chat_panel_follows_the_transcript :
  forall (d : state) (es : list event),
    written_messages (chatOutput d) = [] ->
    let w := run es (page_load d) in
    written_messages (chatOutput (page w)) = chatHistory (page w).
Proof.
  intros d es Hempty w. subst w.
  apply (kept_run _ transcript_kept es (page_load d)).
  - apply page_load_consistent.
  - exact Hempty.
Qed.

Lemma chat_status_red_kept : kept chat_status_red.
Proof.
  through_handlers; unfold chat_status_red.
  - intros text s H. exact H.
  - intros text s H. exact H.
  - intros text s H. exact H.
  - intros text s H. exact H.
  - intros s H. open_handleAnalysis s; exact H.
  - intros s H. open_findBookSummary s; exact H.
  - intros s H. exact H.
  - intros s H. open_handleChat s; exact H.
  - intros name s H. unfold setActiveCharacter, focus_chatInput. cbn -[lit].
    now destruct (chatInput_disabled s).
  - intros today s H. unfold downloadAnalysisData.
    destruct (lastAnalysisData s); exact H.
  - intros storyText r s H. unfold analyze_resume.
    destruct (fetchAPI r) as [[| data] | message];
      [exact H | | exact H].
    destruct (analysis data) as [message | v]; [exact H |].
    destruct (check_structure v) as [items | message]; exact H.
  - intros analysisData r s H. unfold characters_resume.
    destruct (fetchAPI r) as [[| data] | message];
      [exact H | | exact H].
    assert (H' : In text_red_600
              (classList (chatStatusMessage
                 (fst (updateUI analysisData
                         match characters data with Some l => l | None => [] end
                         s))))).
    { unfold updateUI. destruct (render_summary analysisData _); [| exact H].
      destruct (match characters data with Some l => l | None => [] end)
        as [|first rest].
      - unfold setActiveCharacter, focus_chatInput. cbn -[lit].
        now destruct (chatInput_disabled s).
      - open_renderCharacterSlots s;
          unfold setActiveCharacter, focus_chatInput; cbn -[lit];
          now destruct (chatInput_disabled s). }
    destruct (updateUI analysisData _ s) as [s' [[] | message]]; exact H'.
  - intros r s H. open_search_resume r; exact H.
  - intros r s H. open_chat_resume r s; try exact H;
      apply classList_add_In; now right.
Qed.

(** X18: the chat status line turns red when a chat call fails, and
    nothing ever takes the red away again: once it is red it stays red
    through every later event, a successful answer included. *)
Theorem chat_status_stays_red :
  forall (d : state) (es1 es2 : list event),
    (forall r s message,
       fetchAPI r = Throw message ->
       In text_red_600 (classList (chatStatusMessage (fst (chat_resume r s))))) /\
    (In text_red_600
       (classList (chatStatusMessage (page (run es1 (page_load d))))) ->
     In text_red_600
       (classList (chatStatusMessage (page (run (es1 ++ es2) (page_load d)))))).
Proof.
  intros d es1 es2. split.
  - intros r s message Hr.
    unfold chat_resume, chat_finally, chat_try, chat_catch, focus_chatInput.
    rewrite Hr. cbn -[lit classList_add].
    destruct (chatInput_disabled s); apply classList_add_In; left; now left.
  - intros Hred. rewrite run_app.
    apply (kept_run _ chat_status_red_kept es2).
    + apply run_consistent, page_load_consistent.
    + exact Hred.
Qed.

Lemma buttons_follow_flags_kept : kept buttons_follow_flags.
Proof.
  through_handlers; unfold buttons_follow_flags.
  - intros text s H. exact H.
  - intros text s H. exact H.
  - intros text s H. exact H.
  - intros text s H. exact H.
  - intros s H. open_handleAnalysis s; cbn; intuition congruence.
  - intros s H. open_findBookSummary s; cbn; intuition congruence.
  - intros s H. exact H.
  - intros s H. open_handleChat s; exact H.
  - intros name s H. unfold setActiveCharacter, focus_chatInput. cbn -[lit].
    now destruct (chatInput_disabled s).
  - intros today s H. unfold downloadAnalysisData.
    destruct (lastAnalysisData s); exact H.
  - intros storyText r s H. unfold analyze_resume.
    destruct (fetchAPI r) as [[| data] | message];
      [cbn; tauto | | cbn; tauto].
    destruct (analysis data) as [message | v]; [cbn; tauto |].
    destruct (check_structure v) as [items | message]; [exact H | cbn; tauto].
  - intros analysisData r s H. unfold characters_resume.
    destruct (fetchAPI r) as [[| data] | message];
      [cbn; tauto | | cbn; tauto].
    pose proof (updateUI_busy analysisData
                  match characters data with Some l => l | None => [] end s
                  Search) as Hs.
    assert (Hf : findSummaryButton_disabled
                   (fst (updateUI analysisData
                           match characters data with Some l => l | None => [] end
                           s))
                 = findSummaryButton_disabled s).
    { unfold updateUI. destruct (render_summary analysisData _); [| reflexivity].
      destruct (match characters data with Some l => l | None => [] end)
        as [|first rest].
      - unfold setActiveCharacter, focus_chatInput. cbn -[lit].
        now destruct (chatInput_disabled s).
      - open_renderCharacterSlots s;
          unfold setActiveCharacter, focus_chatInput; cbn -[lit];
          now destruct (chatInput_disabled s). }
    destruct (updateUI analysisData _ s) as [s' [[] | message]];
      cbn in *; intuition congruence.
  - intros r s H. open_search_resume r; cbn; tauto.
  - intros r s H. open_chat_resume r s; exact H.
Qed.

(** X19: if the analyze and the search button are enabled when the
    page is loaded, then after any sequence of events each of them is
    disabled exactly while a request of its action is waiting for its
    reply. *)
Theorem buttons_are_disabled_while_in_flight :
  forall (d : state) (es : list event),
    analyzeButton_disabled d = false ->
    findSummaryButton_disabled d = false ->
    let w := run es (page_load d) in
    analyzeButton_disabled (page w) = in_flight Analyze w /\
    findSummaryButton_disabled (page w) = in_flight Search w.
Proof.
  intros d es Ha Hf w.
  assert (Hw : consistent w) by (apply run_consistent, page_load_consistent).
  assert (Hb : buttons_follow_flags (page w)).
  { apply (kept_run _ buttons_follow_flags_kept es (page_load d)).
    - apply page_load_consistent.
    - split; cbn; assumption. }
  destruct Hb as [H1 H2]. destruct Hw as (_ & _ & Hflag).
  rewrite H1, H2. split.
  - specialize (Hflag Analyze). rewrite <- in_flight_In in Hflag. cbn in Hflag.
    destruct (isAnalyzing (page w)), (in_flight Analyze w); intuition congruence.
  - specialize (Hflag Search). rewrite <- in_flight_In in Hflag. cbn in Hflag.
    destruct (isSearching (page w)), (in_flight Search w); intuition congruence.
Qed.

(** *** More on the chat *)

Lemma handleChat_start (s : state) :
  chat_ready s ->
  exists s1,
    handleChat s =
      (s1, Await {| endpoint := lit "/chat";
                    sent := ChatPayload (JsString.trim (storyInput s))
                              (chatHistory s
                               ++ [user_says (JsString.trim (chatInput s))])
                              (activeCharacter s) |}
             chat_resume) /\
    chatHistory s1
      = chatHistory s ++ [user_says (JsString.trim (chatInput s))] /\
    chatOutput s1
      = chatOutput s
        ++ [Message user (lit "You") (JsString.trim (chatInput s))] /\
    chatInput s1 = [] /\ isChatting s1 = true /\
    chatInput_disabled s1 = false /\ storyInput s1 = storyInput s /\
    activeCharacter s1 = activeCharacter s /\
    characterSlots s1 = characterSlots s.
Proof.
  intros (Hb & Hd & Hu & Ht & Hc). unfold handleChat.
  rewrite Hb, Hd, Hc. cbn [orb negb].
  destruct (JsString.trim (chatInput s)) as [|c u]; [congruence |].
  destruct (JsString.trim (storyInput s)) as [|x t]; [congruence |].
  cbn [JsString.truthy negb]. eexists. split; [reflexivity |].
  unfold renderMessage. cbn -[lit]. repeat split. exact Hd.
Qed.

Lemma chat_resume_unanswered (r : reply) (s : state) :
  unanswered r ->
  let s' := fst (chat_resume r s) in
  chatHistory s' = chatHistory s /\ chatOutput s' = chatOutput s /\
  chatInput s' = chatInput s /\ isChatting s' = false /\
  chatInput_disabled s' = chatInput_disabled s /\
  storyInput s' = storyInput s /\ activeCharacter s' = activeCharacter s /\
  sendChatButton_disabled s' = false.
Proof.
  intros [[message Hr] | [Hr | [data [Hr [Hn | Hn]]]]];
    unfold chat_resume, chat_finally, chat_try, chat_catch, focus_chatInput;
    rewrite Hr; try rewrite Hn; cbn -[lit classList_add];
    destruct (chatInput_disabled s) eqn:E; cbn -[lit classList_add];
    repeat split; exact E.
Qed.

(** X20: a message that gets no answer stays in the transcript: the
    chat input was emptied when it was sent and is not filled again, and
    the next message the user sends goes out with a history that ends
    with both user messages, the unanswered one before the new one. *)
Theorem unanswered_message_is_sent_again :
  forall (s : state) (r : reply) (text : jsstring),
    chat_ready s ->
    unanswered r ->
    JsString.trim text <> [] ->
    let first := JsString.trim (chatInput s) in
    let after := fst (feed [r] (handleChat s)) in
    chatInput after = [] /\
    chatHistory after = chatHistory s ++ [user_says first] /\
    exists s2 req resume,
      handleChat (set_chatInput text after) = (s2, Await req resume) /\
      req = {| endpoint := lit "/chat";
               sent := ChatPayload (JsString.trim (storyInput s))
                         (chatHistory s
                          ++ [user_says first; user_says (JsString.trim text)])
                         (activeCharacter s) |}.
Proof.
  intros s r text Hready Hr Htext first after. subst first after.
  destruct (handleChat_start s Hready)
    as (s1 & Hrun & Hhist & Hout & Hin & Hflag & Hdis & Hstory & Hactive & _).
  rewrite Hrun. cbn [feed snd fst].
  replace (feed [] (chat_resume r s1)) with (chat_resume r s1)
    by reflexivity.
  destruct (chat_resume_unanswered r s1 Hr)
    as (H1 & H2 & H3 & H4 & H5 & H6 & H7 & _).
  set (after := fst (chat_resume r s1)) in *.
  split; [congruence |]. split; [congruence |].
  assert (Hready2 : chat_ready (set_chatInput text after)).
  { destruct Hready as (_ & _ & _ & Ht & Hc).
    unfold chat_ready. cbn [isChatting chatInput_disabled chatInput storyInput
                           activeCharacter set_chatInput].
    rewrite H4, H5, Hdis, H6, Hstory, H7, Hactive. auto. }
  destruct (handleChat_start _ Hready2) as (s2 & Hrun2 & _).
  exists s2. do 2 eexists. split; [exact Hrun2 |].
  cbn [chatInput storyInput chatHistory activeCharacter set_chatInput].
  rewrite H6, Hstory, H1, Hhist, H7, Hactive, <- app_assoc. reflexivity.
Qed.

(** X21: when the user picks another character while a reply is on
    its way, the transcript is emptied, and the reply that then arrives
    is recorded as the first message of the newly chosen character: the
    user message it answers is gone from the transcript, which holds the
    model message alone. *)
Theorem late_reply_goes_to_the_new_character :
  forall (s : state) (r : reply) (data : body) (text name : jsstring),
    chat_ready s ->
    name <> [] ->
    fetchAPI r = Return data ->
    response data = Some text -> text <> [] ->
    forall s1 req resume,
      handleChat s = (s1, Await req resume) ->
      let s3 := fst (resume r (setActiveCharacter (Some name) s1)) in
      activeCharacter s3 = Some name /\
      chatHistory s3 = [model_says text] /\
      isChatting s3 = false.
Proof.
  intros s r data text name Hready Hname Hr Hresp Htext s1 req resume Hrun s3.
  subst s3.
  destruct (handleChat_start s Hready) as (s1' & Hrun' & _).
  rewrite Hrun in Hrun'. injection Hrun' as _ _ ->.
  unfold chat_resume, chat_finally, chat_try, renderMessage,
    setActiveCharacter, focus_chatInput.
  rewrite Hr, Hresp.
  destruct text as [|c t]; [congruence |].
  destruct name as [|x name]; [congruence |].
  cbn -[lit]. destruct (chatInput_disabled s1) eqn:E; cbn -[lit];
    rewrite ?E; cbn -[lit]; repeat split.
Qed.

(** *** Doing the same thing twice *)

Lemma classList_add_present (cs l : list string) :
  (forall c, In c cs -> In c l) -> classList_add cs l = l.
Proof.
  unfold classList_add. revert l.
  induction cs as [|d cs IH]; intros l H; cbn [fold_left]; [reflexivity |].
  assert (Hd : classList_contains d l = true).
  { apply classList_contains_In. apply H. now left. }
  rewrite Hd. apply IH. intros c Hc. apply H. now right.
Qed.

Lemma classList_remove_absent (cs l : list string) :
  (forall c, In c cs -> ~ In c l) -> classList_remove cs l = l.
Proof.
  unfold classList_remove. induction l as [|a l IH]; intros H; cbn [filter];
    [reflexivity |].
  destruct (classList_contains a cs) eqn:E.
  - apply classList_contains_In in E. exfalso. apply (H a E). now left.
  - cbn [negb]. f_equal. apply IH. intros c Hc Hin. apply (H c Hc). now right.
Qed.

Lemma classList_remove_add (cs l : list string) :
  classList_remove cs (classList_add cs l) = classList_remove cs l.
Proof.
  enough (H : forall cs' l, (forall c, In c cs' -> In c cs) ->
            classList_remove cs (classList_add cs' l) = classList_remove cs l)
    by (apply H; auto).
  clear l. unfold classList_add.
  induction cs' as [|d cs' IH]; intros l H; cbn [fold_left]; [reflexivity |].
  assert (Hrest : forall c, In c cs' -> In c cs) by (intros c Hc; apply H; now right).
  destruct (classList_contains d l); [now apply IH |].
  rewrite (IH _ Hrest). unfold classList_remove. rewrite filter_app.
  cbn [filter].
  assert (Hd : classList_contains d cs = true).
  { apply classList_contains_In. apply H. now left. }
  rewrite Hd. cbn [negb]. apply app_nil_r.
Qed.

Lemma mark_icon_twice (name : option jsstring) (i : icon) :
  mark_icon name (mark_icon name i) = mark_icon name i.
Proof.
  unfold mark_icon at 1. rewrite mark_icon_textContent.
  destruct (JsString.includes (icon_textContent i) (to_text name)) eqn:E.
  - assert (Hh : highlighted (mark_icon name i))
      by now apply mark_icon_highlighted.
    destruct Hh as [Hall Hnone].
    rewrite (classList_add_present highlight_classes _ Hall).
    rewrite (classList_remove_absent plain_classes _ Hnone).
    now destruct (mark_icon name i).
  - assert (Hp : plain (mark_icon name i)) by now apply mark_icon_plain.
    destruct Hp as [Hall Hnone].
    rewrite (classList_remove_absent highlight_classes _ Hnone).
    rewrite (classList_add_present plain_classes _ Hall).
    now destruct (mark_icon name i).
Qed.

(** X22: selecting the character that is already selected does what
    the first selection did and no more: the page is the same as after
    one selection, so the class lists of the buttons do not grow. *)
Theorem selecting_twice_is_selecting_once :
  forall (name : option jsstring) (s : state),
    setActiveCharacter name (setActiveCharacter name s)
    = setActiveCharacter name s.
Proof.
  intros name s. unfold setActiveCharacter, focus_chatInput.
  destruct (chatInput_disabled s) eqn:E; destruct s; cbn in E; subst;
    cbv -[lit mark_icon map to_text app]; rewrite map_map; f_equal;
    apply map_ext; intros i; apply mark_icon_twice.
Qed.

Lemma clear_nav_twice (i : nav_item) :
  with_nav_classes
    (classList_remove active_nav_classes
       (nav_classList
          (with_nav_classes
             (classList_remove active_nav_classes (nav_classList i)) i)))
    (with_nav_classes (classList_remove active_nav_classes (nav_classList i)) i)
  = with_nav_classes (classList_remove active_nav_classes (nav_classList i)) i.
Proof.
  unfold with_nav_classes. cbn [nav_classList nav_onclick]. f_equal.
  apply classList_remove_absent. intros c Hc. rewrite classList_remove_In. tauto.
Qed.

Lemma clear_activate_first (attr : jsstring) (items : list nav_item) :
  let clear := fun item =>
    with_nav_classes
      (classList_remove active_nav_classes (nav_classList item)) item in
  map clear (activate_first attr (map clear items)) = map clear items.
Proof.
  intros clear. induction items as [|i items IH]; [reflexivity |].
  cbn [map activate_first].
  change (nav_onclick (clear i)) with (nav_onclick i).
  destruct (JsString.eqb (nav_onclick i) attr).
  - cbn [map]. f_equal.
    + unfold clear, with_nav_classes. cbn [nav_classList nav_onclick].
      f_equal. rewrite classList_remove_add.
      apply classList_remove_absent. intros c Hc.
      rewrite classList_remove_In. tauto.
    + clear IH. induction items as [|j items IH]; [reflexivity |].
      cbn [map]. f_equal; [apply clear_nav_twice | exact IH].
  - cbn [map]. f_equal; [apply clear_nav_twice | exact IH].
Qed.

(** X23: switching to the view that is already shown changes nothing:
    a second [switchView] with the same name leaves the panels and the
    nav items exactly as the first one left them. *)
Theorem switching_twice_is_switching_once :
  forall (viewName : view) (p : layout),
    switchView viewName (switchView viewName p) = switchView viewName p.
Proof.
  intros viewName p.
  set (clear := fun item =>
         with_nav_classes
           (classList_remove active_nav_classes (nav_classList item)) item).
  assert (Hnav : navItems (switchView viewName (switchView viewName p))
                 = navItems (switchView viewName p)).
  { assert (H1 : forall q, navItems (switchView viewName q)
                   = activate_first (onclick_of (view_key viewName))
                       (map clear (navItems q)))
      by (intros q; destruct viewName; reflexivity).
    rewrite (H1 (switchView viewName p)), (H1 p). f_equal.
    exact (clear_activate_first (onclick_of (view_key viewName)) (navItems p)). }
  assert (Hshown : forall l,
    classList_remove ["hidden"]
      (classList_add ["hidden"] (classList_remove ["hidden"] (classList_add ["hidden"] l)))
    = classList_remove ["hidden"] (classList_add ["hidden"] l)).
  { intros l. rewrite classList_remove_add.
    apply classList_remove_absent. intros c Hc.
    rewrite classList_remove_In. tauto. }
  assert (Hhidden : forall l,
    classList_add ["hidden"] (classList_add ["hidden"] l)
    = classList_add ["hidden"] l).
  { intros l. apply classList_add_present. intros c [<- | []].
    apply hidden_added. }
  destruct (switchView viewName (switchView viewName p)) as [a1 c1 b1 n1] eqn:E2.
  destruct (switchView viewName p) as [a0 c0 b0 n0] eqn:E1.
  cbn [navItems] in Hnav. subst n1.
  assert (Ha : a1 = a0 /\ c1 = c0 /\ b1 = b0).
  { assert (Hp1 : forall u, panel u (switchView viewName p)
                    = panel u {| analysisView := a0; chatView := c0;
                                 aboutView := b0; navItems := n0 |})
      by (intros u; now rewrite E1).
    assert (Hp2 : forall u, panel u (switchView viewName (switchView viewName p))
                    = panel u {| analysisView := a1; chatView := c1;
                                 aboutView := b1; navItems := n0 |}).
    { intros u. rewrite <- E1 in E2. now rewrite E2. }
    assert (Hsame : forall u,
      panel u (switchView viewName (switchView viewName p))
      = panel u (switchView viewName p)).
    { intros u. destruct viewName, u;
        cbn -[classList_add classList_remove];
        first [apply Hshown | apply Hhidden]. }
    pose proof (Hsame view_analysis) as S1.
    pose proof (Hsame view_chat) as S2.
    pose proof (Hsame view_about) as S3.
    rewrite Hp1, Hp2 in S1, S2, S3. cbn in S1, S2, S3. auto. }
  destruct Ha as (-> & -> & ->). reflexivity.
Qed.

(** *** Icons of the characters *)

Lemma startsWith_iff (s p : jsstring) :
  JsString.startsWith s p = true <-> exists v, s = p ++ v.
Proof.
  revert s. induction p as [|c p IH]; intros s.
  - destruct s; cbn; split; eauto.
  - destruct s as [|d s]; cbn.
    + split; [discriminate | intros [v H]; discriminate].
    + rewrite andb_true_iff, N.eqb_eq, IH. split.
      * intros [-> [v ->]]. eauto.
      * intros [v [= -> ->]]. eauto.
Qed.

Lemma includes_iff (s p : jsstring) :
  JsString.includes s p = true <-> exists u v, s = u ++ p ++ v.
Proof.
  induction s as [|d s IH]; cbn [JsString.includes];
    rewrite orb_true_iff, startsWith_iff.
  - split.
    + intros [[v H] | H]; [exists [], v; exact H | discriminate].
    + intros [u [v H]]. left. destruct u; [eauto |discriminate].
  - rewrite IH. split.
    + intros [[v H] | [u [v H]]]; [exists [], v; exact H |].
      exists (d :: u), v. now rewrite H.
    + intros [[|x u] [v H]]; [left; eauto |].
      right. injection H as _ H. eauto.
Qed.

Lemma includes_tail (s a b : jsstring) :
  JsString.includes s (a ++ b) = true -> JsString.includes s b = true.
Proof.
  rewrite !includes_iff. intros [u [v H]].
  exists (u ++ a), v. now rewrite H, <- !app_assoc.
Qed.

(** X24: the icon of a character is one of the seven of the code.  A
    name whose lowered form includes woman includes man as well, but it
    never gets the icon of the rule for man: the rules before it, that
    of woman among them, come first. *)
Theorem woman_is_not_taken_for_man :
  forall name : jsstring,
    In (getCharacterIcon name)
       [[55358; 56761]; [55357; 56693; 65039]; [9997; 65039]; [55357; 56436];
        [55357; 56425; 8205; 55358; 56753]; man_icon; [55358; 56785]]%N /\
    (JsString.includes (toLowerCase name) (lit "woman") = true ->
     JsString.includes (toLowerCase name) (lit "man") = true /\
     getCharacterIcon name <> man_icon).
Proof.
  intros name. split.
  - unfold getCharacterIcon. cbn zeta.
    repeat match goal with
           | |- context [if ?b then _ else _] => destruct b
           end; cbn; auto 10.
  - intros Hw. split.
    + apply (includes_tail _ (lit "wo") (lit "man")). exact Hw.
    + unfold getCharacterIcon. cbn zeta. rewrite Hw.
      rewrite !orb_true_r. cbn [orb].
      repeat match goal with
             | |- context [if ?b then _ else _] => destruct b
             end; discriminate.
Qed.

(** *** The chat opens only after an analysis *)

Lemma characters_resume_done (analysisData : list AnalysisPoint) (r : reply)
  (s : state) :
  snd (characters_resume analysisData r s) = Done.
Proof.
  unfold characters_resume.
  destruct (fetchAPI r) as [[| data] | message];
      [reflexivity | | reflexivity].
  now destruct (updateUI analysisData _ s) as [s' [[] | message]].
Qed.

Lemma analyze_is_not_characters (storyText : jsstring)
  (analysisData : list AnalysisPoint) :
  analyze_resume storyText <> characters_resume analysisData.
Proof.
  intros H.
  assert (Hs : snd (analyze_resume storyText analyze_reply fresh_page)
               = snd (characters_resume analysisData analyze_reply fresh_page))
    by now rewrite H.
  rewrite characters_resume_done in Hs.
  destruct (analyze_resume_analyzed storyText analyze_reply fresh_page
              sample_analysis eq_refl) as [_ Hstep].
  rewrite Hstep in Hs. discriminate.
Qed.

Lemma search_is_not_characters (analysisData : list AnalysisPoint) :
  search_resume <> characters_resume analysisData.
Proof.
  intros H.
  assert (Hs : analysisOutput (fst (search_resume network_down fresh_page))
               = analysisOutput
                   (fst (characters_resume analysisData network_down fresh_page)))
    by now rewrite H.
  discriminate.
Qed.

Lemma chat_is_not_characters (analysisData : list AnalysisPoint) :
  chat_resume <> characters_resume analysisData.
Proof.
  intros H.
  assert (Hs : analysisOutput (fst (chat_resume network_down fresh_page))
               = analysisOutput
                   (fst (characters_resume analysisData network_down fresh_page)))
    by now rewrite H.
  discriminate.
Qed.

Lemma remove_nth_In {A : Type} (l : list A) (n : nat) (x : A) :
  In x (remove_nth n l) -> In x l.
Proof.
  revert n. induction l as [|a l IH]; intros [|n] H; cbn in *; auto.
  destruct H; eauto.
Qed.

Lemma updateUI_chat_input (analysisData : list AnalysisPoint)
  (names : list jsstring) (s : state) :
  chatInput_disabled (fst (updateUI analysisData names s)) = false \/
  chatInput_disabled (fst (updateUI analysisData names s))
  = chatInput_disabled s.
Proof.
  unfold updateUI.
  destruct (render_summary analysisData _); [now left | now right].
Qed.

Lemma chat_resume_chat_input (r : reply) (s : state) :
  chatInput_disabled (fst (chat_resume r s)) = chatInput_disabled s.
Proof.
  open_chat_resume r s; congruence.
Qed.

Lemma search_resume_chat_input (r : reply) (s : state) :
  chatInput_disabled (fst (search_resume r s)) = chatInput_disabled s.
Proof.
  open_search_resume r; reflexivity.
Qed.

Lemma chat_needs_analysis_fire (e : event) (w : world) :
  consistent w -> chat_needs_analysis w -> chat_needs_analysis (fire e w).
Proof.
  intros Hw [Hopen Hwait].
  assert (Hsync : forall f,
    (forall s, chatInput_disabled (f s) = chatInput_disabled s) ->
    (forall s, lastAnalysisData (f s) = lastAnalysisData s) ->
    chat_needs_analysis (sync f w)).
  { intros f H1 H2. split; cbn [sync page pending]; rewrite ?H1, H2; auto. }
  assert (Hstart : forall a h,
    a <> Analyze ->
    chatInput_disabled (fst (h (page w))) = chatInput_disabled (page w) ->
    lastAnalysisData (fst (h (page w))) = lastAnalysisData (page w) ->
    chat_needs_analysis (start a h w)).
  { intros a h Ha H1 H2. unfold start.
    destruct (h (page w)) as [s t]. cbn [fst] in H1, H2.
    split; cbn [page pending]; rewrite ?H1, H2; [exact Hopen |].
    intros req analysisData Hin. apply in_app_iff in Hin.
    destruct Hin as [Hin | Hin]; [eauto |].
    destruct t; cbn in Hin; [contradiction |].
    destruct Hin as [Hin | []]. congruence. }
  destruct e; cbn [fire]; try (apply Hsync; reflexivity).
  - unfold start. destruct (handleAnalysis (page w)) as [s t] eqn:Hrun.
    destruct (Bool.bool_dec (isAnalyzing (page w)) false) as [Hb | Hb].
    + destruct (Nat.leb_spec 100
                  (List.length (JsString.trim (storyInput (page w)))))
        as [Hl | Hl].
      * assert (Hready : analysis_ready (page w)) by now split.
        destruct (handleAnalysis_ready _ Hready)
          as (s1 & Hrun1 & _ & _ & _ & Hnone & Hdis & _).
        rewrite Hrun in Hrun1. injection Hrun1 as -> ->.
        split; cbn [page pending suspended].
        -- rewrite Hdis. discriminate.
        -- intros req analysisData Hin. exfalso.
           apply in_app_iff in Hin. destruct Hin as [Hin | [Hin | []]].
           ++ destruct Hw as (_ & _ & Hflag).
              assert (Hbusy : busy Analyze (page w) = true).
              { apply Hflag. apply in_map_iff. eexists. split; [| exact Hin].
                reflexivity. }
              cbn in Hbusy. congruence.
           ++ injection Hin as _ Hin.
              exact (analyze_is_not_characters _ _ Hin).
      * assert (Hnot : ~ analysis_ready (page w))
          by (unfold analysis_ready; lia).
        destruct (handleAnalysis_not_ready _ Hnot) as (Hd & Hl' & _).
        rewrite Hrun in Hd, Hl'. cbn [fst snd] in Hd, Hl'. subst t.
        cbn [suspended]. rewrite app_nil_r. split; cbn [page pending].
        -- rewrite Hl'. intros H. apply Hopen. rewrite <- H.
           unfold handleAnalysis in Hrun. rewrite Hb in Hrun.
           apply Nat.ltb_lt in Hl. rewrite Hl in Hrun.
           now injection Hrun as <-.
        -- rewrite Hl'. exact Hwait.
    + assert (Hbusy : isAnalyzing (page w) = true)
        by (destruct (isAnalyzing (page w)); congruence).
      unfold handleAnalysis in Hrun. rewrite Hbusy in Hrun.
      injection Hrun as <- <-. cbn [suspended]. rewrite app_nil_r.
      now split.
  - apply Hstart; [discriminate | |].
    + open_findBookSummary (page w); reflexivity.
    + apply findBookSummary_lastAnalysisData.
  - apply Hstart; [discriminate | |].
    + open_handleChat (page w); reflexivity.
    + apply handleChat_lastAnalysisData.
  - apply Hstart; [discriminate | |].
    + unfold chatInput_keypress.
      destruct (JsString.eqb key (lit "Enter") && negb (isChatting (page w)));
        [open_handleChat (page w) |]; reflexivity.
    + unfold chatInput_keypress.
      destruct (JsString.eqb key (lit "Enter") && negb (isChatting (page w)));
        [apply handleChat_lastAnalysisData | reflexivity].
  - destruct (nth_error (characterSlots (page w)) index); [| now split].
    apply Hsync; intros s.
    + unfold setActiveCharacter, focus_chatInput.
      cbn -[lit mark_icon to_text].
      destruct (chatInput_disabled s) eqn:E; cbn -[lit mark_icon to_text];
        now rewrite ?E.
    + apply setActiveCharacter_lastAnalysisData.
  - apply Hsync; intros s.
    + unfold downloadAnalysisData. now destruct (lastAnalysisData s).
    + apply downloadAnalysisData_lastAnalysisData.
  - destruct (nth_error (pending w) index) as [[a [| req k]] |] eqn:Hnth;
      try (now split).
    assert (Hin : In (a, Await req k) (pending w))
      by (eapply nth_error_In; eassumption).
    assert (Hknown : known (a, Await req k)).
    { destruct Hw as (Hk & _). rewrite Forall_forall in Hk. now apply Hk. }
    assert (Hrest : forall x, In x (remove_nth index (pending w)) ->
                              In x (pending w))
      by (intros x; apply remove_nth_In).
    inversion Hknown; subst.
    + destruct (analyzed r) as [analysisData |] eqn:Hr.
      * destruct (analyze_resume_analyzed storyText r (page w) _ Hr)
          as [_ ->].
        split; cbn [page pending lastAnalysisData set_lastAnalysisData];
          intros; discriminate.
      * destruct (analyze_resume_not_analyzed storyText r (page w) Hr)
          as [message ->].
        unfold analysis_fails. cbn [suspended]. rewrite app_nil_r.
        split; cbn [page pending].
        -- cbn. discriminate.
        -- intros req' analysisData Hin'. cbn. eauto.
    + pose proof (characters_resume_done analysisData r (page w)) as Hd.
      pose proof (characters_resume_lastAnalysisData analysisData r (page w))
        as Hl.
      destruct (characters_resume analysisData r (page w)) as [s t].
      cbn [fst snd] in Hd, Hl. subst t. cbn [suspended]. rewrite app_nil_r.
      assert (Hsome : lastAnalysisData (page w) <> None) by eauto.
      split; cbn [page pending]; rewrite Hl; auto.
    + pose proof (search_resume_lastAnalysisData r (page w)) as Hl.
      pose proof (search_resume_chat_input r (page w)) as Hd.
      destruct (search_resume r (page w)) as [s t] eqn:Hrun.
      assert (Ht : t = Done) by (unfold search_resume in Hrun; congruence).
      cbn [fst] in Hl, Hd. subst t. cbn [suspended]. rewrite app_nil_r.
      split; cbn [page pending]; rewrite ?Hd, Hl; eauto.
    + pose proof (chat_resume_lastAnalysisData r (page w)) as Hl.
      pose proof (chat_resume_chat_input r (page w)) as Hd.
      destruct (chat_resume r (page w)) as [s t] eqn:Hrun.
      assert (Ht : t = Done) by (unfold chat_resume in Hrun; congruence).
      cbn [fst] in Hl, Hd. subst t. cbn [suspended]. rewrite app_nil_r.
      split; cbn [page pending]; rewrite ?Hd, Hl; eauto.
Qed.

(** X25: if the chat input is disabled when the page is loaded, then
    whatever happens afterwards it is enabled only while an analysis is
    retained: the chat never opens before an analysis has succeeded, and
    whenever it is open the export has a result to save. *)
Theorem chat_opens_only_over_an_analysis :
  forall (d : state) (es : list event) (today : jsstring),
    chatInput_disabled d = true ->
    let w := run es (page_load d) in
    chatInput_disabled (page w) = false ->
    exists analysisData,
      lastAnalysisData (page w) = Some analysisData /\
      downloads (downloadAnalysisData today (page w))
      = downloads (page w)
        ++ [{| file_date := today; file_data := analysisData |}].
Proof.
  intros d es today Hd w Hopen.
  assert (H : consistent w /\ chat_needs_analysis w).
  { subst w. clear Hopen. unfold run.
    assert (H0 : consistent (page_load d) /\ chat_needs_analysis (page_load d)).
    { split; [apply page_load_consistent |]. split; cbn.
      - congruence.
      - intros req analysisData []. }
    revert H0. generalize (page_load d).
    induction es as [|e es IH]; intros w0 [Hc Hn]; cbn [fold_left];
      [now split |].
    apply IH. split; [now apply fire_consistent |].
    now apply chat_needs_analysis_fire. }
  destruct H as [_ [Hneeds _]]. specialize (Hneeds Hopen).
  destruct (lastAnalysisData (page w)) as [analysisData |] eqn:E;
    [| congruence].
  exists analysisData. split; [reflexivity |].
  unfold downloadAnalysisData. now rewrite E.
Qed.

(** *** The Enter key *)

(** X26: pressing Enter in the chat input is clicking the send button,
    in every state of the page: the listener's own test of the chat flag
    lets through nothing that [handleChat] would not refuse itself.  Any
    other key does nothing. *)
Theorem enter_key_is_the_send_button :
  forall (key : jsstring) (s : state),
    (key = lit "Enter" -> chatInput_keypress key s = handleChat s) /\
    (key <> lit "Enter" -> chatInput_keypress key s = (s, Done)).
Proof.
  intros key s. unfold chatInput_keypress. split; intros Hkey.
  - subst key.
    assert (He : JsString.eqb (lit "Enter") (lit "Enter") = true)
      by now apply JsString_eqb_eq.
    rewrite He. cbn [andb].
    destruct (isChatting s) eqn:E; cbn [negb]; [| reflexivity].
    unfold handleChat. now rewrite E.
  - destruct (JsString.eqb key (lit "Enter")) eqn:He; [| reflexivity].
    apply JsString_eqb_eq in He. contradiction.
Qed.

End Properties.

(** ** The properties on the sample data *)

#[local] Existing Instance v8.

(** The page after the sample analysis has succeeded. *)
Example sample_run :
  let final := fst (feed [analyze_reply; characters_reply]
                      (handleAnalysis ready_page)) in
  map icon_name (characterSlots final) = [lit "A"; lit "B"] /\
  activeCharacter final = Some (lit "A") /\
  option_map summary_avgTension (analysisOutputSummary final)
  = Some (number_of_Z 40) /\
  chatInput_disabled final = false /\ chatInput_focused final = false /\
  isAnalyzing final = false.
Proof. vm_compute. repeat split. Qed.

Lemma metric_scores_are_banded_witness :
  analysis_ready ready_page /\
  analyzed analyze_reply = Some sample_analysis /\
  extracted characters_reply = Some [lit "A"; lit "B"] /\
  exists cards,
    analysisOutput (fst (feed [analyze_reply; characters_reply]
                           (handleAnalysis ready_page)))
      = AnalysisCards cards /\
    List.length cards = 7%nat /\
    forall n item,
      nth_error sample_analysis n = Some item ->
      exists c,
        nth_error cards n = Some c /\
        map (fun row => (row_label row, row_score row)) (card_metrics c) =
          [(lit "Tension", TensionScore item);
           (lit "Pacing", PacingScore item);
           (lit "Agency", AgencyScore item);
           (lit "Resonance", ResonanceScore item)] /\
        (forall row, In row (card_metrics c) ->
                     metric_band (row_color row) (row_score row)) /\
        border_band (card_border c) (TensionScore item).
Proof.
  assert (H1 : analysis_ready ready_page)
    by (split; [reflexivity | vm_compute; lia]).
  assert (H2 : analyzed analyze_reply = Some sample_analysis) by reflexivity.
  assert (H3 : extracted characters_reply = Some [lit "A"; lit "B"])
    by reflexivity.
  exact (conj H1 (conj H2 (conj H3
    (metric_scores_are_banded ready_page analyze_reply characters_reply
       sample_analysis [lit "A"; lit "B"] H1 H2 H3)))).
Defined.

(** C1, as the claim states it, fails: in the sample analysis the Pacing
    score of the first card is 75, above 70, and it is shown amber. *)
Lemma pacing_75_is_amber :
  exists cards c row,
    analysisOutput analysis_done = AnalysisCards cards /\
    nth_error cards 0 = Some c /\
    nth_error (card_metrics c) 1 = Some row /\
    row_label row = lit "Pacing" /\
    row_score row = 75%Z /\
    (70 < row_score row)%Z /\
    row_color row = text_amber_600 /\
    row_color row <> text_red_600.
Proof.
  do 3 eexists. vm_compute.
  repeat split; try reflexivity; discriminate.
Qed.

Lemma short_story_witness :
  (List.length (JsString.trim (storyInput fresh_page)) < 100)%nat /\
  snd (handleAnalysis fresh_page) = Done /\
  (isAnalyzing fresh_page = false ->
   fst (handleAnalysis fresh_page) =
     set_statusMessage
       {| content := [Txt validation_message];
          classList := classList_add [text_red_600]
                         (classList (statusMessage fresh_page)) |}
       fresh_page) /\
  (isAnalyzing fresh_page = true -> fst (handleAnalysis fresh_page) = fresh_page).
Proof.
  assert (H : (List.length (JsString.trim (storyInput fresh_page)) < 100)%nat)
    by (vm_compute; lia).
  exact (conj H (short_story_is_rejected fresh_page H)).
Defined.

(** C2, as the claim states it, fails: with an analysis in flight a
    short story gets no validation message; the invocation returns at
    once and the status line keeps what it showed. *)
Lemma busy_analysis_is_silent :
  (List.length (JsString.trim (storyInput short_story_while_analyzing)) < 100)%nat /\
  handleAnalysis short_story_while_analyzing
    = (short_story_while_analyzing, Done) /\
  content (statusMessage (fst (handleAnalysis short_story_while_analyzing)))
    = [Txt (lit "Analyzing story across 4 dimensions... Please wait.")] /\
  content (statusMessage (fst (handleAnalysis short_story_while_analyzing)))
    <> [Txt validation_message].
Proof.
  vm_compute. repeat split; try lia. discriminate.
Qed.

Lemma null_payload_witness :
  fetchAPI (Replied 200 (analysis_body JNull)) = Return (analysis_body JNull) /\
  analysis (analysis_body JNull) = Parsed JNull /\
  snd (analyze_resume story150 (Replied 200 (analysis_body JNull))
         analysis_in_flight) = Done /\
  analysisOutput
    (fst (analyze_resume story150 (Replied 200 (analysis_body JNull))
            analysis_in_flight))
    = AnalysisError (fault_message (ReadOfNull (lit "length"))) /\
  chatInput_disabled
    (fst (analyze_resume story150 (Replied 200 (analysis_body JNull))
            analysis_in_flight)) = true /\
  sendChatButton_disabled
    (fst (analyze_resume story150 (Replied 200 (analysis_body JNull))
            analysis_in_flight)) = true.
Proof.
  assert (H1 : fetchAPI (Replied 200 (analysis_body JNull))
               = Return (analysis_body JNull)) by reflexivity.
  assert (H2 : analysis (analysis_body JNull) = Parsed JNull) by reflexivity.
  exact (conj H1 (conj H2
    (null_payload_raises_type_error story150
       (Replied 200 (analysis_body JNull)) (analysis_body JNull)
       analysis_in_flight H1 H2))).
Defined.

(** What the user reads on V8 after a null payload, and that it is not
    the structure error, whatever count that would name. *)
Example null_payload_on_v8 :
  analysisOutput
    (fst (analyze_resume story150 (Replied 200 (analysis_body JNull))
            analysis_in_flight))
    = AnalysisError (lit "Cannot read properties of null (reading 'length')") /\
  forall got,
    lit "Cannot read properties of null (reading 'length')"
    <> structure_message got.
Proof.
  split; [reflexivity |]. intros got H. vm_compute in H. discriminate.
Qed.

(** The structure error on an array of six items. *)
Example six_items_are_refused :
  analysisOutput
    (fst (analyze_resume story150
            (Replied 200 (analysis_body (JArray (firstn 6 sample_analysis))))
            analysis_in_flight))
    = AnalysisError (lit "Analysis structure error: Expected 7 items, got 6.").
Proof. reflexivity. Qed.

Lemma last_analysis_is_retained_witness :
  lastAnalysisData analysis_done = Some sample_analysis.
Proof.
  assert (H1 : analysis_ready ready_page)
    by (split; [reflexivity | vm_compute; lia]).
  exact (proj1 (last_analysis_is_retained fresh_page []) ready_page
           analyze_reply characters_reply sample_analysis
           [lit "A"; lit "B"] H1 eq_refl eq_refl).
Defined.

(** C4, as the claim states it, fails: the result of the sample analysis
    is retained, a second analysis then fails, and with that the
    retained result is gone although no newer successful analysis has
    replaced it; the export is refused and saves nothing. *)
Lemma failed_analysis_drops_the_result :
  lastAnalysisData analysis_done = Some sample_analysis /\
  lastAnalysisData analysis_failed_after_success = None /\
  alerts (downloadAnalysisData (lit "2026-01-01") analysis_failed_after_success)
    = [export_refused] /\
  downloads (downloadAnalysisData (lit "2026-01-01") analysis_failed_after_success)
    = [].
Proof. vm_compute. repeat split. Qed.

Lemma average_tension_witness :
  analysis_ready ready_page /\
  analyzed analyze_reply = Some sample_analysis /\
  extracted characters_reply = Some [lit "A"; lit "B"] /\
  (forall item, In item sample_analysis ->
                (0 <= TensionScore item <= 100)%Z) /\
  exists panel avg,
    analysisOutputSummary
      (fst (feed [analyze_reply; characters_reply] (handleAnalysis ready_page)))
      = Some panel /\
    List.length sample_analysis = 7%nat /\
    summary_avgTension panel = number_of_Z avg /\
    avg = round_half_up
            (inject_Z (total (map TensionScore sample_analysis)) / 7) /\
    (Qabs (inject_Z avg
           - inject_Z (total (map TensionScore sample_analysis)) / 7)
     < 1 # 2)%Q /\
    (map TensionScore sample_analysis = [10; 20; 30; 40; 50; 60; 70]%Z ->
     avg = 40%Z).
Proof.
  assert (H1 : analysis_ready ready_page)
    by (split; [reflexivity | vm_compute; lia]).
  assert (H2 : analyzed analyze_reply = Some sample_analysis) by reflexivity.
  assert (H3 : extracted characters_reply = Some [lit "A"; lit "B"])
    by reflexivity.
  assert (H4 : forall item, In item sample_analysis ->
                            (0 <= TensionScore item <= 100)%Z).
  { intros item Hin. cbn in Hin.
    repeat (destruct Hin as [<- | Hin]; [cbn; lia |]). destruct Hin. }
  exact (conj H1 (conj H2 (conj H3 (conj H4
    (average_tension_is_rounded_mean ready_page analyze_reply characters_reply
       sample_analysis [lit "A"; lit "B"] H1 H2 H3 H4))))).
Defined.

(** C5, as the claim states it, fails: the sum and the quotient are
    those of binary64.  For the Tension scores 2^53, 0, 3, 3, 3, 3, 3 the
    sum loses the first 3, and the panel reports 1286742750677288 where
    the mean, 1286742750677286.71..., rounds to 1286742750677287: it is
    off the mean by more than 1. *)
Lemma large_scores_are_not_averaged :
  analysis_ready ready_page /\
  analyzed large_reply = Some large_analysis /\
  extracted characters_reply = Some [lit "A"; lit "B"] /\
  map TensionScore large_analysis
  = [9007199254740992; 0; 3; 3; 3; 3; 3]%Z /\
  round_half_up (inject_Z (total (map TensionScore large_analysis)) / 7)
  = 1286742750677287%Z /\
  exists panel,
    analysisOutputSummary
      (fst (feed [large_reply; characters_reply] (handleAnalysis ready_page)))
    = Some panel /\
    summary_avgTension panel = number_of_Z 1286742750677288 /\
    number_of_Z 1286742750677288 <> number_of_Z 1286742750677287 /\
    (1 < Qabs (inject_Z 1286742750677288
              - inject_Z (total (map TensionScore large_analysis)) / 7))%Q.
Proof.
  split; [split; [reflexivity | vm_compute; lia] |].
  split; [reflexivity |]. split; [reflexivity |]. split; [reflexivity |].
  split; [reflexivity |].
  eexists. split; [reflexivity |]. split; [vm_compute; reflexivity |].
  split; [vm_compute; discriminate | vm_compute; reflexivity].
Qed.

(** [Math.round] takes halves upwards, keeps the sign of a zero, and
    leaves what is not finite. *)
Example Math_round_examples :
  Math_round (number_div (number_of_Z 7) (number_of_Z 2)) = number_of_Z 4 /\
  Math_round (number_div (number_of_Z (-7)) (number_of_Z 2))
  = number_of_Z (-3) /\
  Math_round (number_div (number_of_Z (-1)) (number_of_Z 2)) = S754_zero true /\
  Math_round (number_div (number_of_Z 24) (number_of_Z 7)) = number_of_Z 3 /\
  Math_round (number_div (number_of_Z 25) (number_of_Z 7)) = number_of_Z 4 /\
  Math_round (number_div (number_of_Z 1) (number_of_Z 0))
  = S754_infinity false.
Proof. vm_compute. repeat split. Qed.

(** The arithmetic goes wrong on scores between 0 and 100 as well, when
    they have a fraction: six times 40.5 and once the number just below
    40.5 add up, in binary64, to 283.5, so that the average is reported
    as 41 although the mean is below 40.5. *)
Example average_of_fractional_scores :
  let half := number_div (number_of_Z 81) (number_of_Z 2) in
  let below := S754_finite false 5699868278390783 (-47) in
  half = S754_finite false 5699868278390784 (-47) /\
  average [half; half; half; half; half; half; below]
  = Return (number_of_Z 41).
Proof. vm_compute. repeat split. Qed.



(** The missing-story and missing-character messages do appear. *)
Example chat_messages_for_story_and_character :
  content (chatStatusMessage
             (fst (handleChat
                     (set_chatInput (lit "Hello")
                        (set_storyInput [] analysis_done)))))
    = [Txt no_story_message] /\
  content (chatStatusMessage
             (fst (handleChat
                     (set_chatInput (lit "Hello")
                        (set_activeCharacter None analysis_done)))))
    = [Txt no_character_message].
Proof. vm_compute. repeat split. Qed.

Lemma setActiveCharacter_witness :
  List.length (chatHistory (setActiveCharacter (Some (lit "B")) analysis_done))
    = 0%nat /\
  activeCharacter (setActiveCharacter (Some (lit "B")) analysis_done)
    = Some (lit "B") /\
  chatInput_focused (setActiveCharacter (Some (lit "B")) analysis_done) = true.
Proof.
  pose proof (setActiveCharacter_clears_and_highlights (lit "B") analysis_done)
    as (H1 & H2 & _ & _ & _ & H3 & _).
  exact (conj H1 (conj H2 (H3 eq_refl))).
Defined.

(** C7, as the claim states it, fails: after the second analysis has
    failed the chat input is disabled; choosing the character B then
    clears the transcript and highlights B, but the chat input does not
    get the focus.  Nor did it when the sample analysis itself selected
    A, the input being still disabled at that point. *)
Lemma disabled_input_gets_no_focus :
  chatInput_disabled analysis_failed_after_success = true /\
  map icon_name (characterSlots analysis_failed_after_success)
    = [lit "A"; lit "B"] /\
  activeCharacter
    (setActiveCharacter (Some (lit "B")) analysis_failed_after_success)
    = Some (lit "B") /\
  chatInput_focused
    (setActiveCharacter (Some (lit "B")) analysis_failed_after_success)
    = false /\
  activeCharacter analysis_done = Some (lit "A") /\
  chatInput_focused analysis_done = false.
Proof. vm_compute. repeat split. Qed.


(** The selector of the spec's scenario: two buttons, A and B, which
    show the names as they are; A is the active character and its button
    is the one highlighted. *)
Example selector_of_A_and_B :
  map icon_name (characterSlots analysis_done) = [lit "A"; lit "B"] /\
  map (fun i => existsb (String.eqb "bg-blue-600") (icon_classList i))
    (characterSlots analysis_done) = [true; false].
Proof. vm_compute. repeat split. Qed.

(** A name with a character reference in it: the button shows the
    ampersand, its text does not include the name as the reply has it,
    and so the button of the active character is not highlighted. *)
Example name_with_a_character_reference :
  let s := fst (feed [analyze_reply;
                      Replied 200 (characters_body [lit "Tom &amp; Jerry"])]
                  (handleAnalysis ready_page)) in
  activeCharacter s = Some (lit "Tom &amp; Jerry") /\
  map icon_onclick (characterSlots s) = [lit "Tom &amp; Jerry"] /\
  map icon_name (characterSlots s) = [lit "Tom & Jerry"] /\
  map (fun i => existsb (String.eqb "bg-blue-600") (icon_classList i))
    (characterSlots s) = [false].
Proof. vm_compute. repeat split. Qed.

(** On a page without the selector the buttons are not made and the
    active character is left as it was. *)
Example page_without_the_selector :
  let s := fst (feed [analyze_reply; characters_reply]
                  (handleAnalysis
                     (mkState false false false [] None None
                        [0; 0; 0; 0; 0; 0; 0]%Z story150 empty_element false
                        (AnalysisCards []) None [] false empty_element
                        ["hidden"] [] [] [] true false true empty_element []
                        false [] []))) in
  characterSlots s = [] /\ activeCharacter s = None /\
  chatInput_disabled s = false.
Proof. vm_compute. repeat split. Qed.

(** The icon follows the first rule that matches the lowered name. *)
Example character_icons :
  getCharacterIcon (lit "Count Dracula") = [55358; 56761]%N /\
  getCharacterIcon (lit "Old Woman") = [55357; 56436]%N /\
  getCharacterIcon (lit "A Woman") = [55357; 56425; 8205; 55358; 56753]%N /\
  getCharacterIcon (lit "Mr. Holmes") = [55358; 56788]%N /\
  getCharacterIcon (lit "Mina") = [55358; 56785]%N.
Proof. repeat split. Qed.

(** A name that is part of another: choosing Ann highlights Anna too. *)
Example substring_names_are_highlighted_together :
  let s := fst (feed [analyze_reply;
                      Replied 200 (characters_body [lit "Anna"; lit "Ann"])]
                  (handleAnalysis ready_page)) in
  let s' := setActiveCharacter (Some (lit "Ann")) s in
  map (fun i => existsb (String.eqb "bg-blue-600") (icon_classList i))
    (characterSlots s') = [true; true].
Proof. reflexivity. Qed.


(** The spec's scenario: Mina is active, the transcript is empty, Hello
    is sent and answered. *)
Example hello_traveler :
  let s := set_chatInput (lit "Hello")
             (setActiveCharacter (Some (lit "Mina")) analysis_done) in
  chatHistory (fst (feed [Replied 200 (response_body (lit "Hello traveler"))]
                      (handleChat s)))
  = [user_says (lit "Hello"); model_says (lit "Hello traveler")].
Proof. reflexivity. Qed.


Lemma busy_flag_witness :
  passes_checks Analyze ready_page /\
  (exists s1 req resume,
     handler Analyze ready_page = (s1, Await req resume) /\
     busy Analyze s1 = true) /\
  busy Analyze (fst (feed [analyze_reply] (handler Analyze ready_page)))
  = true /\
  snd (feed [analyze_reply; network_down] (handler Analyze ready_page))
  = Done /\
  busy Analyze
    (fst (feed [analyze_reply; network_down] (handler Analyze ready_page)))
  = false.
Proof.
  assert (H : passes_checks Analyze ready_page)
    by (split; [reflexivity | vm_compute; lia]).
  destruct (busy_flag_set_while_in_flight Analyze ready_page H)
    as (Hstart & Hfeed & Hdone & _).
  split; [exact H |]. split; [exact Hstart |]. split.
  - eapply (proj1 (Hfeed [analyze_reply])). reflexivity.
  - split; [apply Hdone |].
    apply (proj2 (Hfeed [analyze_reply; network_down])). apply Hdone.
Defined.

(** The same for a search and for a chat message. *)
Example search_and_chat_flags :
  passes_checks Search search_page /\
  isSearching (fst (findBookSummary search_page)) = true /\
  isSearching (fst (feed [network_down] (findBookSummary search_page)))
  = false /\
  passes_checks Chat hello_typed /\
  isChatting (fst (handleChat hello_typed)) = true /\
  isChatting (fst (feed [chat_reply] (handleChat hello_typed))) = false.
Proof.
  split; [split; [reflexivity | vm_compute; lia] |].
  split; [reflexivity |]. split; [reflexivity |].
  split; [vm_compute; repeat split; discriminate |].
  split; reflexivity.
Qed.

(** While the sample analysis waits for its reply the flag is set; a
    second invocation is then a no-op, and the flag is cleared when the
    reply arrives, here with a failure. *)
Example analysis_flag_in_the_event_loop :
  let w1 := run [Edit_storyInput story150; Call_handleAnalysis]
              (page_load fresh_page) in
  let w2 := fire Call_handleAnalysis w1 in
  let w3 := fire (Reply_arrives 0 network_down) w2 in
  isAnalyzing (page w1) = true /\ List.length (pending w1) = 1%nat /\
  page w2 = page w1 /\ List.length (pending w2) = 1%nat /\
  isAnalyzing (page w3) = false /\ pending w3 = [].
Proof. vm_compute. repeat split. Qed.


(** *** The further properties on the sample data *)

Lemma switchView_marks_one_nav_item_witness :
  exists i',
    nth_error (navItems sample_layout) 1
      = Some {| nav_onclick := onclick_of (lit "chat");
                nav_classList := ["nav-item"] |} /\
    nth_error (navItems (switchView view_chat sample_layout)) 1 = Some i' /\
    nav_onclick i' = onclick_of (lit "chat") /\
    (forall c, In c active_nav_classes ->
       (In c (nav_classList i') <->
        first_match (onclick_of (view_key view_chat))
          (navItems sample_layout) 1)).
Proof.
  assert (H : nth_error (navItems sample_layout) 1
              = Some {| nav_onclick := onclick_of (lit "chat");
                        nav_classList := ["nav-item"] |}) by reflexivity.
  destruct (switchView_marks_one_nav_item view_chat sample_layout 1 _ H)
    as (i' & H1 & H2 & H3 & _).
  exact (ex_intro _ i' (conj H (conj H1 (conj H2 H3)))).
Defined.

(** Switching to the chat on the sample layout. *)
Example switchView_on_the_sample_layout :
  switchView view_chat sample_layout =
    {| analysisView := ["view"; "hidden"];
       chatView := ["view"];
       aboutView := ["view"; "hidden"];
       navItems :=
         [{| nav_onclick := onclick_of (lit "analysis");
             nav_classList := ["nav-item"] |};
          {| nav_onclick := onclick_of (lit "chat");
             nav_classList := ["nav-item"; "active-nav-item"; "bg-slate-700"] |};
          {| nav_onclick := onclick_of (lit "about");
             nav_classList := ["nav-item"] |}] |}.
Proof. reflexivity. Qed.

Lemma short_query_witness :
  isSearching short_query_page = false /\
  (List.length (bookTitleInput short_query_page) < 5)%nat /\
  findBookSummary short_query_page =
    (set_searchStatusMessage
       {| content := [Txt query_refused];
          classList := classList_add [text_red_600]
                         (classList (searchStatusMessage short_query_page)) |}
       short_query_page,
     Done).
Proof.
  assert (H1 : isSearching short_query_page = false) by reflexivity.
  assert (H2 : (List.length (bookTitleInput short_query_page) < 5)%nat)
    by (vm_compute; lia).
  exact (conj H1 (conj H2
    (short_query_is_refused short_query_page H1 (or_intror (or_introl H2))))).
Defined.


Lemma sources_witness :
  fetchAPI search_reply = Return excerpt_body /\
  excerpt excerpt_body = Some excerpt_text /\
  sources excerpt_body = Some sample_sources /\
  links (content (searchStatusMessage (fst (search_resume search_reply
                                              search_page))))
    = map (fun a => (uri a, title a)) sample_sources.
Proof.
  assert (H1 : fetchAPI search_reply = Return excerpt_body) by reflexivity.
  assert (H2 : excerpt excerpt_body = Some excerpt_text) by reflexivity.
  assert (H3 : excerpt_text <> []) by discriminate.
  assert (H4 : sources excerpt_body = Some sample_sources) by reflexivity.
  assert (H5 : sample_sources <> []) by discriminate.
  destruct (sources_are_listed_in_order search_reply excerpt_body excerpt_text
              search_page H1 H2 H3) as [Hlisted _].
  destruct (Hlisted sample_sources H4 H5) as [Hlinks _].
  exact (conj H1 (conj H2 (conj H4 Hlinks))).
Defined.

Lemma found_excerpt_witness :
  isSearching search_page = false /\
  (5 <= List.length (JsString.trim (bookTitleInput search_page)))%nat /\
  isAnalyzing search_page = false /\
  (100 <= List.length (normalize_newlines (JsString.trim excerpt_text)))%nat /\
  storyInput
    (copySummaryToInput (fst (feed [search_reply] (findBookSummary search_page))))
    = normalize_newlines (JsString.trim excerpt_text) /\
  exists s4,
    handleAnalysis
      (copySummaryToInput
         (fst (feed [search_reply] (findBookSummary search_page))))
    = (s4, Await {| endpoint := lit "/analyze";
                    sent := TextPayload
                              (normalize_newlines (JsString.trim excerpt_text)) |}
             (analyze_resume (normalize_newlines (JsString.trim excerpt_text)))).
Proof.
  assert (H1 : isSearching search_page = false) by reflexivity.
  assert (H2 : (5 <= List.length (JsString.trim (bookTitleInput search_page)))%nat)
    by (vm_compute; lia).
  assert (H3 : isAnalyzing search_page = false) by reflexivity.
  assert (H4 : (100 <= List.length
                         (normalize_newlines (JsString.trim excerpt_text)))%nat)
    by (vm_compute; lia).
  destruct (found_excerpt_is_analyzed search_page search_reply excerpt_body
              excerpt_text H1 H2 H3 eq_refl eq_refl H4) as (Ha & _ & Hb).
  exact (conj H1 (conj H2 (conj H3 (conj H4 (conj Ha Hb))))).
Defined.

(** An excerpt of 100 code units with a CR LF pair in it is held by the
    text area with 99, and the analysis then refuses it as too short. *)
Example excerpt_shortened_by_the_text_area :
  let text := repeat 98%N 49 ++ [13; 10]%N ++ repeat 98%N 49 in
  let reply := Replied 200
                 {| error := None; analysis := Unparsable [];
                    characters := None; excerpt := Some text;
                    sources := None; response := None |} in
  let copied := copySummaryToInput
                  (fst (feed [reply] (findBookSummary search_page))) in
  List.length (JsString.trim text) = 100%nat /\
  List.length (storyInput copied) = 99%nat /\
  snd (handleAnalysis copied) = Done /\
  content (statusMessage (fst (handleAnalysis copied)))
  = [Txt validation_message].
Proof. vm_compute. repeat split. Qed.

Lemma failed_extraction_witness :
  analysis_ready ready_page /\
  analyzed analyze_reply = Some sample_analysis /\
  fetchAPI network_down = Throw (lit "Failed to fetch") /\
  content (statusMessage
             (fst (feed [analyze_reply; network_down]
                     (handleAnalysis ready_page))))
    = [Txt analysis_failed] /\
  chatInput_disabled
    (fst (feed [analyze_reply; network_down] (handleAnalysis ready_page)))
    = true /\
  lastAnalysisData
    (fst (feed [analyze_reply; network_down] (handleAnalysis ready_page)))
    = Some sample_analysis.
Proof.
  assert (H1 : analysis_ready ready_page)
    by (split; [reflexivity | vm_compute; lia]).
  assert (H2 : analyzed analyze_reply = Some sample_analysis) by reflexivity.
  assert (H3 : fetchAPI network_down = Throw (lit "Failed to fetch"))
    by reflexivity.
  destruct (failed_extraction_keeps_the_analysis ready_page analyze_reply
              network_down sample_analysis (lit "Failed to fetch")
              (lit "2026-01-01") H1 H2 H3)
    as (_ & Ha & _ & Hb & _ & _ & _ & _ & _ & _ & Hc & _).
  exact (conj H1 (conj H2 (conj H3 (conj Ha (conj Hb Hc))))).
Defined.

Lemma server_error_witness :
  (299 < 500)%N /\
  (exists shown,
     fetchAPI (Replied 500 empty_body) = Throw shown /\
     shown = lit "Server error: " ++ JsString.of_N 500) /\
  fetchAPI (Replied 500 JsonNull)
  = Throw (fault_message (ReadOfNull (lit "error"))) /\
  forall s,
    content (searchStatusMessage
               (fst (search_resume (Replied 500 empty_body) s)))
    = [Txt (lit "Search failed: Server error: 500")].
Proof.
  assert (H : (299 < 500)%N) by reflexivity.
  destruct (server_errors_are_shown 500 (or_intror H))
    as (Hobject & Hnull & Hcatch & _).
  destruct (Hobject empty_body) as (shown & Hthrow & _ & Hshown).
  destruct (Hcatch (Replied 500 empty_body) _ eq_refl)
    as (_ & _ & Hsearch & _).
  exact (conj H
    (conj (ex_intro _ shown (conj Hthrow (Hshown (or_introl eq_refl))))
       (conj Hnull (fun s => proj1 (Hsearch s))))).
Defined.

(** A reply that is null: with status 200 the handler fails on its
    first read of the data, with status 500 [fetchAPI] fails on reading
    the error; either way the message is the engine's. *)
Example null_replies :
  content (chatStatusMessage
             (fst (chat_resume (Replied 200 JsonNull) hello_typed)))
  = [Txt (lit "Chat failed: Cannot read properties of null (reading 'response')")] /\
  content (searchStatusMessage
             (fst (search_resume (Replied 500 JsonNull) search_page)))
  = [Txt (lit "Search failed: Cannot read properties of null (reading 'error')")] /\
  analyze_resume story150 (Replied 200 JsonNull) analysis_in_flight
  = analysis_fails
      (lit "Cannot read properties of null (reading 'analysis')")
      analysis_in_flight.
Proof. vm_compute. repeat split. Qed.

Lemma story_sent_witness :
  analysis_ready ready_page /\
  exists s1 req1 resume1 s2 req2 resume2,
    handleAnalysis ready_page = (s1, Await req1 resume1) /\
    req1 = {| endpoint := lit "/analyze";
              sent := TextPayload (JsString.trim (storyInput ready_page)) |} /\
    resume1 analyze_reply (set_storyInput (lit "another story") s1)
      = (s2, Await req2 resume2) /\
    req2 = {| endpoint := lit "/extract_characters";
              sent := TextPayload (JsString.trim (storyInput ready_page)) |}.
Proof.
  assert (H1 : analysis_ready ready_page)
    by (split; [reflexivity | vm_compute; lia]).
  destruct (analysis_sends_the_story_it_started_with ready_page H1)
    as (s1 & req1 & resume1 & Hrun & Hreq & Hnext).
  destruct (Hnext analyze_reply (set_storyInput (lit "another story") s1)
              sample_analysis eq_refl)
    as (s2 & req2 & resume2 & Hrun2 & Hreq2 & _).
  exact (conj H1
    (ex_intro _ s1 (ex_intro _ req1 (ex_intro _ resume1
       (ex_intro _ s2 (ex_intro _ req2 (ex_intro _ resume2
          (conj Hrun (conj Hreq (conj Hrun2 Hreq2)))))))))).
Defined.

Lemma chart_summary_cards_witness :
  analysis_ready ready_page /\
  analyzed analyze_reply = Some sample_analysis /\
  extracted characters_reply = Some [lit "A"; lit "B"] /\
  chartData analysis_done = map TensionScore sample_analysis /\
  exists cards,
    analysisOutput analysis_done = AnalysisCards cards /\
    List.length cards = 7%nat.
Proof.
  assert (H1 : analysis_ready ready_page)
    by (split; [reflexivity | vm_compute; lia]).
  assert (H2 : analyzed analyze_reply = Some sample_analysis) by reflexivity.
  assert (H3 : extracted characters_reply = Some [lit "A"; lit "B"])
    by reflexivity.
  destruct (analysis_fills_chart_summary_and_cards ready_page analyze_reply
              characters_reply sample_analysis [lit "A"; lit "B"] H1 H2 H3)
    as (Ha & _ & cards & Hb & Hc & _).
  exact (conj H1 (conj H2 (conj H3 (conj Ha
    (ex_intro _ cards (conj Hb Hc)))))).
Defined.

Lemma analysis_texts_witness :
  analysis_ready ready_page /\
  analyzed analyze_reply = Some sample_analysis /\
  extracted characters_reply = Some [lit "A"; lit "B"] /\
  exists panel first last,
    analysisOutputSummary analysis_done = Some panel /\
    nth_error sample_analysis 0 = Some first /\
    nth_error sample_analysis 6 = Some last /\
    summary_conflict panel = keyEvent first /\
    summary_climax panel = keyEvent last /\
    summary_mainCharacter panel = characterFocus first.
Proof.
  assert (H1 : analysis_ready ready_page)
    by (split; [reflexivity | vm_compute; lia]).
  assert (H2 : analyzed analyze_reply = Some sample_analysis) by reflexivity.
  assert (H3 : extracted characters_reply = Some [lit "A"; lit "B"])
    by reflexivity.
  destruct (analysis_texts_are_interpolated ready_page analyze_reply
              characters_reply sample_analysis [lit "A"; lit "B"] H1 H2 H3)
    as (Ha & _).
  exact (conj H1 (conj H2 (conj H3 Ha))).
Defined.

Lemma chat_reset_witness :
  analysis_ready ready_page /\
  analyzed analyze_reply = Some sample_analysis /\
  extracted characters_reply = Some [lit "A"; lit "B"] /\
  chatHistory analysis_done = [] /\
  chatOutput analysis_done = [Notice chat_mode_notice] /\
  chatInput analysis_done = [] /\
  chatInput_disabled analysis_done = false.
Proof.
  assert (H1 : analysis_ready ready_page)
    by (split; [reflexivity | vm_compute; lia]).
  assert (H2 : analyzed analyze_reply = Some sample_analysis) by reflexivity.
  assert (H3 : extracted characters_reply = Some [lit "A"; lit "B"])
    by reflexivity.
  destruct (analysis_resets_the_chat ready_page analyze_reply
              characters_reply sample_analysis [lit "A"; lit "B"] H1 H2 H3)
    as (Ha & Hb & Hc & Hd & _).
  exact (conj H1 (conj H2 (conj H3 (conj Ha (conj Hb (conj Hc Hd)))))).
Defined.

Lemma click_witness :
  analysis_ready ready_page /\
  characterSlots_found ready_page = true /\
  analyzed analyze_reply = Some sample_analysis /\
  extracted characters_reply = Some [lit "A"; lit "B"] /\
  nth_error [lit "A"; lit "B"] 1 = Some (lit "B") /\
  label_text (lit "B") = lit "B" /\
  activeCharacter
    (page (fire (Click_character 1) {| page := analysis_done; pending := [] |}))
    = Some (lit "B") /\
  chatInput_focused
    (page (fire (Click_character 1) {| page := analysis_done; pending := [] |}))
    = true /\
  exists i,
    nth_error
      (characterSlots
         (page (fire (Click_character 1)
                  {| page := analysis_done; pending := [] |}))) 1 = Some i /\
    icon_onclick i = lit "B" /\ highlighted i.
Proof.
  assert (H1 : analysis_ready ready_page)
    by (split; [reflexivity | vm_compute; lia]).
  assert (H0 : characterSlots_found ready_page = true) by reflexivity.
  assert (H2 : analyzed analyze_reply = Some sample_analysis) by reflexivity.
  assert (H3 : extracted characters_reply = Some [lit "A"; lit "B"])
    by reflexivity.
  assert (H4 : nth_error [lit "A"; lit "B"] 1 = Some (lit "B")) by reflexivity.
  assert (H5 : label_text (lit "B") = lit "B") by reflexivity.
  destruct (click_selects_the_character ready_page analyze_reply
              characters_reply sample_analysis [lit "A"; lit "B"] 1 (lit "B")
              H1 H0 H2 H3 H4)
    as (_ & Ha & _ & Hb & _ & _ & _ & Hc).
  exact (conj H1 (conj H0 (conj H2 (conj H3 (conj H4 (conj H5
    (conj Ha (conj Hb (Hc H5))))))))).
Defined.

Lemma no_chat_during_an_analysis_witness :
  chatInput_disabled
    (page (run analysis_events (page_load fresh_page))) = false /\
  isAnalyzing
    (page (run (analysis_events ++ [Call_handleAnalysis])
             (page_load fresh_page))) = true /\
  chatInput_disabled
    (page (run (analysis_events ++ [Call_handleAnalysis])
             (page_load fresh_page))) = true /\
  fire Call_handleChat
    (run (analysis_events ++ [Call_handleAnalysis]) (page_load fresh_page))
  = run (analysis_events ++ [Call_handleAnalysis]) (page_load fresh_page).
Proof.
  assert (H0 : chatInput_disabled
                 (page (run analysis_events (page_load fresh_page))) = false)
    by reflexivity.
  assert (H1 : isAnalyzing
                 (page (run (analysis_events ++ [Call_handleAnalysis])
                          (page_load fresh_page))) = true) by reflexivity.
  destruct (no_chat_during_an_analysis fresh_page
              (analysis_events ++ [Call_handleAnalysis]) H1)
    as (Ha & _ & _ & Hb).
  exact (conj H0 (conj H1 (conj Ha Hb))).
Defined.

Lemma chat_panel_witness :
  written_messages (chatOutput fresh_page) = [] /\
  written_messages (chatOutput (page (run chat_events (page_load fresh_page))))
    = chatHistory (page (run chat_events (page_load fresh_page))) /\
  chatHistory (page (run chat_events (page_load fresh_page)))
    = [user_says (lit "Hello"); model_says (lit "Hello traveler")].
Proof.
  assert (H1 : written_messages (chatOutput fresh_page) = []) by reflexivity.
  exact (conj H1
    (conj (chat_panel_follows_the_transcript fresh_page chat_events H1)
       eq_refl)).
Defined.

Lemma buttons_witness :
  analyzeButton_disabled fresh_page = false /\
  findSummaryButton_disabled fresh_page = false /\
  in_flight Analyze
    (run [Edit_storyInput story150; Call_handleAnalysis] (page_load fresh_page))
    = true /\
  analyzeButton_disabled
    (page (run [Edit_storyInput story150; Call_handleAnalysis]
             (page_load fresh_page)))
    = in_flight Analyze
        (run [Edit_storyInput story150; Call_handleAnalysis]
           (page_load fresh_page)) /\
  findSummaryButton_disabled
    (page (run [Edit_storyInput story150; Call_handleAnalysis]
             (page_load fresh_page)))
    = in_flight Search
        (run [Edit_storyInput story150; Call_handleAnalysis]
           (page_load fresh_page)).
Proof.
  assert (H1 : analyzeButton_disabled fresh_page = false) by reflexivity.
  assert (H2 : findSummaryButton_disabled fresh_page = false) by reflexivity.
  exact (conj H1 (conj H2 (conj eq_refl
    (buttons_are_disabled_while_in_flight fresh_page
       [Edit_storyInput story150; Call_handleAnalysis] H1 H2)))).
Defined.

Lemma unanswered_message_witness :
  chat_ready hello_typed /\
  unanswered network_down /\
  chatInput (fst (feed [network_down] (handleChat hello_typed))) = [] /\
  chatHistory (fst (feed [network_down] (handleChat hello_typed)))
    = chatHistory hello_typed
      ++ [user_says (JsString.trim (chatInput hello_typed))] /\
  exists s2 req resume,
    handleChat (set_chatInput (lit "Again")
                  (fst (feed [network_down] (handleChat hello_typed))))
      = (s2, Await req resume) /\
    req = {| endpoint := lit "/chat";
             sent := ChatPayload (JsString.trim (storyInput hello_typed))
                       (chatHistory hello_typed
                        ++ [user_says (JsString.trim (chatInput hello_typed));
                            user_says (JsString.trim (lit "Again"))])
                       (activeCharacter hello_typed) |}.
Proof.
  assert (H1 : chat_ready hello_typed)
    by (vm_compute; repeat split; discriminate).
  assert (H2 : unanswered network_down)
    by (left; exists (lit "Failed to fetch"); reflexivity).
  assert (H3 : JsString.trim (lit "Again") <> []) by discriminate.
  destruct (unanswered_message_is_sent_again hello_typed network_down
              (lit "Again") H1 H2 H3) as (Ha & Hb & Hc).
  exact (conj H1 (conj H2 (conj Ha (conj Hb Hc)))).
Defined.

Lemma late_reply_witness :
  chat_ready hello_typed /\
  fetchAPI chat_reply = Return (response_body (lit "Hello traveler")) /\
  snd (handleChat hello_typed)
    = Await {| endpoint := lit "/chat";
               sent := ChatPayload (JsString.trim (storyInput hello_typed))
                         (chatHistory hello_typed
                          ++ [user_says (JsString.trim (chatInput hello_typed))])
                         (activeCharacter hello_typed) |}
        chat_resume /\
  activeCharacter
    (fst (chat_resume chat_reply
            (setActiveCharacter (Some (lit "B")) (fst (handleChat hello_typed)))))
    = Some (lit "B") /\
  chatHistory
    (fst (chat_resume chat_reply
            (setActiveCharacter (Some (lit "B")) (fst (handleChat hello_typed)))))
    = [model_says (lit "Hello traveler")].
Proof.
  assert (H1 : chat_ready hello_typed)
    by (vm_compute; repeat split; discriminate).
  assert (H2 : lit "B" <> []) by discriminate.
  assert (H3 : fetchAPI chat_reply = Return (response_body (lit "Hello traveler")))
    by reflexivity.
  assert (H4 : lit "Hello traveler" <> []) by discriminate.
  destruct (late_reply_goes_to_the_new_character hello_typed chat_reply
              (response_body (lit "Hello traveler")) (lit "Hello traveler")
              (lit "B") H1 H2 H3 eq_refl H4
              (fst (handleChat hello_typed)) _ chat_resume eq_refl)
    as (Ha & Hb & _).
  exact (conj H1 (conj H3 (conj eq_refl (conj Ha Hb)))).
Defined.

Lemma chat_opens_witness :
  chatInput_disabled fresh_page = true /\
  chatInput_disabled (page (run analysis_events (page_load fresh_page)))
    = false /\
  exists analysisData,
    lastAnalysisData (page (run analysis_events (page_load fresh_page)))
      = Some analysisData /\
    downloads
      (downloadAnalysisData (lit "2026-01-01")
         (page (run analysis_events (page_load fresh_page))))
    = downloads (page (run analysis_events (page_load fresh_page)))
      ++ [{| file_date := lit "2026-01-01"; file_data := analysisData |}].
Proof.
  assert (H1 : chatInput_disabled fresh_page = true) by reflexivity.
  assert (H2 : chatInput_disabled
                 (page (run analysis_events (page_load fresh_page))) = false)
    by reflexivity.
  exact (conj H1 (conj H2
    (chat_opens_only_over_an_analysis fresh_page analysis_events
       (lit "2026-01-01") H1 H2))).
Defined.

(** The converse fails: after the extraction of the characters has
    failed an analysis is retained and can be saved, but the chat is
    closed. *)
Example analysis_without_chat :
  let s := fst (feed [analyze_reply; network_down] (handleAnalysis ready_page)) in
  lastAnalysisData s = Some sample_analysis /\ chatInput_disabled s = true.
Proof. vm_compute. repeat split. Qed.

(** A blank message is not sent, and a message of text is. *)
Example blank_and_text_messages :
  handleChat (set_chatInput (lit "   ") hello_typed)
    = (set_chatInput (lit "   ") hello_typed, Done) /\
  exists s1 req resume, handleChat hello_typed = (s1, Await req resume).
Proof. split; [reflexivity | do 3 eexists; reflexivity]. Qed.
